(** * go-llsd: a shallow embedding of the LLSD codec and its checked properties

    The development follows the Go package [llsd]: the token model and the
    scalar decoders, the binary and XML tokenizers, the reflective unmarshal
    engine ([Unmarshaler]), the field-tag language ([parseTag]) and the XML
    encoder ([XMLEncoder]).

    Conventions.
    - Go [string] is [string]; [[]byte] is [list byte]; [string(b)] and
      [[]byte(s)] are [string_of_list_byte] and [list_byte_of_string].
      A nil slice and an empty slice are both the empty list (the code only
      ever tests [len]).
    - Fixed-width integers are [Z] with the wrap-around written out.
    - A [float64]/[float32] is its IEEE-754 bit pattern, a [Z].
    - A function returning [(T, error)] returns [ret T]; a run-time panic of
      the Go program is the separate outcome [Throw].
    - Destinations are trees: the engine returns the updated destination next
      to the status, so a partially populated destination stays visible. *)

From Stdlib Require Import ZArith String Ascii Strings.Byte List Lia Bool.
From Stdlib Require Import DecimalString DecimalPos.
From stdpp Require Import base gmap strings list.
Import ListNotations.
Set Warnings "-register-all".
Local Open Scope string_scope.
Local Open Scope Z_scope.

(** ** Bytes, machine integers *)

Definition u8 (b : byte) : Z := Z.of_N (Byte.to_N b).

Definition byte_of_Z (z : Z) : byte :=
  match Byte.of_N (Z.to_N (z mod 256)) with
  | Some b => b
  | None => "000"%byte
  end.

(** [intN(x)]: reduction of [x] to a signed integer of [w] bits. *)
Definition wrap_signed (w : Z) (x : Z) : Z :=
  (x + 2 ^ (w - 1)) mod 2 ^ w - 2 ^ (w - 1).

(** [uintN(x)]. *)
Definition wrap_unsigned (w : Z) (x : Z) : Z := x mod 2 ^ w.

(** [binary.BigEndian.Uint32]; [None] is the index-out-of-range panic of a
    slice shorter than four bytes. *)
Definition BigEndian_Uint32 (b : list byte) : option Z :=
  match b with
  | b0 :: b1 :: b2 :: b3 :: _ =>
      Some (Z.lor (Z.lor (Z.lor (u8 b3) (Z.shiftl (u8 b2) 8))
                         (Z.shiftl (u8 b1) 16))
                  (Z.shiftl (u8 b0) 24))
  | _ => None
  end.

(** [binary.BigEndian.Uint64]. *)
Definition BigEndian_Uint64 (b : list byte) : option Z :=
  match b with
  | b0 :: b1 :: b2 :: b3 :: b4 :: b5 :: b6 :: b7 :: _ =>
      Some (Z.lor (Z.lor (Z.lor (Z.lor (Z.lor (Z.lor (Z.lor
        (u8 b7) (Z.shiftl (u8 b6) 8)) (Z.shiftl (u8 b5) 16))
        (Z.shiftl (u8 b4) 24)) (Z.shiftl (u8 b3) 32))
        (Z.shiftl (u8 b2) 40)) (Z.shiftl (u8 b1) 48))
        (Z.shiftl (u8 b0) 56))
  | _ => None
  end.

(** [time.Time], as far as the codec looks at it: seconds and nanoseconds
    since the Unix epoch. *)
Record Time := mkTime { t_sec : Z; t_nsec : Z }.

Definition time_Unix (sec nsec : Z) : Time := mkTime sec nsec.
Definition Time_Unix (t : Time) : Z := t_sec t.

(** ** The [reflect] view of Go types and values *)

Module reflect.

Inductive Kind :=
| Invalid | Bool | Int | Int8 | Int16 | Int32 | Int64
| Uint | Uint8 | Uint16 | Uint32 | Uint64 | Uintptr
| Float32 | Float64 | Complex64 | Complex128
| Array | Chan | Func | Interface | Map | Pointer | Slice
| String | Struct | UnsafePointer.

Definition Kind_eqb (a b : Kind) : bool :=
  match a, b with
  | Invalid, Invalid | Bool, Bool | Int, Int | Int8, Int8 | Int16, Int16
  | Int32, Int32 | Int64, Int64 | Uint, Uint | Uint8, Uint8
  | Uint16, Uint16 | Uint32, Uint32 | Uint64, Uint64 | Uintptr, Uintptr
  | Float32, Float32 | Float64, Float64 | Complex64, Complex64
  | Complex128, Complex128 | Array, Array | Chan, Chan | Func, Func
  | Interface, Interface | Map, Map | Pointer, Pointer | Slice, Slice
  | String, String | Struct, Struct | UnsafePointer, UnsafePointer => true
  | _, _ => false
  end.

(** Which of the four protocol methods a defined type declares, and on
    which receiver.  A value-receiver method is in the method set of [T]
    and of [*T]; a pointer-receiver method only in that of [*T]. *)
Inductive receiver := NoMethod | ValueReceiver | PointerReceiver.

Record MethodSet := mkMethodSet {
  mUnmarshalTextLLSD : receiver;
  mUnmarshalBinaryLLSD : receiver;
  mMarshalTextLLSD : receiver;
  mMarshalBinaryLLSD : receiver
}.

Definition noMethods : MethodSet :=
  mkMethodSet NoMethod NoMethod NoMethod NoMethod.

(** [reflect.Type].  [Basic k] stands for the predeclared type of a scalar
    kind ([bool], [int32], [string], ...) and for the kinds whose values the
    codec never inspects ([chan], [func], [complex128], ...).  [Defined] is
    a type declaration [type name underlying]; [TimeType] is [time.Time],
    a struct whose three fields are unexported. *)
Inductive rtype :=
| Basic (k : Kind)
| SliceOf (elem : rtype)
| ArrayOf (n : nat) (elem : rtype)
| PointerTo (elem : rtype)
| InterfaceOf (numMethod : nat)
| MapOf (key elem : rtype)
| StructOf (fields : list StructField)
| Defined (name : string) (ms : MethodSet) (underlying : rtype)
| TimeType
with StructField :=
| mkStructField (Name PkgPath : string) (Type_ : rtype)
                (Tag : list (string * string)).

Definition sfName (f : StructField) : string :=
  let 'mkStructField n _ _ _ := f in n.
Definition sfPkgPath (f : StructField) : string :=
  let 'mkStructField _ p _ _ := f in p.
Definition sfType (f : StructField) : rtype :=
  let 'mkStructField _ _ t _ := f in t.
Definition sfTag (f : StructField) : list (string * string) :=
  let 'mkStructField _ _ _ t := f in t.

(** [StructTag.Get]: the value of the first entry with that key, else the
    empty string. *)
Fixpoint Tag_Get (tag : list (string * string)) (key : string) : string :=
  match tag with
  | [] => EmptyString
  | (k, v) :: tl => if String.eqb k key then v else Tag_Get tl key
  end.

(** The unexported fields of [time.Time]. *)
Definition timeFields : list StructField :=
  [ mkStructField "wall" "time" (Basic Uint64) [];
    mkStructField "ext" "time" (Basic Int64) [];
    mkStructField "loc" "time" (PointerTo (StructOf [])) [] ].

Fixpoint kindOf (t : rtype) : Kind :=
  match t with
  | Basic k => k
  | SliceOf _ => Slice
  | ArrayOf _ _ => Array
  | PointerTo _ => Pointer
  | InterfaceOf _ => Interface
  | MapOf _ _ => Map
  | StructOf _ => Struct
  | Defined _ _ u => kindOf u
  | TimeType => Struct
  end.

Fixpoint underlying (t : rtype) : rtype :=
  match t with
  | Defined _ _ u => underlying u
  | _ => t
  end.

(** Type identity.  Two defined types are identical when they come from the
    same declaration, which the model reads off the qualified name. *)
Fixpoint rtype_eqb (a b : rtype) {struct a} : bool :=
  match a, b with
  | Basic k, Basic k' => Kind_eqb k k'
  | SliceOf e, SliceOf e' => rtype_eqb e e'
  | ArrayOf n e, ArrayOf n' e' => Nat.eqb n n' && rtype_eqb e e'
  | PointerTo e, PointerTo e' => rtype_eqb e e'
  | InterfaceOf n, InterfaceOf n' => Nat.eqb n n'
  | MapOf k e, MapOf k' e' => rtype_eqb k k' && rtype_eqb e e'
  | StructOf fs, StructOf fs' =>
      (fix go (l l' : list StructField) {struct l} : bool :=
         match l, l' with
         | [], [] => true
         | mkStructField n p t tg :: r, mkStructField n' p' t' tg' :: r' =>
             String.eqb n n' && String.eqb p p' && rtype_eqb t t'
             && bool_decide (tg = tg') && go r r'
         | _, _ => false
         end) fs fs'
  | Defined n _ _, Defined n' _ _ => String.eqb n n'
  | TimeType, TimeType => true
  | _, _ => false
  end.

(** [hasName]: predeclared and defined types have one, type literals do
    not. *)
Definition hasName (t : rtype) : bool :=
  match t with
  | Basic _ | Defined _ _ _ | TimeType => true
  | _ => false
  end.

(** Go values, by shape.  A slice keeps its backing array up to the
    capacity and its length; a nil pointer, interface or map is [None]. *)
Inductive value :=
| VBool (b : bool)
| VInt (i : Z)
| VUint (u : Z)
| VFloat32 (bits : Z)
| VFloat64 (bits : Z)
| VString (s : string)
| VSlice (backing : list value) (len : nat)
| VArray (elems : list value)
| VPointer (pointee : option value)
| VInterface (dyn : option (rtype * value))
| VMap (entries : option (list (string * value)))
| VStruct (fields : list value)
| VTime (t : Time)
| VOpaque.

(** [reflect.Zero]. *)
Fixpoint zero (t : rtype) : value :=
  match t with
  | Basic Bool => VBool false
  | Basic (Int | Int8 | Int16 | Int32 | Int64) => VInt 0
  | Basic (Uint | Uint8 | Uint16 | Uint32 | Uint64 | Uintptr) => VUint 0
  | Basic Float32 => VFloat32 0
  | Basic Float64 => VFloat64 0
  | Basic String => VString EmptyString
  | Basic _ => VOpaque
  | SliceOf _ => VSlice [] 0
  | ArrayOf n e => VArray (replicate n (zero e))
  | PointerTo _ => VPointer None
  | InterfaceOf _ => VInterface None
  | MapOf _ _ => VMap None
  | StructOf fs =>
      VStruct ((fix go (l : list StructField) : list value :=
                  match l with
                  | [] => []
                  | mkStructField _ _ ty _ :: r => zero ty :: go r
                  end) fs)
  | Defined _ _ u => zero u
  | TimeType => VTime (mkTime (-62135596800) 0)
  end.

(** Whether a value has the shape of a type: the well-formed destinations.
    Integers lie in the range of their kind, a slice is no longer than its
    backing array, an array has its length, a struct has its fields. *)
Definition inRange (k : Kind) (x : value) : bool :=
  match k, x with
  | Bool, VBool _ => true
  | Int, VInt n | Int64, VInt n => (- 2 ^ 63 <=? n) && (n <? 2 ^ 63)
  | Int8, VInt n => (- 2 ^ 7 <=? n) && (n <? 2 ^ 7)
  | Int16, VInt n => (- 2 ^ 15 <=? n) && (n <? 2 ^ 15)
  | Int32, VInt n => (- 2 ^ 31 <=? n) && (n <? 2 ^ 31)
  | Uint, VUint n | Uint64, VUint n | Uintptr, VUint n =>
      (0 <=? n) && (n <? 2 ^ 64)
  | Uint8, VUint n => (0 <=? n) && (n <? 2 ^ 8)
  | Uint16, VUint n => (0 <=? n) && (n <? 2 ^ 16)
  | Uint32, VUint n => (0 <=? n) && (n <? 2 ^ 32)
  | Float32, VFloat32 b => (0 <=? b) && (b <? 2 ^ 32)
  | Float64, VFloat64 b => (0 <=? b) && (b <? 2 ^ 64)
  | String, VString _ => true
  | (Complex64 | Complex128 | Chan | Func | UnsafePointer), VOpaque => true
  | _, _ => false
  end.

Fixpoint hasType (x : value) (t : rtype) {struct x} : bool :=
  match x, underlying t with
  | VSlice backing n, SliceOf e =>
      (n <=? length backing)%nat
      && (fix all (l : list value) : bool :=
            match l with
            | [] => true
            | y :: r => hasType y e && all r
            end) backing
  | VArray l, ArrayOf n e =>
      (length l =? n)%nat
      && (fix all (l : list value) : bool :=
            match l with
            | [] => true
            | y :: r => hasType y e && all r
            end) l
  | VPointer None, PointerTo _ => true
  | VPointer (Some y), PointerTo e => hasType y e
  | VInterface None, InterfaceOf _ => true
  | VInterface (Some (T, y)), InterfaceOf _ =>
      negb (Kind_eqb (kindOf T) Interface) && hasType y T
  | VMap None, MapOf _ _ => true
  | VMap (Some entries), MapOf _ e =>
      (fix all (l : list (string * value)) : bool :=
         match l with
         | [] => true
         | (_, y) :: r => hasType y e && all r
         end) entries
  | VStruct xs, StructOf fs =>
      (fix all (l : list value) (fs : list StructField) : bool :=
         match l, fs with
         | [], [] => true
         | y :: r, mkStructField _ _ ty _ :: fr => hasType y ty && all r fr
         | _, _ => false
         end) xs fs
  | VTime _, TimeType => true
  | y, Basic k => inRange k y
  | _, _ => false
  end.

(** [reflect.Value]: a typed value with the two flags the codec's calls
    depend on.  [addressable] is [CanAddr]; [readOnly] marks a value
    reached through an unexported field, for which [Interface] and every
    setter panic. *)
Record Value := mkValue {
  typ : rtype;
  val : value;
  addressable : bool;
  readOnly : bool
}.

Definition Kind_ (v : Value) : Kind := kindOf (typ v).
Definition CanSet (v : Value) : bool := addressable v && negb (readOnly v).
Definition CanInterface (v : Value) : bool := negb (readOnly v).

(** [reflect.ValueOf]. *)
Definition ValueOf (t : rtype) (x : value) : Value := mkValue t x false false.

Definition setVal (v : Value) (x : value) : Value :=
  mkValue (typ v) x (addressable v) (readOnly v).

End reflect.

Import reflect (rtype, value, Value).

(** ** Errors and results *)

(** The error values the package returns or passes on.  [errorString] is the
    value of [errors.New] and [fmt.Errorf]; [NumError] is [*strconv.NumError];
    [ExternalError] is an error of a library routine the model takes as a
    parameter. *)
Inductive error :=
| io_EOF
| errorString (s : string)
| NumError (Func Num Err : string)
| hex_InvalidByteError (b : byte)
| hex_ErrLength
| ExternalError (pkg msg : string)
| MarshalTypeError (Type_ : rtype)
| UnmarshalTypeError (Value : string) (Type_ : rtype) (Offset : Z)
| InvalidLLSDError (Problem : string) (Offset : Z).

(** The [Error] method of [InvalidLLSDError]. *)
Definition InvalidLLSDError_Error (Problem : string) : string :=
  "Invalid LLSD: " ++ Problem.

(** A Go result [(a, err)], or a run-time panic. *)
Inductive ret (A : Type) :=
| Ret (a : A) (err : option error)
| Throw (msg : string).
Arguments Ret {A} a err.
Arguments Throw {A} msg.

(** ** Library routines taken as parameters

    The codec calls these routines of the Go standard library; their
    behaviour is outside the package and is not fixed here.  Floating-point
    numbers go through them as bit patterns. *)
Class GoLibrary := {
  (** [strconv.ParseFloat(s, 64)] *)
  strconv_ParseFloat : string -> Z * option error;
  (** [strconv.Quote], the [%q] verb *)
  strconv_Quote : string -> string;
  (** the conversion [float32(x)] of a [float64] *)
  float32_of_float64 : Z -> Z;
  (** the conversion [float64(x)] of a [float32] *)
  float64_of_float32 : Z -> Z;
  (** the conversion [float64(n)] of an [int64] *)
  float64_of_int64 : Z -> Z;
  (** [fmt.Sprintf("%f", x)] *)
  fmt_Sprintf_f : Z -> string;
  (** [time.Parse(time.RFC3339, s)] *)
  time_Parse_RFC3339 : string -> Time * option error;
  (** [t.Format(time.RFC3339)] *)
  time_Format_RFC3339 : Time -> string;
  (** [base64.StdEncoding.Decode] into a buffer of [DecodedLen] bytes: the
      buffer afterwards, and the error *)
  base64_Decode : list byte -> list byte * option error;
  (** [ascii85.Decode(dst, c, true)] into a buffer of [MaxEncodedLen(len(c))]
      bytes: the buffer afterwards, and the error *)
  ascii85_Decode : list byte -> list byte * option error;
  (** [ascii85.Encode] into a buffer of [MaxEncodedLen(len(b))] bytes: the
      buffer afterwards *)
  ascii85_Encode : list byte -> list byte;
  (** what [xml.EscapeText] writes *)
  xml_EscapeText : list byte -> string
}.


(** ** [strconv], [encoding/hex], [encoding/base64], [strings] *)

Definition digitVal (c : byte) : option Z :=
  let n := u8 c - 48 in
  if (0 <=? n) && (n <=? 9) then Some n else None.

Fixpoint parseDigits (acc : Z) (l : list byte) : option Z :=
  match l with
  | [] => Some acc
  | c :: r =>
      match digitVal c with
      | Some d => parseDigits (acc * 10 + d) r
      | None => None
      end
  end.

(** [strconv.Atoi] on a 64-bit platform: an optional sign and at least one
    decimal digit; out-of-range values are clamped and reported. *)
Definition strconv_Atoi (s : string) : Z * option error :=
  let syntax := (0, Some (NumError "Atoi" s "invalid syntax")) in
  let range n := (n, Some (NumError "Atoi" s "value out of range")) in
  let '(neg, ds) :=
    match list_byte_of_string s with
    | "-"%byte :: r => (true, r)
    | "+"%byte :: r => (false, r)
    | l => (false, l)
    end in
  match ds with
  | [] => syntax
  | _ =>
      match parseDigits 0 ds with
      | None => syntax
      | Some un =>
          if negb neg && (2 ^ 63 <=? un) then range (2 ^ 63 - 1)
          else if neg && (2 ^ 63 <? un) then range (- 2 ^ 63)
          else (if neg then - un else un, None)
      end
  end.

(** [strconv.FormatInt(n, 10)] and [strconv.FormatUint(n, 10)]. *)
Definition strconv_FormatInt (n : Z) : string :=
  DecimalString.NilZero.string_of_int (Z.to_int n).

Definition fromHexChar (c : byte) : option Z :=
  let n := u8 c in
  if (48 <=? n) && (n <=? 57) then Some (n - 48)
  else if (97 <=? n) && (n <=? 102) then Some (n - 97 + 10)
  else if (65 <=? n) && (n <=? 70) then Some (n - 65 + 10)
  else None.

(** [hex.Decode]: the bytes written, and the error. *)
Fixpoint hex_Decode (src : list byte) : list byte * option error :=
  match src with
  | [] => ([], None)
  | [p] =>
      match fromHexChar p with
      | None => ([], Some (hex_InvalidByteError p))
      | Some _ => ([], Some hex_ErrLength)
      end
  | p :: q :: rest =>
      match fromHexChar p, fromHexChar q with
      | None, _ => ([], Some (hex_InvalidByteError p))
      | _, None => ([], Some (hex_InvalidByteError q))
      | Some a, Some b =>
          let '(d, e) := hex_Decode rest in
          (byte_of_Z (Z.lor (Z.shiftl a 4) b) :: d, e)
      end
  end.

Definition hextable (n : Z) : byte :=
  if n <? 10 then byte_of_Z (48 + n) else byte_of_Z (97 + n - 10).

(** [hex.EncodeToString]. *)
Definition hex_EncodeToString (src : list byte) : string :=
  string_of_list_byte
    (flat_map (fun v => [hextable (Z.shiftr (u8 v) 4);
                         hextable (Z.land (u8 v) 15)]) src).

(** [strings.ToUpper] on ASCII text. *)
Definition strings_ToUpper (s : string) : string :=
  string_of_list_byte
    (map (fun c => let n := u8 c in
                   if (97 <=? n) && (n <=? 122) then byte_of_Z (n - 32) else c)
         (list_byte_of_string s)).



(** The standard base64 alphabet. *)
Definition encodeStd (n : Z) : byte :=
  if n <? 26 then byte_of_Z (65 + n)
  else if n <? 52 then byte_of_Z (97 + n - 26)
  else if n <? 62 then byte_of_Z (48 + n - 52)
  else if n =? 62 then "+"%byte else "/"%byte.

(** [base64.StdEncoding.EncodeToString]: three bytes give four characters,
    the remainder is padded with [=]. *)
Fixpoint base64_Encode (src : list byte) : list byte :=
  match src with
  | [] => []
  | [a] =>
      let v := Z.shiftl (u8 a) 16 in
      [encodeStd (Z.land (Z.shiftr v 18) 63);
       encodeStd (Z.land (Z.shiftr v 12) 63); "="%byte; "="%byte]
  | [a; b] =>
      let v := Z.lor (Z.shiftl (u8 a) 16) (Z.shiftl (u8 b) 8) in
      [encodeStd (Z.land (Z.shiftr v 18) 63);
       encodeStd (Z.land (Z.shiftr v 12) 63);
       encodeStd (Z.land (Z.shiftr v 6) 63); "="%byte]
  | a :: b :: c :: rest =>
      let v := Z.lor (Z.lor (Z.shiftl (u8 a) 16) (Z.shiftl (u8 b) 8)) (u8 c) in
      encodeStd (Z.land (Z.shiftr v 18) 63)
      :: encodeStd (Z.land (Z.shiftr v 12) 63)
      :: encodeStd (Z.land (Z.shiftr v 6) 63)
      :: encodeStd (Z.land v 63) :: base64_Encode rest
  end.

Definition base64_EncodeToString (src : list byte) : string :=
  string_of_list_byte (base64_Encode src).

(** [strings.Split(s, sep)] for a one-byte separator: always at least one
    piece. *)
Fixpoint splitBytes (sep : byte) (cur : list byte) (l : list byte)
  : list (list byte) :=
  match l with
  | [] => [rev cur]
  | c :: r =>
      if Byte.eqb c sep then rev cur :: splitBytes sep [] r
      else splitBytes sep (c :: cur) r
  end.

Definition strings_Split (s : string) (sep : byte) : list string :=
  map string_of_list_byte (splitBytes sep [] (list_byte_of_string s)).

(** [strings.ReplaceAll] deleting every hyphen. *)
Definition removeHyphens (s : string) : string :=
  string_of_list_byte
    (List.filter (fun c => negb (Byte.eqb c "-"%byte))
                 (list_byte_of_string s)).

(** [strings.Repeat]. *)
Fixpoint strings_Repeat (s : string) (n : nat) : string :=
  match n with
  | O => EmptyString
  | S k => s ++ strings_Repeat s k
  end.

(** ** Token model (token.go) *)

Inductive ScalarType :=
| Undefined | Boolean | Integer | Real | UUIDType | String | Binary | Date
| URI.

Definition Base16 : string := "base16".
Definition Base64 : string := "base64".
Definition Base85 : string := "base85".

Definition ScalarType_String (t : ScalarType) : string :=
  match t with
  | Undefined => "undef"
  | Boolean => "boolean"
  | Integer => "integer"
  | Real => "real"
  | UUIDType => "uuid"
  | String => "string"
  | Binary => "binary"
  | Date => "date"
  | URI => "uri"
  end.

(** [type Token any].  The engine meets the five structural tokens and
    [Scalar]; [DocumentStart] and [DocumentEnd] are the tokens xml_scan.go
    and decode_test.go name; [OtherToken] is any other Go value handed over
    as a token, known by the name of its type. *)
Inductive Token :=
| ArrayStart
| ArrayEnd
| MapStart
| MapEnd
| Key (k : string)
| Scalar (Type_ : ScalarType) (Data : list byte) (Attr : gmap string string)
| DocumentStart
| DocumentEnd
| OtherToken (typeName : string).

(** [reflect.TypeOf(tok).Name()]. *)
Definition Token_typeName (t : Token) : string :=
  match t with
  | ArrayStart => "ArrayStart"
  | ArrayEnd => "ArrayEnd"
  | MapStart => "MapStart"
  | MapEnd => "MapEnd"
  | Key _ => "Key"
  | Scalar _ _ _ => "Scalar"
  | DocumentStart => "DocumentStart"
  | DocumentEnd => "DocumentEnd"
  | OtherToken n => n
  end.

(** The methods of user types that implement one of the package's hook
    interfaces.  An unmarshal hook gets the receiver's type and value and
    the payload, and gives back the receiver's value after the call; the
    text marshal hook gives the element name and its text. *)
Class UserHooks := {
  call_UnmarshalTextLLSD : rtype -> value -> list byte -> value * ret unit;
  call_UnmarshalBinaryLLSD : rtype -> value -> list byte -> value * ret unit;
  call_MarshalTextLLSD : rtype -> value -> ret (ScalarType * string)
}.

(** [type UUID [16]byte] and [type URL string]. *)
Definition UUID : rtype :=
  reflect.Defined "llsd.UUID" reflect.noMethods
    (reflect.ArrayOf 16 (reflect.Basic reflect.Uint8)).

Definition URL : rtype :=
  reflect.Defined "llsd.URL" reflect.noMethods (reflect.Basic reflect.String).

(** [interface TokenReader]. *)
Class TokenReader (S : Type) := {
  scan_Token : S -> (option Token * option error) * S;
  scan_Offset : S -> Z
}.

(** ** Scalar decoders (token.go) *)

(** [interface scalarDecoder]; a UUID is its sixteen bytes. *)
Record scalarDecoder := {
  real : list byte -> ret Z;
  uuid : list byte -> ret (list byte);
  integer : list byte -> ret Z;
  binary : list byte -> string -> ret (list byte);
  date : list byte -> ret Time;
  boolean : list byte -> ret bool
}.

(** The double-quote character. *)
Definition dquote : string := String.String "034"%char EmptyString.

Definition zeroUUID : list byte := replicate 16 "000"%byte.

Definition isEmpty (c : list byte) : bool :=
  match c with [] => true | _ => false end.

Module textDecoder.

Definition real `{GoLibrary} (c : list byte) : ret Z :=
  if isEmpty c then Ret 0 None
  else
    match strconv_ParseFloat (string_of_list_byte c) with
    | (_, Some err) => Ret 0 (Some err)
    | (f, None) => Ret f None
    end.

(** [h[:16]] panics when the decoded slice is shorter than sixteen bytes. *)
Definition uuid (c : list byte) : ret (list byte) :=
  if isEmpty c then Ret zeroUUID None
  else
    match hex_Decode (list_byte_of_string
                        (removeHyphens (string_of_list_byte c))) with
    | (_, Some err) => Ret zeroUUID (Some err)
    | (h, None) =>
        if (length h <? 16)%nat
        then Throw "slice bounds out of range"
        else Ret (take 16 h) None
    end.

Definition integer (c : list byte) : ret Z :=
  let '(i, err) := strconv_Atoi (string_of_list_byte c) in
  Ret i err.

Definition binary `{GoLibrary} (c : list byte) (encoding : string)
  : ret (list byte) :=
  if isEmpty c then Ret c None
  else if String.eqb encoding Base16 || String.eqb encoding EmptyString then
    let '(written, err) := hex_Decode c in
    Ret (written
         ++ replicate (length c / 2 - length written)%nat "000"%byte)%list err
  else if String.eqb encoding Base64 then
    let '(dst, err) := base64_Decode c in Ret dst err
  else if String.eqb encoding Base85 then
    let '(dst, err) := ascii85_Decode c in Ret dst err
  else
    Ret [] (Some (errorString
                    ("Unknown encoding " ++ dquote ++ encoding ++ dquote))).

Definition boolean (c : list byte) : ret bool :=
  if isEmpty c then Ret false None
  else
    let s := string_of_list_byte c in
    if String.eqb s "1" || String.eqb s "true" then Ret true None
    else if String.eqb s "0" || String.eqb s "false" then Ret false None
    else Ret false (Some (errorString ("Invalid boolean value " ++ s))).

Definition date `{GoLibrary} (c : list byte) : ret Time :=
  if isEmpty c then Ret (time_Unix 0 0) None
  else
    let '(t, err) := time_Parse_RFC3339 (string_of_list_byte c) in
    Ret t err.

End textDecoder.

Module binaryDecoder.

(** [math.Float64frombits] is the identity on bit patterns. *)
Definition real (b : list byte) : ret Z :=
  if isEmpty b then Ret 0 None
  else
    match BigEndian_Uint64 b with
    | Some bits => Ret bits None
    | None => Throw "index out of range"
    end.

Definition uuid (b : list byte) : ret (list byte) :=
  if isEmpty b then Ret zeroUUID None
  else if (length b <? 16)%nat then Throw "slice bounds out of range"
  else Ret (take 16 b) None.

(** [int64(binary.BigEndian.Uint32(b))]: the conversion of a [uint32] to
    [int64] keeps the unsigned value. *)
Definition integer (b : list byte) : ret Z :=
  match BigEndian_Uint32 b with
  | Some bits => Ret bits None
  | None => Throw "index out of range"
  end.

Definition binary (b : list byte) (encoding : string) : ret (list byte) :=
  Ret b None.

Definition boolean (b : list byte) : ret bool :=
  Ret (1 <? length b)%nat None.

Definition date (b : list byte) : ret Time :=
  match integer b with
  | Throw m => Throw m
  | Ret _ (Some err) => Ret (time_Unix 0 0) (Some err)
  | Ret epoch None => Ret (time_Unix epoch 0) None
  end.

End binaryDecoder.

Definition textDecoder `{GoLibrary} : scalarDecoder :=
  {| real := textDecoder.real; uuid := textDecoder.uuid;
     integer := textDecoder.integer; binary := textDecoder.binary;
     date := textDecoder.date; boolean := textDecoder.boolean |}.

Definition binaryDecoder : scalarDecoder :=
  {| real := binaryDecoder.real; uuid := binaryDecoder.uuid;
     integer := binaryDecoder.integer; binary := binaryDecoder.binary;
     date := binaryDecoder.date; boolean := binaryDecoder.boolean |}.

(** ** Binary tokenizer (binary_scan.go) *)

Module BinaryScanner.

Definition BinaryHeader : string :=
  "<?llsd/binary?>" ++ String.String "010"%char EmptyString.

(** The scanner over a [bytes.Reader]: the bytes not yet read, and [off]. *)
Record t := mk { r : list byte; off : Z }.

Definition New (data : list byte) : t := mk data 0.

Definition Offset (s : t) : Z := off s.

(** [read]: a buffer of [num] bytes filled from the reader.  The reader
    reports [io.EOF] only when it has nothing left; a short read leaves the
    rest of the buffer zero and is no error. *)
Definition read (num : nat) (s : t) : (list byte * option error) * t :=
  let got := take num (r s) in
  let buf := (got ++ replicate (num - length got)%nat "000"%byte)%list in
  let err := match r s with [] => Some io_EOF | _ => None end in
  ((buf, err), mk (drop num (r s)) (off s + Z.of_nat num)).

Definition size_of (buf : list byte) : nat :=
  match BigEndian_Uint32 buf with
  | Some n => Z.to_nat n
  | None => O
  end.

(** A length prefix and then that many bytes. *)
Definition readSized (mkTok : list byte -> Token) (s : t)
  : (option Token * option error) * t :=
  match read 4 s with
  | ((_, Some err), s1) => ((None, Some err), s1)
  | ((buf, None), s1) =>
      let '((buf', err), s2) := read (size_of buf) s1 in
      ((Some (mkTok buf'), err), s2)
  end.

(** One turn of the loop of [Token]: a token and error, or [continue] after
    the header. *)
Definition step (s : t) : ((option Token * option error) * t) + t :=
  match read 1 s with
  | ((_, Some err), s1) => inl ((None, Some err), s1)
  | ((op, None), s1) =>
      let invalid :=
        inl ((None,
              Some (errorString ("Invalid LLSD " ++ string_of_list_byte op))),
             s1) in
      match op with
      | ["i"%byte] =>
          match read 4 s1 with
          | ((_, Some err), s2) => inl ((None, Some err), s2)
          | ((buf, None), s2) => inl ((Some (Scalar Integer buf ∅), None), s2)
          end
      | ["r"%byte] =>
          let '((buf, err), s2) := read 8 s1 in
          inl ((Some (Scalar Real buf ∅), err), s2)
      | ["u"%byte] =>
          let '((buf, err), s2) := read 16 s1 in
          inl ((Some (Scalar UUIDType buf ∅), err), s2)
      | ["b"%byte] => inl (readSized (fun b => Scalar Binary b ∅) s1)
      | ["s"%byte] => inl (readSized (fun b => Scalar String b ∅) s1)
      | ["d"%byte] =>
          let '((buf, err), s2) := read 4 s1 in
          inl ((Some (Scalar Date buf ∅), err), s2)
      | ["k"%byte] => inl (readSized (fun b => Key (string_of_list_byte b)) s1)
      | ["{"%byte] =>
          let '((_, err), s2) := read 4 s1 in inl ((Some MapStart, err), s2)
      | ["}"%byte] => inl ((Some MapEnd, None), s1)
      | ["["%byte] =>
          let '((_, err), s2) := read 4 s1 in inl ((Some ArrayStart, err), s2)
      | ["]"%byte] => inl ((Some ArrayEnd, None), s1)
      | ["1"%byte] => inl ((Some (Scalar Boolean ["001"%byte] ∅), None), s1)
      | ["0"%byte] => inl ((Some (Scalar Boolean [] ∅), None), s1)
      | ["!"%byte] => inl ((Some (Scalar Undefined [] ∅), None), s1)
      | ["<"%byte] =>
          if off s1 =? 1 then
            match read 15 s1 with
            | ((_, Some err), s2) => inl ((None, Some err), s2)
            | ((buf, None), s2) =>
                let header := "<" ++ string_of_list_byte buf in
                if String.eqb header BinaryHeader then inr s2
                else inl ((None,
                           Some (errorString
                                   ("Invalid LLSD: unrecognized header "
                                    ++ header))), s2)
            end
          else invalid
      | _ => invalid
      end
  end.

(** The loop of [Token]; [fuel] bounds the number of turns. *)
Fixpoint Token_loop (fuel : nat) (s : t)
  : option ((option Token * option error) * t) :=
  match fuel with
  | O => None
  | S k =>
      match step s with
      | inl res => Some res
      | inr s' => Token_loop k s'
      end
  end.

End BinaryScanner.


(** The method [Token] of [BinaryScanner]. *)
Definition BinaryScanner_Token (s : BinaryScanner.t)
  : (option Token * option error) * BinaryScanner.t :=
  match BinaryScanner.Token_loop 2 s with
  | Some res => res
  | None => ((None, None), s)
  end.

#[export] Instance BinaryScanner_TokenReader : TokenReader BinaryScanner.t :=
  {| scan_Token := BinaryScanner_Token;
     scan_Offset := BinaryScanner.Offset |}.

(** ** The token reader of the tests (decode_test.go) *)

Module mockTokenReader.

(** An entry of [tokens] is a token or an error value. *)
Record t := mk { tokens : list (Token + error); offset : Z }.

Definition Token (m : t) : (option Token * option error) * t :=
  match tokens m with
  | tok :: rest =>
      let m' := mk rest (offset m + 1) in
      match tok with
      | inr err => ((None, Some err), m')
      | inl tk => ((Some tk, None), m')
      end
  | [] => ((None, Some io_EOF), m)
  end.

Definition Offset (m : t) : Z := offset m.

End mockTokenReader.

#[export] Instance mockTokenReader_TokenReader
  : TokenReader mockTokenReader.t :=
  {| scan_Token := mockTokenReader.Token;
     scan_Offset := mockTokenReader.Offset |}.

(** ** [encoding/xml], as the tokenizer sees it *)

Module xml.

(** [xml.Token]; an attribute is its local name and value. *)
Inductive Token :=
| StartElement (Local : string) (Attr : list (string * string))
| EndElement (Local : string)
| CharData (b : list byte)
| Comment (b : list byte)
| ProcInst (Target : string) (Inst : list byte)
| Directive (b : list byte).

Definition typeName (t : Token) : string :=
  match t with
  | StartElement _ _ => "xml.StartElement"
  | EndElement _ => "xml.EndElement"
  | CharData _ => "xml.CharData"
  | Comment _ => "xml.Comment"
  | ProcInst _ _ => "xml.ProcInst"
  | Directive _ => "xml.Directive"
  end.

(** [xml.Decoder] over a document already cut into tokens, each with the
    input offset just after it; [final] is what the decoder returns once
    the tokens are used up ([io.EOF], or a syntax error). *)
Record Decoder := mkDecoder {
  pending : list (Token * Z);
  InputOffset : Z;
  final : error
}.

Definition Decoder_Token (d : Decoder) : (option Token * option error) * Decoder :=
  match pending d with
  | [] => ((None, Some (final d)), d)
  | (t, o) :: rest => ((Some t, None), mkDecoder rest o (final d))
  end.

Definition Header : string :=
  "<?xml version=" ++ dquote ++ "1.0" ++ dquote ++ " encoding=" ++ dquote
  ++ "UTF-8" ++ dquote ++ "?>" ++ String.String "010"%char EmptyString.

End xml.

(** The table [scalarTypes] of the XML tokenizer. *)
Definition scalarTypes (name : string) : option ScalarType :=
  if String.eqb name "string" then Some String
  else if String.eqb name "real" then Some Real
  else if String.eqb name "uuid" then Some UUIDType
  else if String.eqb name "integer" then Some Integer
  else if String.eqb name "boolean" then Some Boolean
  else if String.eqb name "undef" then Some Undefined
  else if String.eqb name "binary" then Some Binary
  else if String.eqb name "uri" then Some URI
  else if String.eqb name "date" then Some Date
  else None.

(** The attribute loop: later attributes of the same name win. *)
Definition attrMap (attrs : list (string * string)) : gmap string string :=
  fold_left (fun m a => <[fst a := snd a]> m) attrs ∅.

(** [charData], the same in both versions of the tokenizer: [None] is the
    nil slice returned for the end element of a self-closing element. *)
Definition charData (d : xml.Decoder)
  : (option (list byte) * option error) * xml.Decoder :=
  match xml.Decoder_Token d with
  | ((_, Some err), d') => ((None, Some err), d')
  | ((Some (xml.CharData b), None), d') => ((Some b, None), d')
  | ((Some (xml.EndElement _), None), d') => ((None, None), d')
  | ((Some t, None), d') =>
      ((None, Some (errorString ("Invalid LLSD: got unexpected "
                                 ++ xml.typeName t))), d')
  | ((None, None), d') => ((None, None), d')
  end.

Definition bytesOrNil (b : option (list byte)) : list byte :=
  match b with Some l => l | None => [] end.

(** ** XML tokenizer, as in xml_scan.go

    [<llsd>] and [</llsd>] come out as [DocumentStart] and [DocumentEnd],
    and the token after the character data of a scalar is always consumed. *)

Module xml_scan.

Fixpoint Token_from (l : list (xml.Token * Z)) (pos : Z) (fin : error)
  {struct l} : (option Token * option error) * xml.Decoder :=
  match l with
  | [] => ((None, Some fin), xml.mkDecoder [] pos fin)
  | (tok, o) :: rest =>
      let d := xml.mkDecoder rest o fin in
      match tok with
      | xml.StartElement name attrs =>
          if String.eqb name "array" then ((Some ArrayStart, None), d)
          else if String.eqb name "map" then ((Some MapStart, None), d)
          else if String.eqb name "key" then
            match charData d with
            | ((b, Some err), d1) =>
                ((Some (Key (string_of_list_byte (bytesOrNil b))), Some err),
                 d1)
            | ((b, None), d1) =>
                let '((_, err), d2) := xml.Decoder_Token d1 in
                ((Some (Key (string_of_list_byte (bytesOrNil b))), err), d2)
            end
          else if String.eqb name "llsd" then ((Some DocumentStart, None), d)
          else
            match scalarTypes name with
            | None =>
                ((None, Some (errorString ("Unknown LLSD type " ++ dquote
                                           ++ name ++ dquote))), d)
            | Some ty =>
                match charData d with
                | ((_, Some err), d1) => ((None, Some err), d1)
                | ((b, None), d1) =>
                    let '((_, err), d2) := xml.Decoder_Token d1 in
                    ((Some (Scalar ty (bytesOrNil b) (attrMap attrs)), err),
                     d2)
                end
            end
      | xml.EndElement name =>
          if String.eqb name "array" then ((Some ArrayEnd, None), d)
          else if String.eqb name "map" then ((Some MapEnd, None), d)
          else if String.eqb name "llsd" then ((Some DocumentEnd, None), d)
          else ((None, Some (errorString
                               ("Invalid LLSD: unexpected EndElement "
                                ++ name))), d)
      | xml.Comment _ | xml.ProcInst _ _ | xml.CharData _ =>
          Token_from rest o fin
      | xml.Directive _ =>
          ((None, Some (errorString
                          ("Invalid LLSD. Unexpected " ++ xml.typeName tok
                           ++ " at " ++ strconv_FormatInt o))), d)
      end
  end.

Definition Token (d : xml.Decoder)
  : (option Token * option error) * xml.Decoder :=
  Token_from (xml.pending d) (xml.InputOffset d) (xml.final d).

Definition Offset (d : xml.Decoder) : Z := xml.InputOffset d.

End xml_scan.

(** ** XML tokenizer, as in unnamed/part_000

    [<llsd>] and [</llsd>] are skipped, and the end element of a scalar is
    consumed only when the scalar had character data. *)

Module XMLScanner.

Fixpoint Token_from (l : list (xml.Token * Z)) (pos : Z) (fin : error)
  {struct l} : (option Token * option error) * xml.Decoder :=
  match l with
  | [] => ((None, Some fin), xml.mkDecoder [] pos fin)
  | (tok, o) :: rest =>
      let d := xml.mkDecoder rest o fin in
      match tok with
      | xml.StartElement name attrs =>
          if String.eqb name "array" then ((Some ArrayStart, None), d)
          else if String.eqb name "map" then ((Some MapStart, None), d)
          else if String.eqb name "key" then
            match charData d with
            | ((b, Some err), d1) =>
                ((Some (Key (string_of_list_byte (bytesOrNil b))), Some err),
                 d1)
            | ((b, None), d1) =>
                let '((_, err), d2) := xml.Decoder_Token d1 in
                ((Some (Key (string_of_list_byte (bytesOrNil b))), err), d2)
            end
          else if String.eqb name "llsd" then Token_from rest o fin
          else
            match scalarTypes name with
            | None =>
                ((None, Some (errorString ("Unknown LLSD type " ++ dquote
                                           ++ name ++ dquote))), d)
            | Some ty =>
                match charData d with
                | ((_, Some err), d1) => ((None, Some err), d1)
                | ((Some innerText, None), d1) =>
                    let '((_, err), d2) := xml.Decoder_Token d1 in
                    ((Some (Scalar ty innerText (attrMap attrs)), err), d2)
                | ((None, None), d1) =>
                    ((Some (Scalar ty [] (attrMap attrs)), None), d1)
                end
            end
      | xml.EndElement name =>
          if String.eqb name "array" then ((Some ArrayEnd, None), d)
          else if String.eqb name "map" then ((Some MapEnd, None), d)
          else if String.eqb name "llsd" then Token_from rest o fin
          else ((None, Some (errorString
                               ("Invalid LLSD: unexpected EndElement "
                                ++ name))), d)
      | xml.Comment _ | xml.ProcInst _ _ | xml.CharData _ =>
          Token_from rest o fin
      | xml.Directive _ =>
          ((None, Some (errorString
                          ("Invalid LLSD. Unexpected " ++ xml.typeName tok
                           ++ " at " ++ strconv_FormatInt o))), d)
      end
  end.

Definition Token (d : xml.Decoder)
  : (option Token * option error) * xml.Decoder :=
  Token_from (xml.pending d) (xml.InputOffset d) (xml.final d).

Definition Offset (d : xml.Decoder) : Z := xml.InputOffset d.

End XMLScanner.

(** The source holds two versions of [NewXMLScanner]: that of
    unnamed/part_000 and that of xml_scan.go.  Neither is a default: what is
    stated of [UnmarshalXML] names the one it is stated for. *)
Definition XMLScanner_TokenReader : TokenReader xml.Decoder :=
  {| scan_Token := XMLScanner.Token; scan_Offset := XMLScanner.Offset |}.

Definition xml_scan_TokenReader : TokenReader xml.Decoder :=
  {| scan_Token := xml_scan.Token; scan_Offset := xml_scan.Offset |}.

(** ** The methods of [reflect.Value] the codec calls

    Each method that panics in Go returns [Panic]. *)

Module reflectValue.

Import reflect.

Inductive outcome (A : Type) :=
| Ok (a : A)
| Panic (msg : string).
Arguments Ok {A} a.
Arguments Panic {A} msg.

(** The dynamic type and value of [v]: what an interface value holds, else
    [v] itself; [None] for a nil interface. *)
Definition dynamic (v : Value) : option (rtype * value) :=
  match Kind_ v, val v with
  | Interface, VInterface d => d
  | Interface, _ => None
  | _, x => Some (typ v, x)
  end.

(** [v.Interface()]. *)
Definition Interface_ (v : Value) : outcome (option (rtype * value)) :=
  if readOnly v then
    Panic "reflect.Value.Interface: cannot return value obtained from unexported field or method"
  else Ok (dynamic v).

(** [t.Elem()]. *)
Definition elemType (t : rtype) : option rtype :=
  match underlying t with
  | PointerTo e | SliceOf e | ArrayOf _ e | MapOf _ e => Some e
  | _ => None
  end.

Definition keyType (t : rtype) : option rtype :=
  match underlying t with
  | MapOf k _ => Some k
  | _ => None
  end.

Definition IsNil (v : Value) : outcome bool :=
  match val v with
  | VPointer p => Ok (bool_decide (p = None))
  | VInterface d => Ok (match d with None => true | Some _ => false end)
  | VMap m => Ok (match m with None => true | Some _ => false end)
  | VSlice b _ => Ok (match b with [] => true | _ => false end)
  | _ => Panic "reflect: call of reflect.Value.IsNil on non-nillable Value"
  end.

(** [v.Elem()]: the pointee is addressable and inherits the read-only flag;
    [None] is the zero [Value] of a nil pointer or interface. *)
Definition Elem (v : Value) : outcome (option Value) :=
  match val v, elemType (typ v) with
  | VPointer None, _ => Ok None
  | VPointer (Some x), Some e => Ok (Some (mkValue e x true (readOnly v)))
  | VInterface None, _ => Ok None
  | VInterface (Some (t, x)), _ => Ok (Some (mkValue t x false (readOnly v)))
  | _, _ => Panic "reflect: call of reflect.Value.Elem on non-pointer Value"
  end.

(** [reflect.New(t)]. *)
Definition New (t : rtype) : Value := ValueOf (PointerTo t) (VPointer (Some (zero t))).

(** [directlyAssignable(T, V)]. *)
Definition directlyAssignable (T V : rtype) : bool :=
  if rtype_eqb T V then true
  else if (hasName T && hasName V) || negb (Kind_eqb (kindOf T) (kindOf V))
  then false
  else rtype_eqb (underlying T) (underlying V).

(** [implements(T, V)]: every type implements the empty interface.  The
    model tracks no other methods than the four hooks, so an interface type
    with methods is implemented by no type. *)
Definition implements (T V : rtype) : bool :=
  match underlying T with
  | InterfaceOf O => true
  | _ => false
  end.

(** [v.assignTo(dst)]. *)
Definition assignTo (x : Value) (dst : rtype) : outcome value :=
  if directlyAssignable dst (typ x) then Ok (val x)
  else if implements dst (typ x) then
    match Kind_ x, val x with
    | Interface, VInterface d => Ok (VInterface d)
    | _, y => Ok (VInterface (Some (typ x, y)))
    end
  else Panic "reflect.Set: value is not assignable to type".

Definition mustBeAssignable (v : Value) : option string :=
  if readOnly v then
    Some "reflect: reflect.Value.Set using value obtained using unexported field"
  else if negb (addressable v) then
    Some "reflect: reflect.Value.Set using unaddressable value"
  else None.

Definition Set_ (v x : Value) : outcome Value :=
  match mustBeAssignable v with
  | Some m => Panic m
  | None =>
      if readOnly x then Panic "reflect: value obtained using unexported field"
      else
        match assignTo x (typ v) with
        | Ok y => Ok (setVal v y)
        | Panic m => Panic m
        end
  end.

(** The width in bits of an integer kind, on a 64-bit platform. *)
Definition intBits (k : Kind) : option Z :=
  match k with
  | Int | Int64 => Some 64
  | Int8 => Some 8
  | Int16 => Some 16
  | Int32 => Some 32
  | _ => None
  end.

Definition uintBits (k : Kind) : option Z :=
  match k with
  | Uint | Uint64 | Uintptr => Some 64
  | Uint8 => Some 8
  | Uint16 => Some 16
  | Uint32 => Some 32
  | _ => None
  end.

(** [v.SetInt(x)] stores [x] converted to the destination's width. *)
Definition SetInt (v : Value) (x : Z) : outcome Value :=
  match mustBeAssignable v with
  | Some m => Panic m
  | None =>
      match intBits (Kind_ v) with
      | Some w => Ok (setVal v (VInt (wrap_signed w x)))
      | None => Panic "reflect: call of reflect.Value.SetInt on non-int Value"
      end
  end.

Definition SetUint (v : Value) (x : Z) : outcome Value :=
  match mustBeAssignable v with
  | Some m => Panic m
  | None =>
      match uintBits (Kind_ v) with
      | Some w => Ok (setVal v (VUint (wrap_unsigned w x)))
      | None => Panic "reflect: call of reflect.Value.SetUint on non-uint Value"
      end
  end.

Definition SetFloat `{GoLibrary} (v : Value) (x : Z) : outcome Value :=
  match mustBeAssignable v with
  | Some m => Panic m
  | None =>
      match Kind_ v with
      | Float32 => Ok (setVal v (VFloat32 (float32_of_float64 x)))
      | Float64 => Ok (setVal v (VFloat64 x))
      | _ => Panic "reflect: call of reflect.Value.SetFloat on non-float Value"
      end
  end.

Definition SetString (v : Value) (x : string) : outcome Value :=
  match mustBeAssignable v with
  | Some m => Panic m
  | None =>
      match Kind_ v with
      | String => Ok (setVal v (VString x))
      | _ => Panic "reflect: call of reflect.Value.SetString on non-string Value"
      end
  end.

Definition SetBool (v : Value) (x : bool) : outcome Value :=
  match mustBeAssignable v with
  | Some m => Panic m
  | None =>
      match Kind_ v with
      | Bool => Ok (setVal v (VBool x))
      | _ => Panic "reflect: call of reflect.Value.SetBool on non-bool Value"
      end
  end.

(** [v.OverflowInt(x)]: [x] differs from its truncation to the width. *)
Definition OverflowInt (v : Value) (x : Z) : outcome bool :=
  match intBits (Kind_ v) with
  | Some w => Ok (negb (x =? wrap_signed w x))
  | None => Panic "reflect: call of reflect.Value.OverflowInt on non-int Value"
  end.

(** [overflowFloat32]: the magnitude lies above [math.MaxFloat32] and is
    finite.  On bit patterns of non-negative doubles the order is that of
    the integers; a NaN lies above [math.MaxFloat64]. *)
Definition overflowFloat32 (x : Z) : bool :=
  let m := Z.land x (2 ^ 63 - 1) in
  (5183643170566569984 <? m) && (m <=? 9218868437227405311).

Definition OverflowFloat (v : Value) (x : Z) : outcome bool :=
  match Kind_ v with
  | Float32 => Ok (overflowFloat32 x)
  | Float64 => Ok false
  | _ => Panic "reflect: call of reflect.Value.OverflowFloat on non-float Value"
  end.

(** A [[]byte] as a [reflect.Value], and back. *)
Definition bytesType : rtype := SliceOf (Basic Uint8).

Definition ofBytes (b : list byte) : Value :=
  ValueOf bytesType (VSlice (map (fun c => VUint (u8 c)) b) (length b)).

Definition toByte (x : value) : byte :=
  match x with
  | VUint n => byte_of_Z n
  | _ => "000"%byte
  end.

(** [v.Len()] and the elements up to it, for arrays, slices and strings. *)
Definition elements (v : Value) : outcome (list value) :=
  match val v with
  | VSlice backing n => Ok (take n backing)
  | VArray l => Ok l
  | _ => Panic "reflect: call of reflect.Value.Len on a Value without elements"
  end.

(** [reflect.Copy(dst, src)] into an array: the array must be settable and
    the element types identical; as many elements as both hold are copied. *)
Definition Copy (dst src : Value) : outcome Value :=
  match mustBeAssignable dst with
  | Some m => Panic m
  | None =>
      match elemType (typ dst), elemType (typ src), val dst, elements src with
      | Some de, Some se, VArray old, Ok new =>
          if rtype_eqb de se then
            Ok (setVal dst (VArray (take (length old) new
                                    ++ drop (length new) old)%list))
          else Panic "reflect.Copy: type mismatch"
      | _, _, _, _ => Panic "reflect.Copy: not an array"
      end
  end.

(** [v.Field(i)] of a struct value: addressable like the struct, read-only
    when the field is unexported. *)
Definition fieldsOf (t : rtype) : option (list StructField) :=
  match underlying t with
  | StructOf fs => Some fs
  | TimeType => Some timeFields
  | _ => None
  end.

Definition Field (v : Value) (i : nat) : outcome Value :=
  match fieldsOf (typ v) with
  | None => Panic "reflect: call of reflect.Value.Field on non-struct Value"
  | Some fs =>
      match fs !! i with
      | None => Panic "reflect: Field index out of range"
      | Some f =>
          let x := match val v with
                   | VStruct xs => default VOpaque (xs !! i)
                   | _ => VOpaque
                   end in
          Ok (mkValue (sfType f) x (addressable v)
                (readOnly v || negb (String.eqb (sfPkgPath f) EmptyString)))
      end
  end.

(** Writing a field back into its struct. *)
Definition putField (v : Value) (i : nat) (x : value) : Value :=
  match val v with
  | VStruct xs => setVal v (VStruct (<[i := x]> xs))
  | _ => v
  end.

(** [v.SetMapIndex(reflect.ValueOf(key), subv)]. *)
Definition SetMapIndex (v : Value) (key : string) (subv : Value)
  : outcome Value :=
  if readOnly v || readOnly subv then
    Panic "reflect: reflect.Value.SetMapIndex using value obtained using unexported field"
  else
    match keyType (typ v), elemType (typ v), val v with
    | Some kt, Some et, reflect.VMap m =>
        match assignTo (ValueOf (reflect.Basic reflect.String)
                          (reflect.VString key)) kt,
              assignTo subv et with
        | Ok _, Ok x =>
            match m with
            | None => Panic "assignment to entry in nil map"
            | Some entries =>
                Ok (setVal v (reflect.VMap (Some
                     (if existsb (fun e => String.eqb (fst e) key) entries
                      then map (fun e => if String.eqb (fst e) key
                                         then (key, x) else e) entries
                      else (entries ++ [(key, x)])%list))))
            end
        | Panic msg, _ | _, Panic msg => Panic msg
        end
    | _, _, _ => Panic "reflect: call of reflect.Value.SetMapIndex on non-map Value"
    end.

(** The slice operations of [array]. *)
Definition Cap (v : Value) : nat :=
  match val v with
  | reflect.VSlice backing _ => length backing
  | reflect.VArray l => length l
  | _ => O
  end.

Definition Len (v : Value) : outcome nat :=
  match val v with
  | reflect.VSlice _ n => Ok n
  | reflect.VArray l => Ok (length l)
  | reflect.VString s => Ok (String.length s)
  | reflect.VMap m => Ok (length (default [] m))
  | _ => Panic "reflect: call of reflect.Value.Len on a Value without length"
  end.

(** The growth step: a new backing array of capacity [cap + cap/2], at least
    four, holding the old elements; then [v.Set]. *)
Definition grow (v : Value) : outcome Value :=
  match val v, elemType (typ v) with
  | reflect.VSlice backing n, Some e =>
      let newcap := Nat.max 4 (length backing + length backing / 2)%nat in
      let newv :=
        ValueOf (typ v)
          (reflect.VSlice (take n backing
                           ++ replicate (newcap - n)%nat (reflect.zero e))%list
                          n) in
      Set_ v newv
  | _, _ => Panic "reflect.MakeSlice of non-slice type"
  end.

Definition SetLen (v : Value) (n : nat) : outcome Value :=
  match mustBeAssignable v with
  | Some m => Panic m
  | None =>
      match val v with
      | reflect.VSlice backing _ =>
          if (length backing <? n)%nat
          then Panic "reflect: slice length out of range in SetLen"
          else Ok (setVal v (reflect.VSlice backing n))
      | _ => Panic "reflect: call of reflect.Value.SetLen on non-slice Value"
      end
  end.

(** [v.Index(i)] for [i < v.Len()], and writing the element back. *)
Definition Index_ (v : Value) (i : nat) : outcome Value :=
  match val v, elemType (typ v) with
  | reflect.VSlice backing _, Some e =>
      match backing !! i with
      | Some x => Ok (mkValue e x true (readOnly v))
      | None => Panic "reflect: slice index out of range"
      end
  | reflect.VArray l, Some e =>
      match l !! i with
      | Some x => Ok (mkValue e x (addressable v) (readOnly v))
      | None => Panic "reflect: array index out of range"
      end
  | _, _ => Panic "reflect: call of reflect.Value.Index on a Value without elements"
  end.

Definition putIndex (v : Value) (i : nat) (x : value) : Value :=
  match val v with
  | reflect.VSlice backing n => setVal v (reflect.VSlice (<[i := x]> backing) n)
  | reflect.VArray l => setVal v (reflect.VArray (<[i := x]> l))
  | _ => v
  end.

End reflectValue.

(** ** Field descriptors and the tag language (decode.go) *)

Record tag := mkTag {
  Encoding : string;
  Name : string;
  Omit : bool;
  OmitEmpty : bool
}.

(** The loop over [values[1:]]. *)
Fixpoint parseOptions (vs : list string) (omitEmpty : bool) (encoding : string)
  : bool * string :=
  match vs with
  | [] => (omitEmpty, encoding)
  | v :: rest =>
      if String.eqb v "omitempty" then parseOptions rest true encoding
      else if String.eqb v Base16 || String.eqb v Base64 || String.eqb v Base85
      then parseOptions rest omitEmpty v
      else parseOptions rest omitEmpty encoding
  end.

Definition parseTag (t name : string) : tag :=
  if String.eqb t EmptyString then mkTag EmptyString name false false
  else
    let values := strings_Split t ","%byte in
    if String.eqb t "-" then mkTag EmptyString name true false
    else
      let name :=
        match values with
        | v0 :: _ => if String.eqb v0 EmptyString then name else v0
        | [] => name
        end in
      let '(omitEmpty, encoding) := parseOptions (tl values) false Base16 in
      mkTag encoding name false omitEmpty.

(** [fieldInfo]: the struct field, its index, and the parsed tag. *)
Record fieldInfo := mkFieldInfo {
  StructField_ : reflect.StructField;
  Index : nat;
  LLSDTag : tag
}.

(** [fieldsForType]: later fields replace earlier ones of the same wire
    name. *)
Fixpoint fieldsFrom (i : nat) (fs : list reflect.StructField)
  (fields : gmap string fieldInfo) : gmap string fieldInfo :=
  match fs with
  | [] => fields
  | field :: rest =>
      let tagStr := reflect.Tag_Get (reflect.sfTag field) "llsd" in
      let tagStr := if String.eqb tagStr EmptyString
                    then reflect.Tag_Get (reflect.sfTag field) "json"
                    else tagStr in
      let tg := parseTag tagStr (reflect.sfName field) in
      fieldsFrom (S i) rest (<[Name tg := mkFieldInfo field i tg]> fields)
  end.

Definition fieldsForType (t : rtype) : gmap string fieldInfo :=
  match reflectValue.fieldsOf t with
  | Some fs => fieldsFrom O fs ∅
  | None => ∅
  end.

(** The cache only memoizes [fieldsForType]. *)
Definition cachedFieldsForType (t : rtype) : gmap string fieldInfo :=
  fieldsForType t.

(** ** The unmarshal engine (decode.go) *)

(** How a call of the engine ends: [nil], an error, a panic; [OutOfFuel]
    belongs to the model only. *)
Inductive status :=
| Done
| Failed (e : error)
| Panicked (msg : string)
| OutOfFuel.

Module Unmarshaler.

Import reflectValue.
Import reflect (rtype, value, Value, typ, val, addressable, readOnly, mkValue,
  setVal, ValueOf, Kind_, kindOf, MethodSet, receiver).

Record t (S : Type) := mk {
  DisallowUnknownFields : bool;
  text : bool;
  dec : scalarDecoder;
  scan : S;
  tok : option Token
}.
Arguments mk {S}.
Arguments DisallowUnknownFields {S}.
Arguments text {S}.
Arguments dec {S}.
Arguments scan {S}.
Arguments tok {S}.

Notation "'let!' x ':=' e 'else' v 'in' k" :=
  (match e with
   | Ok x => k
   | Panic m => (Panicked m, v)
   end)
  (at level 10, x pattern, e at level 100, v at level 100, k at level 200,
   only parsing).

Notation "'let?' x ':=' e 'else' v 'in' k" :=
  (match e with
   | Throw m => (Panicked m, v)
   | Ret _ (Some err) => (Failed err, v)
   | Ret x None => k
   end)
  (at level 10, x pattern, e at level 100, v at level 100, k at level 200,
   only parsing).

Definition finish (v : Value) (o : outcome Value) : status * Value :=
  match o with
  | Ok v' => (Done, v')
  | Panic m => (Panicked m, v)
  end.

Section Engine.

Context `{GoLibrary} `{UserHooks} {S : Type} `{TokenReader S}.

Definition token (u : t S) : (option Token * option error) * t S :=
  let '((tk, err), s') := scan_Token (scan u) in
  ((tk, err), mk (DisallowUnknownFields u) (text u) (dec u) s' tk).

Definition next (u : t S) : option error * t S :=
  let '((tk, err), s') := scan_Token (scan u) in
  (err, mk (DisallowUnknownFields u) (text u) (dec u) s' tk).

Definition Offset (u : t S) : Z := scan_Offset (scan u).

(** Whether the dynamic type [T] has the hook selected by [sel] in its
    method set. *)
Definition hasHook (sel : MethodSet -> receiver) (T : rtype) : bool :=
  match T with
  | reflect.Defined _ ms _ =>
      match sel ms with reflect.ValueReceiver => true | _ => false end
  | reflect.PointerTo (reflect.Defined _ ms _) =>
      match sel ms with reflect.NoMethod => false | _ => true end
  | _ => false
  end.

(** The type assertion [v.Interface().(TextUnmarshaler)], or
    [BinaryUnmarshaler] in binary mode: when it holds, the dynamic type and
    value of the receiver. *)
Definition hooked (text : bool) (d : option (rtype * value))
  : option (rtype * value) :=
  match d with
  | Some (T, x) =>
      if hasHook (if text then reflect.mUnmarshalTextLLSD else reflect.mUnmarshalBinaryLLSD) T
      then Some (T, x) else None
  | None => None
  end.

(** The destination after the hook has run on the receiver [x]. *)
Definition afterHook (v : Value) (T : rtype) (x' : value) : Value :=
  match Kind_ v with
  | reflect.Interface => setVal v (reflect.VInterface (Some (T, x')))
  | _ => setVal v x'
  end.

(** A pointer destination: allocate the pointee when nil, then continue on
    [v.Elem()] and store the pointee back. *)
Definition throughPointer (v : Value) (k : Value -> status * Value)
  : status * Value :=
  match val v, elemType (typ v) with
  | reflect.VPointer p, Some e =>
      let! v1 := (match p with
                  | None => Set_ v (New e)
                  | Some _ => Ok v
                  end) else v in
      match val v1 with
      | reflect.VPointer (Some x) =>
          let '(st, e') := k (mkValue e x true (readOnly v1)) in
          (st, setVal v1 (reflect.VPointer (Some (val e'))))
      | _ => (Panicked "nil pointer dereference", v1)
      end
  | _, _ => (Panicked "reflect: call of reflect.Value.Elem on non-pointer Value", v)
  end.

(** The [switch tok.Type] of [scalar], on the destination [v] left after
    the hook and pointer steps. *)
Definition convert (u : t S) (ty : ScalarType) (data : list byte)
  (attr : gmap string string) (v : Value) : status * Value :=
  let typeError label :=
    (Failed (UnmarshalTypeError (label ++ string_of_list_byte data) (typ v)
               (Offset u)), v) in
  match ty with
  | Real =>
      match Kind_ v with
      | reflect.Float32 | reflect.Float64 =>
          let? x := real (dec u) data else v in
          let! over := OverflowFloat v x else v in
          if over then typeError "real " else finish v (SetFloat v x)
      | reflect.Interface =>
          let? x := real (dec u) data else v in
          finish v (Set_ v (ValueOf (reflect.Basic reflect.Float64) (reflect.VFloat64 x)))
      | _ => typeError "real "
      end
  | Integer =>
      match Kind_ v with
      | reflect.Int | reflect.Int8 | reflect.Int16 | reflect.Int32 | reflect.Int64 =>
          let? x := integer (dec u) data else v in
          let! over := OverflowInt v x else v in
          if over then typeError "integer " else finish v (SetInt v x)
      | reflect.Interface =>
          let? x := integer (dec u) data else v in
          finish v (Set_ v (ValueOf (reflect.Basic reflect.Int32) (reflect.VInt (wrap_signed 32 x))))
      | _ => typeError "integer "
      end
  | URI =>
      finish v (Set_ v (ValueOf URL (reflect.VString (string_of_list_byte data))))
  | String =>
      match Kind_ v with
      | reflect.String | reflect.Interface =>
          finish v (Set_ v (ValueOf (reflect.Basic reflect.String)
                              (reflect.VString (string_of_list_byte data))))
      | _ => typeError "string "
      end
  | Boolean =>
      match Kind_ v with
      | reflect.Bool | reflect.Interface =>
          let? x := boolean (dec u) data else v in
          finish v (Set_ v (ValueOf (reflect.Basic reflect.Bool) (reflect.VBool x)))
      | reflect.String =>
          let? x := boolean (dec u) data else v in
          finish v (SetString v (if x then "true" else "false"))
      | _ => typeError "boolean "
      end
  | Binary =>
      let encoding :=
        if text u then default Base16 (attr !! "encoding") else EmptyString in
      let? x := binary (dec u) data encoding else v in
      let tooFew := typeError "binary (too few bytes) " in
      match Kind_ v with
      | reflect.Slice | reflect.Array =>
          match elemType (typ v) with
          | Some e =>
              if negb (reflect.Kind_eqb (kindOf e) reflect.Uint8) then typeError "binary "
              else if reflect.Kind_eqb (Kind_ v) reflect.Array
                   then finish v (Copy v (ofBytes x))
                   else finish v (Set_ v (ofBytes x))
          | None => typeError "binary "
          end
      | reflect.Interface => finish v (Set_ v (ofBytes x))
      | reflect.String => finish v (SetString v (string_of_list_byte x))
      | reflect.Bool => finish v (SetBool v (0 <? length data)%nat)
      | reflect.Uint | reflect.Uint32 =>
          if (length x <? 4)%nat then tooFew
          else
            match BigEndian_Uint32 x with
            | Some bits => finish v (SetUint v bits)
            | None => (Panicked "slice bounds out of range", v)
            end
      | reflect.Float32 =>
          match BigEndian_Uint32 x with
          | Some bits => finish v (SetFloat v (float64_of_float32 bits))
          | None => (Panicked "slice bounds out of range", v)
          end
      | reflect.Int | reflect.Int32 =>
          if (length x <? 4)%nat then tooFew
          else
            match BigEndian_Uint32 x with
            | Some bits => finish v (SetInt v bits)
            | None => (Panicked "slice bounds out of range", v)
            end
      | reflect.Int64 =>
          if (length x <? 8)%nat then tooFew
          else
            match BigEndian_Uint64 x with
            | Some bits => finish v (SetInt v (wrap_signed 64 bits))
            | None => (Panicked "slice bounds out of range", v)
            end
      | reflect.Uint64 =>
          if (length x <? 8)%nat then tooFew
          else
            match BigEndian_Uint64 x with
            | Some bits => finish v (SetUint v bits)
            | None => (Panicked "slice bounds out of range", v)
            end
      | reflect.Float64 =>
          if (length x <? 8)%nat then tooFew
          else
            match BigEndian_Uint64 x with
            | Some bits => finish v (SetFloat v bits)
            | None => (Panicked "slice bounds out of range", v)
            end
      | _ => typeError "binary "
      end
  | Date =>
      match Kind_ v with
      | reflect.Float32 | reflect.Float64 =>
          let? x := date (dec u) data else v in
          let epoch := float64_of_int64 (Time_Unix x) in
          let! over := OverflowFloat v epoch else v in
          if over then typeError "date " else finish v (SetFloat v epoch)
      | reflect.Int | reflect.Int8 | reflect.Int16 | reflect.Int32 | reflect.Int64 =>
          let? x := date (dec u) data else v in
          let epoch := Time_Unix x in
          let! over := OverflowInt v epoch else v in
          if over then typeError "date " else finish v (SetInt v epoch)
      | reflect.String => finish v (SetString v (string_of_list_byte data))
      | reflect.Interface =>
          let? x := date (dec u) data else v in
          finish v (Set_ v (ValueOf reflect.TimeType (reflect.VTime x)))
      | _ =>
          let! d := Interface_ v else v in
          match d with
          | Some (reflect.TimeType, _) =>
              let? x := date (dec u) data else v in
              finish v (Set_ v (ValueOf reflect.TimeType (reflect.VTime x)))
          | _ => typeError "date "
          end
      end
  | Undefined => (Done, v)
  | UUIDType => (Done, v)
  end.

(** [scalar]: the hook, else the pointer step, else the conversion. *)
Definition scalar (v : Value) (u : t S) : status * Value :=
  match tok u with
  | Some (Scalar ty data attr) =>
      let! d := Interface_ v else v in
      match hooked (text u) d with
      | Some (T, x) =>
          let '(x', r) :=
            if text u then call_UnmarshalTextLLSD T x data
            else call_UnmarshalBinaryLLSD T x data in
          match r with
          | Throw m => (Panicked m, afterHook v T x')
          | Ret _ (Some err) => (Failed err, afterHook v T x')
          | Ret _ None => (Done, afterHook v T x')
          end
      | None =>
          match Kind_ v with
          | reflect.Pointer =>
              match ty with
              | Undefined => (Done, v)
              | _ => throughPointer v (convert u ty data attr)
              end
          | _ => convert u ty data attr v
          end
      end
  | _ => (Panicked "interface conversion: Token is not Scalar", v)
  end.

(** The pointer step of [object] and [array]: a nil pointer gets a fresh
    pointee; the work goes on at [v.Elem()]. *)
Definition atElem {U : Type} (v : Value) (u : U)
  (k : Value -> status * Value * U) : status * Value * U :=
  match Kind_ v with
  | reflect.Pointer =>
      match val v, elemType (typ v) with
      | reflect.VPointer p, Some e =>
          match (match p with
                 | None => Set_ v (New e)
                 | Some _ => Ok v
                 end) with
          | Panic m => (Panicked m, v, u)
          | Ok v1 =>
              match val v1 with
              | reflect.VPointer (Some x) =>
                  let '(st, e', u') := k (mkValue e x true (readOnly v1)) in
                  (st, setVal v1 (reflect.VPointer (Some (val e'))), u')
              | _ => (Panicked "nil pointer dereference", v1, u)
              end
          end
      | _, _ => (Panicked "reflect: Elem of a malformed pointer", v, u)
      end
  | _ => k v
  end.

(** *** [value], [object], [array]

    The three methods call each other; [value_rec] is [value] with one unit
    of fuel less, and every loop turn takes one unit as well. *)
Section Containers.

Variable value_rec : option Value -> t S -> status * option Value * t S.

Definition keyError (tk : option Token) (u : t S) : status :=
  match tk with
  | Some tk' =>
      Failed (InvalidLLSDError
                ("expected map to start with key, got " ++ Token_typeName tk')
                (Offset u))
  | None => Panicked "nil pointer dereference"
  end.

(** The loop of [object] over a struct destination. *)
Fixpoint structLoop (fuel : nat) (fields : gmap string fieldInfo)
  (v : Value) (u : t S) : status * Value * t S :=
  match fuel with
  | O => (OutOfFuel, v, u)
  | Datatypes.S fuel' =>
      match token u with
      | ((_, Some err), u1) => (Failed err, v, u1)
      | ((Some (Key key), None), u1) =>
          match fields !! key with
          | None =>
              if DisallowUnknownFields u1 then
                (Failed (errorString
                           ("LLSD: Unknown field " ++ strconv_Quote key)),
                 v, u1)
              else
                match next u1 with
                | (Some err, u2) => (Failed err, v, u2)
                | (None, u2) => structLoop fuel' fields v u2
                end
          | Some field =>
              match next u1 with
              | (Some err, u2) => (Failed err, v, u2)
              | (None, u2) =>
                  match Field v (Index field) with
                  | Panic m => (Panicked m, v, u2)
                  | Ok subv =>
                      match value_rec (Some subv) u2 with
                      | (Done, subv', u3) =>
                          structLoop fuel' fields
                            (putField v (Index field)
                               (val (default subv subv'))) u3
                      | (st, subv', u3) =>
                          (st, putField v (Index field)
                                 (val (default subv subv')), u3)
                      end
                  end
              end
          end
      | ((Some MapEnd, None), u1) => (Done, v, u1)
      | ((tk, None), u1) => (keyError tk u1, v, u1)
      end
  end.

(** The loop of [object] over a map destination. *)
Fixpoint mapLoop (fuel : nat) (vType : rtype) (v : Value) (u : t S)
  : status * Value * t S :=
  match fuel with
  | O => (OutOfFuel, v, u)
  | Datatypes.S fuel' =>
      match token u with
      | ((_, Some err), u1) => (Failed err, v, u1)
      | ((Some (Key key), None), u1) =>
          let subv := mkValue vType (reflect.zero vType) true false in
          match next u1 with
          | (Some err, u2) => (Failed err, v, u2)
          | (None, u2) =>
              match value_rec (Some subv) u2 with
              | (Done, subv', u3) =>
                  match SetMapIndex v key (default subv subv') with
                  | Ok v' => mapLoop fuel' vType v' u3
                  | Panic m => (Panicked m, v, u3)
                  end
              | (st, _, u3) => (st, v, u3)
              end
          end
      | ((Some MapEnd, None), u1) => (Done, v, u1)
      | ((tk, None), u1) => (keyError tk u1, v, u1)
      end
  end.

Definition object (fuel : nat) (v : Value) (u : t S) : status * Value * t S :=
  atElem v u (fun v =>
    match Kind_ v with
    | reflect.Struct => structLoop fuel (cachedFieldsForType (typ v)) v u
    | reflect.Map =>
        match keyType (typ v), elemType (typ v) with
        | Some kType, Some vType =>
            if negb (reflect.Kind_eqb (kindOf kType) reflect.String) then
              (Failed (UnmarshalTypeError "map " (typ v) (Offset u)), v, u)
            else mapLoop fuel vType v u
        | _, _ => (Panicked "reflect: Key of non-map type", v, u)
        end
    | _ => (Failed (UnmarshalTypeError "object" (typ v) (Offset u)), v, u)
    end).

(** The loop of [array] over [v], element index [i]. *)
Fixpoint arrayLoop (fuel : nat) (i : nat) (v : Value) (u : t S)
  : status * Value * t S :=
  match fuel with
  | O => (OutOfFuel, v, u)
  | Datatypes.S fuel' =>
      match token u with
      | ((_, Some err), u1) => (Failed err, v, u1)
      | ((Some ArrayEnd, None), u1) => (Done, v, u1)
      | ((_, None), u1) =>
          match (match Kind_ v with
                 | reflect.Slice =>
                     match (if (Cap v <=? i)%nat then grow v else Ok v) with
                     | Panic m => Panic m
                     | Ok v1 =>
                         match Len v1 with
                         | Panic m => Panic m
                         | Ok n =>
                             if (n <=? i)%nat then SetLen v1 (Datatypes.S i)
                             else Ok v1
                         end
                     end
                 | _ => Ok v
                 end) with
          | Panic m => (Panicked m, v, u1)
          | Ok v2 =>
              match Len v2 with
              | Panic m => (Panicked m, v2, u1)
              | Ok n =>
                  if (i <? n)%nat then
                    match Index_ v2 i with
                    | Panic m => (Panicked m, v2, u1)
                    | Ok el =>
                        match value_rec (Some el) u1 with
                        | (Done, el', u2) =>
                            arrayLoop fuel' (Datatypes.S i)
                              (putIndex v2 i (val (default el el'))) u2
                        | (st, el', u2) =>
                            (st, putIndex v2 i (val (default el el')), u2)
                        end
                    end
                  else
                    match value_rec None u1 with
                    | (Done, _, u2) => arrayLoop fuel' (Datatypes.S i) v2 u2
                    | (st, _, u2) => (st, v2, u2)
                    end
              end
          end
      end
  end.

Definition NumMethod (v : Value) : nat :=
  match reflect.underlying (typ v) with
  | reflect.InterfaceOf n => n
  | _ => O
  end.

Definition anySlice : rtype := reflect.SliceOf (reflect.InterfaceOf O).

Definition array (fuel : nat) (v : Value) (u : t S) : status * Value * t S :=
  atElem v u (fun v =>
    match Kind_ v with
    | reflect.Interface =>
        if (NumMethod v =? 0)%nat then
          let newv := ValueOf anySlice (reflect.VSlice [] O) in
          match Set_ v newv with
          | Panic m => (Panicked m, v, u)
          | Ok v1 =>
              match arrayLoop fuel O newv u with
              | (Done, _, u1) => arrayLoop fuel O v1 u1
              | (st, _, u1) => (st, v1, u1)
              end
          end
        else arrayLoop fuel O v u
    | reflect.Slice | reflect.Array => arrayLoop fuel O v u
    | _ => (Failed (UnmarshalTypeError "array" (typ v) (Offset u)), v, u)
    end).

End Containers.

(** [value]: dispatch on the last token read. *)
Fixpoint value (fuel : nat) (v : option Value) (u : t S)
  : status * option Value * t S :=
  match fuel with
  | O => (OutOfFuel, v, u)
  | Datatypes.S fuel' =>
      match tok u, v with
      | Some MapStart, Some v' =>
          let '(st, v'', u') := object (value fuel') fuel' v' u in
          (st, Some v'', u')
      | Some ArrayStart, Some v' =>
          let '(st, v'', u') := array (value fuel') fuel' v' u in
          (st, Some v'', u')
      | Some (Scalar _ _ _), Some v' =>
          let '(st, v'') := scalar v' u in (st, Some v'', u)
      | Some MapStart, None | Some ArrayStart, None
      | Some (Scalar _ _ _), None => (Done, v, u)
      | Some tk, _ =>
          (Failed (InvalidLLSDError ("unexpected " ++ Token_typeName tk)
                     (Offset u)), v, u)
      | None, _ => (Panicked "nil pointer dereference", v, u)
      end
  end.

(** [Unmarshal(v)]: [v] must be a pointer; one token is read and [value]
    runs on the pointer itself. *)
Definition Unmarshal (fuel : nat) (v : Value) (u : t S)
  : status * Value * t S :=
  match Kind_ v with
  | reflect.Pointer =>
      match next u with
      | (Some err, u1) => (Failed err, v, u1)
      | (None, u1) =>
          let '(st, v', u2) := value fuel (Some v) u1 in
          (st, default v v', u2)
      end
  | _ => (Failed (errorString "Non-pointer passed to Unmarshal"), v, u)
  end.

End Engine.

End Unmarshaler.

(** ** The XML encoder (xml_encode.go) *)

(** Go leaves the order of a [range] over a map unspecified: the encoder
    sees the field descriptors, and the entries of a map value, in some
    permutation. *)
Class MapOrder := {
  rangeFields : gmap string fieldInfo -> list (string * fieldInfo);
  rangeFields_perm : forall m, rangeFields m ≡ₚ map_to_list m;
  rangeEntries : list (string * value) -> list (string * value);
  rangeEntries_perm : forall l, rangeEntries l ≡ₚ l
}.

Module XMLEncoder.

Import reflectValue.
Import reflect (rtype, value, Value, typ, val, addressable, readOnly, mkValue,
  setVal, ValueOf, Kind_, kindOf, CanInterface).

(** The encoder over a buffer that never fails: [w] is what has been
    written. *)
Record t := mk { w : string; indent : string; depth : nat }.

Definition New : t := mk EmptyString EmptyString O.

Definition writeString (s : string) (e : t) : t :=
  mk (w e ++ s) (indent e) (depth e).

Definition writeIndent (e : t) : t :=
  if String.eqb (indent e) EmptyString then e
  else writeString (String.String "010"%char EmptyString
                    ++ strings_Repeat (indent e) (depth e)) e.

Definition SetIndent (i : string) (e : t) : t := mk (w e) i (depth e).

Definition incDepth (e : t) : t := mk (w e) (indent e) (Datatypes.S (depth e)).
Definition decDepth (e : t) : t := mk (w e) (indent e) (Nat.pred (depth e)).

(** The bytes of a byte slice or byte array value. *)
Definition bytesOf (v : Value) : list byte :=
  match elements v with
  | Ok l => map toByte l
  | Panic _ => []
  end.

Definition isFloatZero (x : reflect.value) : bool :=
  match x with
  | reflect.VFloat64 b => (b =? 0) || (b =? 2 ^ 63)
  | reflect.VFloat32 b => (b =? 0) || (b =? 2 ^ 31)
  | _ => false
  end.

Definition isEmptyValue (v : Value) : bool :=
  match Kind_ v with
  | reflect.Array | reflect.Map | reflect.Slice | reflect.String =>
      match Len v with
      | Ok n => (n =? 0)%nat
      | Panic _ => false
      end
  | reflect.Bool =>
      match val v with reflect.VBool b => negb b | _ => false end
  | reflect.Int | reflect.Int8 | reflect.Int16 | reflect.Int32
  | reflect.Int64 =>
      match val v with reflect.VInt n => n =? 0 | _ => false end
  | reflect.Uint | reflect.Uint8 | reflect.Uint16 | reflect.Uint32
  | reflect.Uint64 | reflect.Uintptr =>
      match val v with reflect.VUint n => n =? 0 | _ => false end
  | reflect.Float32 | reflect.Float64 => isFloatZero (val v)
  | reflect.Interface | reflect.Pointer =>
      match IsNil v with
      | Ok b => b
      | Panic _ => false
      end
  | _ => false
  end.

Section Encoder.

Context `{GoLibrary} `{UserHooks} `{MapOrder}.

Definition writeBytes (b : list byte) (encoding : string) (e : t)
  : option error * t :=
  if String.eqb encoding Base16 then
    (None, writeString (strings_ToUpper (hex_EncodeToString b)) e)
  else if String.eqb encoding Base64 then
    (None, writeString (base64_EncodeToString b) e)
  else if String.eqb encoding Base85 then
    (None, writeString (xml_EscapeText (ascii85_Encode b)) e)
  else (Some (errorString ("Unknown encoding " ++ encoding)), e).

(** Whether the dynamic type [T] has [MarshalTextLLSD] in its method set. *)
Definition hasMarshalText (T : rtype) : bool :=
  match T with
  | reflect.Defined _ ms _ =>
      match reflect.mMarshalTextLLSD ms with
      | reflect.ValueReceiver => true
      | _ => false
      end
  | reflect.PointerTo (reflect.Defined _ ms _) =>
      match reflect.mMarshalTextLLSD ms with
      | reflect.NoMethod => false
      | _ => true
      end
  | _ => false
  end.

Definition element (name body : string) (c : t) : t :=
  writeString ("</" ++ name ++ ">")
    (writeString body (writeString ("<" ++ name ++ ">") (writeIndent c))).

(** The encoding a byte-sequence is written in: base16 unless the field
    descriptor names one. *)
Definition fieldEncoding (info : option fieldInfo) : string :=
  match info with
  | Some i =>
      if negb (String.eqb (Encoding (LLSDTag i)) EmptyString)
      then Encoding (LLSDTag i) else Base16
  | None => Base16
  end.

(** The byte-sequence branch of [marshalValue]. *)
Definition marshalBinary (v : Value) (info : option fieldInfo) (c : t)
  : status * t :=
  let c := writeIndent c in
  let encoding := fieldEncoding info in
  let c :=
    if String.eqb encoding Base16 then writeString "<binary>" c
    else writeString ("<binary encoding=" ++ dquote ++ encoding ++ dquote
                      ++ ">") c in
  if reflect.Kind_eqb (Kind_ v) reflect.Array && negb (addressable v) then
    (Panicked "reflect.Value.Slice: slice of unaddressable array", c)
  else
    let sliceType :=
      match Kind_ v, elemType (typ v) with
      | reflect.Array, Some e => reflect.SliceOf e
      | _, _ => typ v
      end in
    if negb (reflect.rtype_eqb sliceType bytesType) then
      (Failed (errorString "Unable to cast binary slice"), c)
    else
      match writeBytes (bytesOf v) encoding c with
      | (Some err, c) => (Failed err, c)
      | (None, c) => (Done, writeString "</binary>" c)
      end.

Section Recursive.

Variable marshalValue_rec : option Value -> option fieldInfo -> t -> status * t.

(** The loop over the fields of a struct. *)
Fixpoint structFields (v : Value) (fields : list (string * fieldInfo)) (c : t)
  : status * t :=
  match fields with
  | [] => (Done, c)
  | (key, field) :: rest =>
      if Omit (LLSDTag field) then structFields v rest c
      else
        match Field v (Index field) with
        | Panic m => (Panicked m, c)
        | Ok subv =>
            if negb (CanInterface subv) then structFields v rest c
            else if OmitEmpty (LLSDTag field) && isEmptyValue subv
            then structFields v rest c
            else
              let c := writeString "</key>"
                         (writeString key
                            (writeString "<key>" (writeIndent c))) in
              match marshalValue_rec (Some subv) (Some field) c with
              | (Done, c) => structFields v rest c
              | r => r
              end
        end
  end.

(** The loop over the keys of a map value. *)
Fixpoint mapEntries (v : Value) (et : rtype)
  (entries : list (string * reflect.value)) (c : t) : status * t :=
  match entries with
  | [] => (Done, c)
  | (key, x) :: rest =>
      let c := writeIndent c in
      let subv := mkValue et x false (readOnly v) in
      if negb (CanInterface subv) then mapEntries v et rest c
      else
        let c := writeString "</key>"
                   (writeString (xml_EscapeText (list_byte_of_string key))
                      (writeString "<key>" c)) in
        match marshalValue_rec (Some subv) None c with
        | (Done, c) => mapEntries v et rest c
        | r => r
        end
  end.

(** The loop over the elements of an array or slice. *)
Fixpoint arrayElems (elems : list Value) (c : t) : status * t :=
  match elems with
  | [] => (Done, c)
  | subv :: rest =>
      match marshalValue_rec (Some subv) None c with
      | (Done, c) => arrayElems rest c
      | r => r
      end
  end.

(** [marshalValue] below the hook and pointer steps: the [switch v.Kind()]. *)
Definition marshalKind (v : Value) (info : option fieldInfo) (c : t)
  : status * t :=
  match Kind_ v with
  | reflect.Interface =>
      match Elem v with
      | Ok e => marshalValue_rec e None c
      | Panic m => (Panicked m, c)
      end
  | reflect.Struct =>
      let c := incDepth (writeString "<map>" (writeIndent c)) in
      match structFields v (rangeFields (cachedFieldsForType (typ v))) c with
      | (Done, c) => (Done, writeString "</map>" (writeIndent (decDepth c)))
      | r => r
      end
  | reflect.Map =>
      let c := incDepth (writeString "<map>" (writeIndent c)) in
      match val v, elemType (typ v) with
      | reflect.VMap m, Some et =>
          match mapEntries v et (rangeEntries (default [] m)) c with
          | (Done, c) =>
              (Done, decDepth (writeString "</map>" (writeIndent c)))
          | r => r
          end
      | _, _ => (Panicked "reflect: call of reflect.Value.MapKeys on non-map Value", c)
      end
  | reflect.Array | reflect.Slice =>
      match elemType (typ v) with
      | Some e =>
          if reflect.Kind_eqb (kindOf e) reflect.Uint8
          then marshalBinary v info c
          else
            let c := incDepth (writeString "<array>" (writeIndent c)) in
            let isSlice := reflect.Kind_eqb (Kind_ v) reflect.Slice in
            match elements v with
            | Ok l =>
                match arrayElems
                        (map (fun x => mkValue e x (isSlice || addressable v)
                                         (readOnly v)) l) c with
                | (Done, c) => (Done, decDepth (writeString "</array>" c))
                | r => r
                end
            | Panic m => (Panicked m, c)
            end
      | None => (Panicked "reflect: Elem of invalid type", c)
      end
  | reflect.String =>
      match val v with
      | reflect.VString s =>
          if reflect.rtype_eqb (typ v) URL
          then (Done, element "uri" (xml_EscapeText (list_byte_of_string s)) c)
          else (Done, element "string"
                        (xml_EscapeText (list_byte_of_string s)) c)
      | _ => (Panicked "malformed string value", c)
      end
  | reflect.Int | reflect.Int8 | reflect.Int16 | reflect.Int32 =>
      match val v with
      | reflect.VInt n => (Done, element "integer" (strconv_FormatInt n) c)
      | _ => (Panicked "malformed integer value", c)
      end
  | reflect.Uint | reflect.Uint8 | reflect.Uint16 | reflect.Uint32 =>
      match val v with
      | reflect.VUint n => (Done, element "integer" (strconv_FormatInt n) c)
      | _ => (Panicked "malformed integer value", c)
      end
  | reflect.Float32 | reflect.Float64 =>
      match val v with
      | reflect.VFloat64 b => (Done, element "real" (fmt_Sprintf_f b) c)
      | reflect.VFloat32 b =>
          (Done, element "real" (fmt_Sprintf_f (float64_of_float32 b)) c)
      | _ => (Panicked "malformed float value", c)
      end
  | reflect.Bool =>
      match val v with
      | reflect.VBool b => (Done, element "boolean" (if b then "1" else "0") c)
      | _ => (Panicked "malformed bool value", c)
      end
  | _ =>
      (* the type switch on [v.Interface()]; [url.URL] is not modelled *)
      if reflect.rtype_eqb (typ v) UUID then
        (Done, element "uuid" (hex_EncodeToString (bytesOf v)) c)
      else if reflect.rtype_eqb (typ v) URL then
        match val v with
        | reflect.VString s =>
            (Done, element "uri" (xml_EscapeText (list_byte_of_string s)) c)
        | _ => (Panicked "malformed string value", c)
        end
      else
        match typ v, val v with
        | reflect.TimeType, reflect.VTime tm =>
            (Done, element "date" (time_Format_RFC3339 tm) c)
        | _, _ => (Failed (MarshalTypeError (typ v)), c)
        end
  end.

End Recursive.

Fixpoint marshalValue (fuel : nat) (v : option Value) (info : option fieldInfo)
  (c : t) : status * t :=
  match fuel with
  | O => (OutOfFuel, c)
  | Datatypes.S fuel' =>
      match v with
      | None =>
          (Panicked "reflect: call of reflect.Value.CanInterface on zero Value",
           c)
      | Some v =>
          if negb (CanInterface v) then (Done, c)
          else if match info with
                  | Some i => OmitEmpty (LLSDTag i) && isEmptyValue v
                  | None => false
                  end
          then (Done, c)
          else
            match Interface_ v with
            | Panic m => (Panicked m, c)
            | Ok d =>
                match d with
                | Some (T, x) =>
                    if hasMarshalText T then
                      match call_MarshalTextLLSD T x with
                      | Throw m => (Panicked m, c)
                      | Ret _ (Some err) => (Failed err, c)
                      | Ret (ty, s) None =>
                          (Done, element (ScalarType_String ty) s c)
                      end
                    else
                      match Kind_ v, val v, elemType (typ v) with
                      | reflect.Pointer, reflect.VPointer None, _ =>
                          (Done, writeString "<undef />" (writeIndent c))
                      | reflect.Pointer, reflect.VPointer (Some x'), Some e =>
                          marshalKind (marshalValue fuel')
                            (mkValue e x' true (readOnly v)) info c
                      | reflect.Pointer, _, _ =>
                          (Panicked "malformed pointer value", c)
                      | _, _, _ => marshalKind (marshalValue fuel') v info c
                      end
                | None =>
                    (* a nil interface: no hook, then [v.Elem()] is the zero
                       Value *)
                    marshalKind (marshalValue fuel') v info c
                end
            end
      end
  end.

(** [Encode]; the buffer is flushed only when [marshalValue] succeeded. *)
Definition Encode (fuel : nat) (v : option (rtype * reflect.value)) (e : t)
  : status * t :=
  let e := incDepth (writeString "<llsd>" (writeString xml.Header e)) in
  match marshalValue fuel
          (match v with Some (T, x) => Some (ValueOf T x) | None => None end)
          None e with
  | (Done, e) => (Done, writeString "</llsd>" (writeIndent (decDepth e)))
  | r => r
  end.

End Encoder.

End XMLEncoder.

(** ** Entry points *)

Section Facade.

Context `{GoLibrary} `{UserHooks} `{MapOrder}.

(** [NewXMLDecoder] over an XML document already cut into tokens.  The
    engine it builds reads through [NewXMLScanner(r)], of which the source
    has the two versions above: [scanner] is the version linked, whose
    state is the [xml.Decoder] and whose methods [Unmarshal] calls. *)
Definition NewXMLDecoder (scanner : TokenReader xml.Decoder) (d : xml.Decoder)
  : Unmarshaler.t xml.Decoder :=
  Unmarshaler.mk false true textDecoder d None.

Definition NewBinaryDecoder (data : list byte)
  : Unmarshaler.t BinaryScanner.t :=
  Unmarshaler.mk false false binaryDecoder (BinaryScanner.New data) None.

(** The decoder of the tests. *)
Definition newMockDecoder (tokens : list (Token + error))
  : Unmarshaler.t mockTokenReader.t :=
  Unmarshaler.mk false true textDecoder (mockTokenReader.mk tokens 0) None.

(** [UnmarshalXML], with the version of [NewXMLScanner] that is linked. *)
Definition UnmarshalXML (scanner : TokenReader xml.Decoder) (fuel : nat)
  (d : xml.Decoder) (v : Value) : status * Value :=
  fst (Unmarshaler.Unmarshal (H1 := scanner) fuel v
         (NewXMLDecoder scanner d)).

Definition UnmarshalBinary (fuel : nat) (data : list byte) (v : Value)
  : status * Value :=
  fst (Unmarshaler.Unmarshal fuel v (NewBinaryDecoder data)).

(** [MarshalXML(v)]: the bytes written, or nothing and the error. *)
Definition MarshalXML (fuel : nat) (v : option (rtype * value))
  : status * string :=
  match XMLEncoder.Encode fuel v XMLEncoder.New with
  | (Done, e) => (Done, XMLEncoder.w e)
  | (st, _) => (st, EmptyString)
  end.

Definition MarshalXMLIndent (fuel : nat) (v : option (rtype * value))
  (indent : string) : status * string :=
  match XMLEncoder.Encode fuel v
          (XMLEncoder.SetIndent indent XMLEncoder.New) with
  | (Done, e) => (Done, XMLEncoder.w e)
  | (st, _) => (st, EmptyString)
  end.

End Facade.

(** A pointer to a variable of type [T] holding [x], as passed to
    [Unmarshal]. *)
Definition pointerTo (T : rtype) (x : value) : Value :=
  reflect.ValueOf (reflect.PointerTo T) (reflect.VPointer (Some x)).

(** The variable behind such a pointer. *)
Definition pointee (v : Value) : option value :=
  match reflect.val v with
  | reflect.VPointer p => p
  | _ => None
  end.

(** ** An instance of the parameters

    To run the codec on a closed input the parameters need values.  Here no
    numeric or time routine is available (each reports an error or returns
    its argument), text is quoted and escaped as plain ASCII without special
    characters is, no user type has hooks, and a [range] over a map goes in
    key order. *)
Definition plainLibrary : GoLibrary :=
  {| strconv_ParseFloat := fun s => (0, Some (ExternalError "strconv" s));
     strconv_Quote := fun s => dquote ++ s ++ dquote;
     float32_of_float64 := fun x => x;
     float64_of_float32 := fun x => x;
     float64_of_int64 := fun x => x;
     fmt_Sprintf_f := fun _ => EmptyString;
     time_Parse_RFC3339 := fun s => (time_Unix 0 0, Some (ExternalError "time" s));
     time_Format_RFC3339 := fun _ => EmptyString;
     base64_Decode := fun c => ([], Some (ExternalError "base64" EmptyString));
     ascii85_Decode := fun c => ([], Some (ExternalError "ascii85" EmptyString));
     ascii85_Encode := fun b => b;
     xml_EscapeText := string_of_list_byte |}.

Definition noHooks : UserHooks :=
  {| call_UnmarshalTextLLSD := fun _ x _ => (x, Ret tt None);
     call_UnmarshalBinaryLLSD := fun _ x _ => (x, Ret tt None);
     call_MarshalTextLLSD := fun _ _ => Ret (Undefined, EmptyString) None |}.

Definition keyOrder : MapOrder :=
  {| rangeFields := map_to_list;
     rangeFields_perm := fun m => reflexivity (map_to_list m);
     rangeEntries := fun l => l;
     rangeEntries_perm := fun l => reflexivity l |}.

(** ** Destinations and documents of the scenarios *)

Definition boolT : rtype := reflect.Basic reflect.Bool.
Definition intT : rtype := reflect.Basic reflect.Int.
Definition int32T : rtype := reflect.Basic reflect.Int32.
Definition int64T : rtype := reflect.Basic reflect.Int64.
Definition stringT : rtype := reflect.Basic reflect.String.

(** [struct { A T }] with the given tag on [A]. *)
Definition recordA (T : rtype) (tg : list (string * string)) : rtype :=
  reflect.StructOf [reflect.mkStructField "A" EmptyString T tg].

(** [struct{}]. *)
Definition emptyRecord : rtype := reflect.StructOf [].

Definition bytesValue (b : list byte) : value :=
  reflect.VSlice (map (fun c => reflect.VUint (u8 c)) b) (length b).

Definition stringScalar (s : string) : Token :=
  Scalar String (list_byte_of_string s) ∅.

(** The document
    [<llsd><map><key>A</key><binary>FFFFFFFD</binary></map></llsd>] as
    [encoding/xml] cuts it, each token with the offset after it. *)
Definition docS2 : xml.Decoder :=
  xml.mkDecoder
    [ (xml.StartElement "llsd" [], 6);
      (xml.StartElement "map" [], 11);
      (xml.StartElement "key" [], 16);
      (xml.CharData (list_byte_of_string "A"), 17);
      (xml.EndElement "key", 23);
      (xml.StartElement "binary" [], 31);
      (xml.CharData (list_byte_of_string "FFFFFFFD"), 39);
      (xml.EndElement "binary", 48);
      (xml.EndElement "map", 54);
      (xml.EndElement "llsd", 61) ]
    0 io_EOF.

(** The token stream of that document without the document tokens. *)
Definition tokensS2 : list (Token + error) :=
  map inl [ MapStart; Key "A";
            Scalar Binary (list_byte_of_string "FFFFFFFD") ∅; MapEnd ].

(** A map whose unknown key [x] holds a map, followed by the known key
    [A]: [{x: {q: "v"}, A: "hi"}]. *)
Definition tokensUnknownMap : list (Token + error) :=
  map inl [ MapStart; Key "x"; MapStart; Key "q"; stringScalar "v"; MapEnd;
            Key "A"; stringScalar "hi"; MapEnd ].

(** The same with a scalar under the unknown key: [{x: "v", A: "hi"}]. *)
Definition tokensUnknownScalar : list (Token + error) :=
  map inl [ MapStart; Key "x"; stringScalar "v"; Key "A"; stringScalar "hi";
            MapEnd ].

(** [struct { ID *UUID `llsd:"id"` }], the shape of the field [ID] of
    bench_test.go, and the binary document [{id: <sixteen bytes>}]. *)
Definition recordID : rtype :=
  reflect.StructOf
    [reflect.mkStructField "ID" EmptyString (reflect.PointerTo UUID)
       [("llsd", "id")]].

Definition binaryDocID (id : list byte) : list byte :=
  ([ "{"%byte; x00; x00; x00; x01; "k"%byte; x00; x00; x00; x02;
     "i"%byte; "d"%byte; "u"%byte ] ++ id ++ [ "}"%byte ])%list.

(** [struct { a UUID }], with an unexported field. *)
Definition recordUnexported : rtype :=
  reflect.StructOf [reflect.mkStructField "a" "main" UUID []].

Definition uuidBytes : list byte :=
  [ x67; x15; x3d; x5b; x36; x59; xaf; xb4;
    x85; x10; xad; xda; x2c; x03; x46; x49 ].

(** [struct { A []byte `llsd:",base64"` }] holding the bytes of
    [Binary data], behind a pointer as [MarshalXML(&src)] gets it. *)
Definition recordS5 : rtype :=
  recordA reflectValue.bytesType [("llsd", ",base64")].


(** A record with one string field [A] holding [str], under a tag. *)
Definition sourceTagged (tg : string) : option (rtype * value) :=
  Some (reflect.PointerTo (recordA stringT [("llsd", tg)]),
        reflect.VPointer (Some (reflect.VStruct [reflect.VString "str"]))).

(** The state of the engine after the binary tokenizer has delivered a UUID
    scalar, and three destinations for it: a [UUID] variable, a nil
    [*UUID] field of an addressable record, and a [UUID] reached through an
    unexported field. *)
Definition atUUIDScalar : Unmarshaler.t BinaryScanner.t :=
  Unmarshaler.mk false false binaryDecoder (BinaryScanner.New [])
    (Some (Scalar UUIDType uuidBytes ∅)).

Definition uuidVariable : Value :=
  reflect.mkValue UUID (reflect.zero UUID) true false.

Definition nilUUIDPointer : Value :=
  reflect.mkValue (reflect.PointerTo UUID) (reflect.VPointer None) true false.

Definition unexportedUUID : Value :=
  reflect.mkValue UUID (reflect.zero UUID) true true.

(** The field [A] of scenario S5 and its descriptor. *)
Definition fieldS5 : reflect.StructField :=
  reflect.mkStructField "A" EmptyString reflectValue.bytesType
    [("llsd", ",base64")].

Definition infoS5 : fieldInfo := mkFieldInfo fieldS5 0 (parseTag ",base64" "A").


(** ** The [binary] element as the specification words it

    These definitions follow the words of the specification, not the code:
    they are what the encoder's output is compared with. *)

















(** ** Streams and states of the further properties *)

(** The bytes of [BinaryHeader]. *)
Definition headerBytes : list byte :=
  list_byte_of_string BinaryScanner.BinaryHeader.

(** The [encoding/xml] tokens that both tokenizers pass over. *)
Definition skipped (t : xml.Token) : bool :=
  match t with
  | xml.Comment _ | xml.ProcInst _ _ | xml.CharData _ => true
  | _ => false
  end.

(** An engine over the token reader of the tests, in any configuration. *)
Definition onMock (d t : bool) (dc : scalarDecoder)
  (toks : list (Token + error)) (off : Z) (tk : option Token)
  : Unmarshaler.t mockTokenReader.t :=
  Unmarshaler.mk d t dc (mockTokenReader.mk toks off) tk.

(** The tokens of a run of keys, each followed by one token. *)
Definition keyed (pairs : list (string * Token)) : list (Token + error) :=
  flat_map (fun p => [inl (Key (fst p)); inl (snd p)]) pairs.

(** The tokens on which [value] starts a value. *)
Definition opensValue (tk : Token) : bool :=
  match tk with
  | MapStart | ArrayStart | Scalar _ _ _ => true
  | _ => false
  end.

(** The [encoding/xml] tokens for which the tokenizer of unnamed/part_000
    returns no token of its own: the skipped ones and the start and end of
    the element [llsd]. *)
Definition passedOver (t : xml.Token) : bool :=
  match t with
  | xml.Comment _ | xml.ProcInst _ _ | xml.CharData _ => true
  | xml.StartElement name _ | xml.EndElement name => String.eqb name "llsd"
  | _ => false
  end.

(** A comment and white space, as [encoding/xml] delivers them in front of
    an element. *)
Definition commentAndSpace : list (xml.Token * Z) :=
  [ (xml.Comment (list_byte_of_string " note "), 13);
    (xml.CharData [" "%byte], 14) ].

(** The document [<llsd></llsd>]. *)
Definition emptyDocument : list (xml.Token * Z) :=
  [ (xml.StartElement "llsd" [], 6); (xml.EndElement "llsd", 13) ].

(** A run of string scalars with the same attributes, and the Go strings
    they decode to. *)
Definition stringScalars (attr : gmap string string) (ds : list (list byte))
  : list (Token + error) :=
  map (fun d => inl (Scalar String d attr)) ds.

Definition stringValues (ds : list (list byte)) : list reflect.value :=
  map (fun d => reflect.VString (string_of_list_byte d)) ds.

(** Storing [xs] into the array [l] from index [i] on, one element per turn
    of the loop of [array]; an index outside the array stores nothing. *)
Fixpoint storeFrom (i : nat) (xs : list reflect.value)
  (l : list reflect.value) : list reflect.value :=
  match xs with
  | [] => l
  | x :: r => storeFrom (S i) r (<[i := x]> l)
  end.

(** The backing array and the length of a slice after the growth step of
    [array] at index [i]: at full capacity a new backing array of capacity
    [cap + cap/2], at least four, takes over the elements up to the length;
    the length becomes [i + 1] when it was not larger. *)
Definition grown (e : rtype) (i : nat) (backing : list reflect.value)
  (n : nat) : list reflect.value :=
  if (length backing <=? i)%nat
  then (take n backing
        ++ replicate (Nat.max 4 (length backing + length backing / 2) - n)
             (reflect.zero e))%list
  else backing.

Definition extended (i n : nat) : nat := if (n <=? i)%nat then S i else n.

(** The field [A string] without a tag and its descriptor. *)
Definition fieldA : reflect.StructField :=
  reflect.mkStructField "A" EmptyString stringT [].

Definition infoA : fieldInfo := mkFieldInfo fieldA 0 (parseTag EmptyString "A").

(** An [int8] variable holding 7, and the engine after a tokenizer has
    delivered the integer scalar [300] at offset 3. *)
Definition int8Variable : Value :=
  reflect.mkValue (reflect.Basic reflect.Int8) (reflect.VInt 7) true false.

Definition atInteger300 : Unmarshaler.t mockTokenReader.t :=
  onMock false true (@textDecoder plainLibrary) [] 3
    (Some (Scalar Integer (list_byte_of_string "300") ∅)).

(** The same engine after an [undef] scalar. *)
Definition atUndefined : Unmarshaler.t mockTokenReader.t :=
  onMock false true (@textDecoder plainLibrary) [] 3
    (Some (Scalar Undefined [] ∅)).

(** A nil [*string]. *)
Definition nilStringPointer : Value :=
  reflect.mkValue (reflect.PointerTo stringT) (reflect.VPointer None)
    true false.

(** [struct { A string }] holding [old], behind a pointer. *)
Definition recordOld : Value :=
  pointerTo (reflect.StructOf [fieldA]) (reflect.VStruct [reflect.VString "old"]).

(** Two keys the record does not have, one followed by a scalar and one by
    the start of a map. *)
Definition unknownPairs : list (string * Token) :=
  [ ("x", stringScalar "v"); ("y", MapStart) ].

(** A slice of three strings at full capacity. *)
Definition threeStrings : list reflect.value :=
  [ reflect.VString "a"; reflect.VString "b"; reflect.VString "c" ].

Definition isArrayEnd (tk : Token) : bool :=
  match tk with ArrayEnd => true | _ => false end.

(** The type [any]. *)
Definition emptyInterface : rtype := reflect.InterfaceOf 0.

(** [UUID.String()] (token.go). *)
Definition UUID_String (u : list byte) : string := hex_EncodeToString u.

(** A [UUID] value holding the bytes [u]. *)
Definition uuidValue (u : list byte) : reflect.value :=
  reflect.VArray (map (fun c => reflect.VUint (u8 c)) u).

(** What [strings.ToUpper] does to one byte of ASCII text. *)
Definition upperByte (c : byte) : byte :=
  let n := u8 c in if (97 <=? n) && (n <=? 122) then byte_of_Z (n - 32) else c.

(** The scalar kinds that no case of the switch of [marshalValue] takes. *)
Definition notMarshalled (k : reflect.Kind) : bool :=
  match k with
  | reflect.Int64 | reflect.Uint64 | reflect.Uintptr
  | reflect.Complex64 | reflect.Complex128 => true
  | _ => false
  end.

(** The encoder state [c'] comes from [c] by writing: the indent is the
    same and the buffer has only been appended to. *)
Definition extends (c c' : XMLEncoder.t) : Prop :=
  XMLEncoder.indent c' = XMLEncoder.indent c
  /\ exists s, XMLEncoder.w c' = XMLEncoder.w c ++ s.

(** A result of the encoder started in [c]: written from [c], and at the
    depth of [c] when it is a success. *)
Definition balanced (c : XMLEncoder.t) (r : status * XMLEncoder.t) : Prop :=
  extends c (snd r)
  /\ (fst r = Done -> XMLEncoder.depth (snd r) = XMLEncoder.depth c).

(** A string variable holding [a], as [MarshalXML] gets it. *)
Definition stringA : option Value :=
  Some (reflect.ValueOf stringT (reflect.VString "a")).

(** The decimal digits of [d] as bytes. *)
Definition digitsOf (d : Decimal.uint) : list byte :=
  list_byte_of_string (NilEmpty.string_of_uint d).

(** The signed integer kinds that the encoder writes. *)
Definition marshalledInt (k : reflect.Kind) : bool :=
  match k with
  | reflect.Int | reflect.Int8 | reflect.Int16 | reflect.Int32 => true
  | _ => false
  end.

(** * Properties *)

Example Atoi_42 : strconv_Atoi "-42" = (-42, None).
Proof. reflexivity. Qed.

Example hex_Decode_FFFFFFFD :
  hex_Decode (list_byte_of_string "FFFFFFFD")
  = ([xff; xff; xff; xfd], None).
Proof. reflexivity. Qed.

Example base64_Binary_data :
  base64_EncodeToString (list_byte_of_string "Binary data")
  = "QmluYXJ5IGRhdGE=".
Proof. reflexivity. Qed.

Example hex_upper_Binary_data :
  strings_ToUpper (hex_EncodeToString (list_byte_of_string "Binary data"))
  = "42696E6172792064617461".
Proof. reflexivity. Qed.

Example Split_tag : strings_Split "-," ","%byte = ["-"; EmptyString].
Proof. reflexivity. Qed.

(** After the header the offset is 16, so the loop of [Token] takes at most
    two turns. *)
Lemma BinaryScanner_step_continue (s s' : BinaryScanner.t) :
  BinaryScanner.step s = inr s' ->
  BinaryScanner.off s = 0 /\ BinaryScanner.off s' = 16.
Proof.
  unfold BinaryScanner.step, BinaryScanner.readSized.
  destruct (BinaryScanner.read 1 s) as [[op [e|]] s1] eqn:E1; [discriminate|].
  assert (O1 : BinaryScanner.off s1 = BinaryScanner.off s + 1).
  { unfold BinaryScanner.read in E1. inversion E1; subst; simpl. lia. }
  intros H.
  repeat match type of H with
         | match ?x with _ => _ end = _ => destruct x eqn:?; try discriminate
         | (let '(_, _) := ?x in _) = _ => destruct x eqn:?; try discriminate
         | (if ?x then _ else _) = _ => destruct x eqn:?; try discriminate
         end.
  inversion H; subst.
  match goal with
  | E : BinaryScanner.read 15 _ = _ |- _ =>
      unfold BinaryScanner.read in E; inversion E; subst; simpl
  end.
  apply Z.eqb_eq in Heqb1. lia.
Qed.

Lemma BinaryScanner_Token_loop_total (s : BinaryScanner.t) :
  exists res, BinaryScanner.Token_loop 2 s = Some res.
Proof.
  simpl. destruct (BinaryScanner.step s) as [res|s'] eqn:E1; [eauto|].
  destruct (BinaryScanner.step s') as [res|s''] eqn:E2; [eauto|].
  apply BinaryScanner_step_continue in E1, E2. lia.
Qed.

(** ** Binary booleans *)

Section BinaryScalars.

Context `{GoLibrary} `{UserHooks}.

(** C1.  The binary tokenizer turns the op bytes [1] and [0] into Boolean
    scalars with payload [[1]] and [[]] and reads nothing after the op byte.
    The claim that op [1] decodes to true fails on the code: the binary
    decoder's [boolean] asks for more than one payload byte, so the payload
    [[1]] decodes to false, and unmarshaling the one-byte document [1] into
    a bool leaves the destination false. *)
Theorem C1_binary_true_decodes_to_false :
  forall (rest : list byte) (b0 : bool) (fuel : nat),
    BinaryScanner_Token (BinaryScanner.New ("1"%byte :: rest))
    = ((Some (Scalar Boolean ["001"%byte] ∅), None), BinaryScanner.mk rest 1)
    /\ BinaryScanner_Token (BinaryScanner.New ("0"%byte :: rest))
       = ((Some (Scalar Boolean [] ∅), None), BinaryScanner.mk rest 1)
    /\ boolean binaryDecoder [] = Ret false None
    /\ boolean binaryDecoder ["001"%byte] = Ret false None
    /\ UnmarshalBinary (S fuel) ["1"%byte] (pointerTo boolT (reflect.VBool b0))
       = (Done, pointerTo boolT (reflect.VBool false)).
Proof.
  intros rest b0 fuel. repeat split; reflexivity.
Qed.

(** What the text decoder does with the same payloads, for comparison. *)
Example textDecoder_boolean_1 :
  textDecoder.boolean (list_byte_of_string "1") = Ret true None.
Proof. reflexivity. Qed.

(** ** Binary integers *)

Lemma lor_bound (n a b : Z) :
  0 < n -> 0 <= a < 2 ^ n -> 0 <= b < 2 ^ n -> 0 <= Z.lor a b < 2 ^ n.
Proof.
  intros Hn Ha Hb. split.
  - apply Z.lor_nonneg. lia.
  - destruct (Z.eq_dec (Z.lor a b) 0) as [E|E].
    + rewrite E. apply Z.pow_pos_nonneg; lia.
    + assert (0 <= Z.lor a b) by (apply Z.lor_nonneg; lia).
      apply Z.log2_lt_pow2; [lia|].
      rewrite Z.log2_lor by lia.
      apply Z.max_lub_lt.
      * destruct (Z.eq_dec a 0) as [->|]; [simpl; lia|].
        apply Z.log2_lt_pow2; lia.
      * destruct (Z.eq_dec b 0) as [->|]; [simpl; lia|].
        apply Z.log2_lt_pow2; lia.
Qed.

Lemma u8_range (b : byte) : 0 <= u8 b < 256.
Proof.
  unfold u8. pose proof (Byte.to_N_bounded b). lia.
Qed.

Lemma shiftl_u8_bound (b : byte) (k : Z) :
  0 <= k <= 24 -> 0 <= Z.shiftl (u8 b) k < 2 ^ 32.
Proof.
  intros Hk. pose proof (u8_range b) as Hb.
  rewrite Z.shiftl_mul_pow2 by lia. split; [apply Z.mul_nonneg_nonneg; lia|].
  apply Z.lt_le_trans with (256 * 2 ^ k).
  - apply Z.mul_lt_mono_pos_r; [apply Z.pow_pos_nonneg; lia | lia].
  - change 256 with (2 ^ 8). rewrite <- Z.pow_add_r by lia.
    apply Z.pow_le_mono_r; lia.
Qed.

(** The value of [BigEndian_Uint32] is an unsigned 32-bit number. *)
Lemma BigEndian_Uint32_range (b0 b1 b2 b3 : byte) :
  exists n, BigEndian_Uint32 [b0; b1; b2; b3] = Some n /\ 0 <= n < 2 ^ 32.
Proof.
  eexists; split; [reflexivity|].
  pose proof (shiftl_u8_bound b0 24 ltac:(lia)).
  pose proof (shiftl_u8_bound b1 16 ltac:(lia)).
  pose proof (shiftl_u8_bound b2 8 ltac:(lia)).
  pose proof (shiftl_u8_bound b3 0 ltac:(lia)) as Hlow.
  rewrite Z.shiftl_0_r in Hlow.
  repeat apply lor_bound; lia.
Qed.

(** C3.  The claim that the binary decoder's [integer] reads its payload as
    a signed 32-bit number fails on the code: the [uint32] is converted to
    [int64] as it is, so the result is never negative.  The payload
    FF FF FF FD gives 4294967293, which an int64 destination stores and an
    int32 destination rejects as an overflow. *)
Theorem C3_binary_integer_is_unsigned :
  (forall b0 b1 b2 b3 : byte,
      exists n, integer binaryDecoder [b0; b1; b2; b3] = Ret n None
                /\ 0 <= n < 2 ^ 32)
  /\ integer binaryDecoder [xff; xff; xff; xfd] = Ret 4294967293 None
  /\ (forall fuel,
         UnmarshalBinary (S fuel) ["i"%byte; xff; xff; xff; xfd]
           (pointerTo int64T (reflect.VInt 0))
         = (Done, pointerTo int64T (reflect.VInt 4294967293)))
  /\ (forall fuel,
         UnmarshalBinary (S fuel) ["i"%byte; xff; xff; xff; xfd]
           (pointerTo int32T (reflect.VInt 0))
         = (Failed (UnmarshalTypeError
                      ("integer " ++ string_of_list_byte [xff; xff; xff; xfd])
                      int32T 5),
            pointerTo int32T (reflect.VInt 0))).
Proof.
  repeat split; try reflexivity.
  intros b0 b1 b2 b3.
  destruct (BigEndian_Uint32_range b0 b1 b2 b3) as (n & E & R).
  exists n. split; [|exact R].
  unfold integer, binaryDecoder, binaryDecoder.integer. now rewrite E.
Qed.

(** A payload below [2 ^ 31] does decode as the claim says (scenario S6). *)
Example UnmarshalBinary_42 (fuel : nat) :
  UnmarshalBinary (S fuel) ["i"%byte; x00; x00; x00; x2a]
    (pointerTo int32T (reflect.VInt 0))
  = (Done, pointerTo int32T (reflect.VInt 42)).
Proof. reflexivity. Qed.

(** ** Empty payloads *)

(** C4.  On an empty payload the operations [real], [uuid], [binary],
    [boolean] of both decoders and the text decoder's [date] return the zero
    value and no error.  The claim fails for [integer]: the text decoder
    hands the empty string to [strconv.Atoi] and returns its syntax error,
    and the binary decoder's [integer], and with it [date], index into the
    empty slice and panic. *)
Theorem C4_empty_payloads :
  forall encoding : string,
    real textDecoder [] = Ret 0 None
    /\ uuid textDecoder [] = Ret zeroUUID None
    /\ binary textDecoder [] encoding = Ret [] None
    /\ boolean textDecoder [] = Ret false None
    /\ date textDecoder [] = Ret (time_Unix 0 0) None
    /\ real binaryDecoder [] = Ret 0 None
    /\ uuid binaryDecoder [] = Ret zeroUUID None
    /\ binary binaryDecoder [] encoding = Ret [] None
    /\ boolean binaryDecoder [] = Ret false None
    /\ integer textDecoder []
       = Ret 0 (Some (NumError "Atoi" EmptyString "invalid syntax"))
    /\ integer binaryDecoder [] = Throw "index out of range"
    /\ date binaryDecoder [] = Throw "index out of range".
Proof.
  intros encoding. repeat split; reflexivity.
Qed.

End BinaryScalars.

(** ** The unmarshal engine on the scenarios *)

Section EngineScenarios.

Context `{GoLibrary} `{UserHooks}.

(** C5.  The claim that every pairing outside the conversion matrix gives
    an [UnmarshalTypeError] fails on the code for a URI scalar: that case of
    the switch has no test of the destination kind and calls [v.Set] with a
    [URL] value, which panics on an integer destination; the destination
    keeps its value.  A UUID scalar, which has no case at all, returns
    without error. *)
Theorem C5_URI_into_integer_panics :
  forall (data : list byte) (attr : gmap string string) (n : Z) (fuel : nat),
    fst (Unmarshaler.Unmarshal (S fuel) (pointerTo intT (reflect.VInt n))
           (newMockDecoder [inl (Scalar URI data attr)]))
    = (Panicked "reflect.Set: value is not assignable to type",
       pointerTo intT (reflect.VInt n))
    /\ fst (Unmarshaler.Unmarshal (S fuel) (pointerTo intT (reflect.VInt n))
              (newMockDecoder [inl (Scalar UUIDType data attr)]))
       = (Done, pointerTo intT (reflect.VInt n)).
Proof.
  intros data attr n fuel. split; reflexivity.
Qed.

(** A pairing the switch does test: a String scalar into an integer. *)
Example String_into_integer (n : Z) (fuel : nat) :
  fst (Unmarshaler.Unmarshal (S fuel) (pointerTo intT (reflect.VInt n))
         (newMockDecoder [inl (stringScalar "v")]))
  = (Failed (UnmarshalTypeError "string v" intT 1),
     pointerTo intT (reflect.VInt n)).
Proof. reflexivity. Qed.

(** C6.  The claim that an unknown key's whole value is skipped fails on
    the code when the value is a container: [object] reads one token after
    the unknown key and goes on.  For [{x: {q: "v"}, A: "hi"}] the inner key
    [q] is taken for a key of the record and the inner [MapEnd] ends the
    record; [A] is never assigned and its tokens stay unread.  With a scalar
    under the unknown key, [A] is decoded. *)
Theorem C6_unknown_container_is_not_skipped :
  forall fuel : nat,
    (let '(st, dst, u) :=
       Unmarshaler.Unmarshal (4 + fuel)
         (pointerTo (recordA stringT []) (reflect.VStruct [reflect.VString EmptyString]))
         (newMockDecoder tokensUnknownMap) in
     (st, pointee dst, mockTokenReader.tokens (Unmarshaler.scan u)))
    = (Done, Some (reflect.VStruct [reflect.VString EmptyString]),
       map inl [Key "A"; stringScalar "hi"; MapEnd])
    /\ (let '(st, dst, u) :=
          Unmarshaler.Unmarshal (4 + fuel)
            (pointerTo (recordA stringT []) (reflect.VStruct [reflect.VString EmptyString]))
            (newMockDecoder tokensUnknownScalar) in
        (st, pointee dst, mockTokenReader.tokens (Unmarshaler.scan u)))
       = (Done, Some (reflect.VStruct [reflect.VString "hi"]), []).
Proof.
  intros fuel. split; reflexivity.
Qed.

(** C7.  The claim that [Unmarshal] insists on a first token
    [DocumentStart] fails on the code: [Unmarshal] reads one token and
    dispatches on it.  A stream that starts with a scalar is decoded; the
    stream of the test [TestNoStartDocument] fails with another message; and
    a stream that does start with [DocumentStart] is rejected. *)
Theorem C7_first_token_is_dispatched :
  forall fuel : nat,
    fst (Unmarshaler.Unmarshal (S fuel)
           (pointerTo stringT (reflect.VString EmptyString))
           (newMockDecoder [inl (stringScalar "hi")]))
    = (Done, pointerTo stringT (reflect.VString "hi"))
    /\ fst (Unmarshaler.Unmarshal (S fuel)
              (pointerTo emptyRecord (reflect.VStruct []))
              (newMockDecoder [inl (OtherToken "int")]))
       = (Failed (InvalidLLSDError "unexpected int" 1),
          pointerTo emptyRecord (reflect.VStruct []))
    /\ InvalidLLSDError_Error "unexpected int"
       <> InvalidLLSDError_Error "missing document start."
    /\ fst (Unmarshaler.Unmarshal (S fuel)
              (pointerTo stringT (reflect.VString EmptyString))
              (newMockDecoder (map inl [DocumentStart; stringScalar "hi";
                                        DocumentEnd])))
       = (Failed (InvalidLLSDError "unexpected DocumentStart" 1),
          pointerTo stringT (reflect.VString EmptyString)).
Proof.
  intros fuel. repeat split; try reflexivity. discriminate.
Qed.

(** C8.  The claim that [UnmarshalXML] of
    [<llsd><map><key>A</key><binary>FFFFFFFD</binary></map></llsd>] into a
    record with an int32 field [A] succeeds with [A = -3] fails on the code
    of xml_scan.go: its tokenizer turns [<llsd>] into the token
    [DocumentStart], for which [value] has no case, so [UnmarshalXML] fails
    with [unexpected DocumentStart] and [A] keeps its value; this happens to
    every document that starts with [<llsd>], whatever the destination.
    The decoding the claim describes is what the rest of the code does:
    read through the tokenizer of unnamed/part_000, which passes over
    [<llsd>], and as the bare token stream, the document leaves [A = -3],
    whatever [A] held: the text is base16-decoded to FF FF FF FD, the four
    bytes are read as the big-endian pattern 4294967293, and [SetInt]
    stores it truncated to 32 bits. *)
Theorem C8_document_start_is_rejected :
  (forall (a0 : Z) (fuel : nat),
      UnmarshalXML xml_scan_TokenReader (3 + fuel) docS2
        (pointerTo (recordA int32T []) (reflect.VStruct [reflect.VInt a0]))
      = (Failed (InvalidLLSDError "unexpected DocumentStart" 6),
         pointerTo (recordA int32T []) (reflect.VStruct [reflect.VInt a0])))
  /\ (forall (attrs : list (string * string)) (o pos : Z)
             (rest : list (xml.Token * Z)) (fin : error) (T : rtype)
             (x : reflect.value) (fuel : nat),
         UnmarshalXML xml_scan_TokenReader (S fuel)
           (xml.mkDecoder ((xml.StartElement "llsd" attrs, o) :: rest) pos fin)
           (pointerTo T x)
         = (Failed (InvalidLLSDError "unexpected DocumentStart" o),
            pointerTo T x))
  /\ (forall (a0 : Z) (fuel : nat),
         UnmarshalXML XMLScanner_TokenReader (3 + fuel) docS2
           (pointerTo (recordA int32T []) (reflect.VStruct [reflect.VInt a0]))
         = (Done,
            pointerTo (recordA int32T []) (reflect.VStruct [reflect.VInt (-3)]))
         /\ fst (Unmarshaler.Unmarshal (3 + fuel)
                   (pointerTo (recordA int32T [])
                      (reflect.VStruct [reflect.VInt a0]))
                   (newMockDecoder tokensS2))
            = (Done,
               pointerTo (recordA int32T [])
                 (reflect.VStruct [reflect.VInt (-3)])))
  /\ binary textDecoder (list_byte_of_string "FFFFFFFD") Base16
     = Ret [xff; xff; xff; xfd] None
  /\ BigEndian_Uint32 [xff; xff; xff; xfd] = Some 4294967293
  /\ wrap_signed 32 4294967293 = -3.
Proof.
  repeat split; reflexivity.
Qed.

End EngineScenarios.

(** ** The tag language *)

Section Tags.

Context `{GoLibrary} `{UserHooks} `{MapOrder}.

(** C10.  [parseTag] maps the tag [-] to a descriptor with [Omit] set, the
    tag [-,] to a descriptor that is not omitted and has the wire name [-],
    and the empty tag to a descriptor that is not omitted and has the
    source name; the encoder's loop over the fields of a record passes over
    a field whose tag is [-]. *)
Theorem C10_parseTag_hyphen :
  forall name : string,
    parseTag "-" name = mkTag EmptyString name true false
    /\ parseTag "-," name = mkTag Base16 "-" false false
    /\ parseTag EmptyString name = mkTag EmptyString name false false
    /\ (forall rec v key sf i rest c,
           XMLEncoder.structFields rec v
             ((key, mkFieldInfo sf i (parseTag "-" name)) :: rest) c
           = XMLEncoder.structFields rec v rest c).
Proof.
  intros name. repeat split; reflexivity.
Qed.

End Tags.

(** ** Facts about the [reflect] model *)

Lemma kindOf_underlying (t : reflect.rtype) :
  reflect.kindOf (reflect.underlying t) = reflect.kindOf t.
Proof. induction t; simpl; auto. Qed.

Lemma underlying_not_Defined (t : reflect.rtype) n ms u :
  reflect.underlying t <> reflect.Defined n ms u.
Proof. induction t; simpl; auto; discriminate. Qed.

(** A well-formed value of pointer kind is a pointer. *)
Lemma hasType_Pointer (x : reflect.value) (t : reflect.rtype) :
  reflect.kindOf t = reflect.Pointer ->
  reflect.hasType x t = true ->
  exists e p,
    reflect.underlying t = reflect.PointerTo e /\ x = reflect.VPointer p.
Proof.
  intros K Hx. rewrite <- kindOf_underlying in K.
  destruct (reflect.underlying t) eqn:U; simpl in K; try discriminate.
  - subst k.
    destruct x; simpl in Hx; rewrite U in Hx; simpl in Hx; try discriminate;
      repeat match type of Hx with
             | context [match ?y with _ => _ end] =>
                 destruct y; try discriminate
             end.
  - destruct x; simpl in Hx; rewrite U in Hx; try discriminate;
      repeat match type of Hx with
             | context [match ?y with _ => _ end] =>
                 destruct y; try discriminate
             end; eauto.
  - exfalso. eapply underlying_not_Defined; eauto.
Qed.

Lemma hasType_VPointer (p : option reflect.value) (t : reflect.rtype) :
  reflect.hasType (reflect.VPointer p) t = true ->
  exists e, reflect.underlying t = reflect.PointerTo e.
Proof.
  intros Hx. simpl in Hx.
  destruct (reflect.underlying t) eqn:U; destruct p; try discriminate; eauto;
    destruct k; discriminate.
Qed.

Lemma rtype_eqb_refl : forall t, reflect.rtype_eqb t t = true.
Proof.
  fix IH 1. intros t. destruct t; simpl.
  - destruct k; reflexivity.
  - apply IH.
  - rewrite Nat.eqb_refl, IH. reflexivity.
  - apply IH.
  - apply Nat.eqb_refl.
  - rewrite !IH. reflexivity.
  - induction fields as [|f r IHr]; [reflexivity|].
    destruct f as [n p ty tg]. rewrite !String.eqb_refl, IH, IHr.
    rewrite bool_decide_eq_true_2 by reflexivity. reflexivity.
  - apply String.eqb_refl.
  - reflexivity.
Qed.

Lemma setVal_val (v : reflect.Value) : reflect.setVal v (reflect.val v) = v.
Proof. destruct v; reflexivity. Qed.

(** ** UUID scalars *)

Section UUIDScalars.

Context `{GoLibrary} `{UserHooks} {S : Type} `{TokenReader S}.

(** C2, as amended.  A UUID scalar has no case in the switch of [scalar]:
    for every well-formed destination that is readable through reflection,
    implements no unmarshal hook and is not a nil pointer, [scalar] returns
    without error and leaves the destination as it was. *)
Theorem C2_UUID_scalar_leaves_destination :
  forall (v : reflect.Value) (u : Unmarshaler.t S) (data : list byte)
         (attr : gmap string string),
    Unmarshaler.tok u = Some (Scalar UUIDType data attr) ->
    reflect.readOnly v = false ->
    reflect.hasType (reflect.val v) (reflect.typ v) = true ->
    Unmarshaler.hooked (Unmarshaler.text u) (reflectValue.dynamic v) = None ->
    reflect.val v <> reflect.VPointer None ->
    Unmarshaler.scalar v u = (Done, v).
Proof.
  intros v u data attr Htok Hro Hty Hhook Hp.
  unfold Unmarshaler.scalar. rewrite Htok.
  unfold reflectValue.Interface_. rewrite Hro, Hhook.
  destruct (reflect.Kind_ v) eqn:K; try reflexivity.
  destruct (hasType_Pointer _ _ K Hty) as (e & p & U & E).
  unfold Unmarshaler.throughPointer, reflectValue.elemType. rewrite U, E.
  destruct p as [x|]; [|congruence]. simpl.
  rewrite E. simpl. rewrite <- E. now rewrite setVal_val.
Qed.

(** The pointer step comes before the switch: a settable nil pointer is
    made to point to a fresh zero value, and that is all a UUID scalar does
    to it. *)
Lemma UUID_scalar_allocates_nil_pointer :
  forall (v : reflect.Value) (u : Unmarshaler.t S) (data : list byte)
         (attr : gmap string string),
    Unmarshaler.tok u = Some (Scalar UUIDType data attr) ->
    reflect.readOnly v = false ->
    reflect.addressable v = true ->
    reflect.hasType (reflect.val v) (reflect.typ v) = true ->
    Unmarshaler.hooked (Unmarshaler.text u) (reflectValue.dynamic v) = None ->
    reflect.val v = reflect.VPointer None ->
    exists e,
      reflectValue.elemType (reflect.typ v) = Some e
      /\ Unmarshaler.scalar v u
         = (Done,
            reflect.setVal v (reflect.VPointer (Some (reflect.zero e)))).
Proof.
  intros v u data attr Htok Hro Ha Hty Hhook Hp.
  unfold Unmarshaler.scalar. rewrite Htok.
  unfold reflectValue.Interface_. rewrite Hro, Hhook.
  rewrite Hp in Hty.
  destruct (hasType_VPointer _ _ Hty) as (e & U).
  assert (K : reflect.Kind_ v = reflect.Pointer).
  { unfold reflect.Kind_. now rewrite <- kindOf_underlying, U. }
  rewrite K. exists e.
  unfold Unmarshaler.throughPointer, reflectValue.elemType. rewrite U, Hp.
  split; [reflexivity|].
  unfold reflectValue.Set_, reflectValue.mustBeAssignable.
  rewrite Hro, Ha. simpl.
  unfold reflectValue.assignTo, reflectValue.directlyAssignable. simpl.
  assert (D : (if reflect.rtype_eqb (reflect.typ v) (reflect.PointerTo e)
               then true
               else if reflect.hasName (reflect.typ v) && false
                       || negb (reflect.Kind_eqb
                                  (reflect.kindOf (reflect.typ v))
                                  reflect.Pointer)
                    then false
                    else reflect.rtype_eqb (reflect.underlying (reflect.typ v))
                           (reflect.PointerTo e)) = true).
  { destruct (reflect.rtype_eqb (reflect.typ v) (reflect.PointerTo e));
      [reflexivity|].
    unfold reflect.Kind_ in K. rewrite K, U. rewrite andb_false_r. simpl.
    apply rtype_eqb_refl. }
  rewrite D. simpl. reflexivity.
Qed.

End UUIDScalars.

(** ** The XML encoder *)

Lemma append_assoc (a b c : string) : (a ++ b) ++ c = a ++ b ++ c.
Proof.
  induction a as [|x a IH]; [reflexivity|].
  change (String.String x ((a ++ b) ++ c) = String.String x (a ++ b ++ c)).
  now rewrite IH.
Qed.

Lemma byte_of_Z_u8 (c : byte) : byte_of_Z (u8 c) = c.
Proof.
  unfold byte_of_Z, u8. pose proof (Byte.to_N_bounded c).
  rewrite Z.mod_small by lia. rewrite N2Z.id, Byte.of_to_N. reflexivity.
Qed.






Section Encoder.

Context `{GoLibrary} `{UserHooks} `{MapOrder}.

(** A [range] over a map with one entry has one order. *)
Lemma rangeFields_singleton (k : string) (x : fieldInfo) :
  rangeFields {[k := x]} = [(k, x)].
Proof.
  pose proof (rangeFields_perm {[k := x]}) as P.
  rewrite map_to_list_singleton in P.
  now apply Permutation_singleton_r in P.
Qed.


Lemma Encode_record_pointer (fuel : nat) (fs : list reflect.StructField)
  (xs : list reflect.value) :
  XMLEncoder.Encode (S (S fuel))
    (Some (reflect.PointerTo (reflect.StructOf fs),
           reflect.VPointer (Some (reflect.VStruct xs)))) XMLEncoder.New
  = let c :=
      XMLEncoder.incDepth
        (XMLEncoder.writeString "<map>"
           (XMLEncoder.writeIndent
              (XMLEncoder.incDepth
                 (XMLEncoder.writeString "<llsd>"
                    (XMLEncoder.writeString xml.Header XMLEncoder.New))))) in
    match XMLEncoder.structFields (XMLEncoder.marshalValue (S fuel))
            (reflect.mkValue (reflect.StructOf fs) (reflect.VStruct xs)
               true false)
            (rangeFields (cachedFieldsForType (reflect.StructOf fs))) c with
    | (Done, c') =>
        (Done,
         XMLEncoder.writeString "</llsd>"
           (XMLEncoder.writeIndent
              (XMLEncoder.decDepth
                 (XMLEncoder.writeString "</map>"
                    (XMLEncoder.writeIndent (XMLEncoder.decDepth c'))))))
    | r => r
    end.
Proof.
  unfold XMLEncoder.Encode.
  set (c0 := XMLEncoder.incDepth
                 (XMLEncoder.writeString "<llsd>"
                    (XMLEncoder.writeString xml.Header XMLEncoder.New))).
  set (rec := XMLEncoder.marshalValue (S fuel)).
  assert (M : XMLEncoder.marshalValue (S (S fuel))
                (Some (reflect.ValueOf (reflect.PointerTo (reflect.StructOf fs))
                         (reflect.VPointer (Some (reflect.VStruct xs))))) None c0
              = XMLEncoder.marshalKind rec
                  (reflect.mkValue (reflect.StructOf fs) (reflect.VStruct xs) true false)
                  None c0).
  { reflexivity. }
  rewrite M. unfold XMLEncoder.marshalKind.
  change (reflect.Kind_ (reflect.mkValue (reflect.StructOf fs) (reflect.VStruct xs) true false))
    with reflect.Struct.
  cbv iota zeta.
  change (reflect.typ (reflect.mkValue (reflect.StructOf fs) (reflect.VStruct xs) true false))
    with (reflect.StructOf fs).
  destruct (XMLEncoder.structFields rec _ _ _) as [[| | |] c']; reflexivity.
Qed.













(** The tests [TestXMLOmit] and [TestXMLHyphenName]: a field tagged [-] is
    left out of the map, a field tagged [-,] is written under the key [-]. *)
Example MarshalXML_omitted_field (fuel : nat) :
  MarshalXML (3 + fuel) (sourceTagged "-")
  = (Done, xml.Header ++ "<llsd><map></map></llsd>").
Proof.
  unfold MarshalXML, sourceTagged, recordA.
  change (3 + fuel)%nat with (S (S (S fuel))).
  rewrite Encode_record_pointer.
  replace (cachedFieldsForType
             (reflect.StructOf
                [reflect.mkStructField "A" EmptyString stringT
                   [("llsd", "-")]]))
    with ({[ "A" := mkFieldInfo
                      (reflect.mkStructField "A" EmptyString stringT
                         [("llsd", "-")]) 0 (parseTag "-" "A") ]}
          : gmap string fieldInfo)
    by (vm_compute; reflexivity).
  rewrite rangeFields_singleton. vm_compute. reflexivity.
Qed.

Example MarshalXML_hyphen_name (fuel : nat) :
  MarshalXML (3 + fuel) (sourceTagged "-,")
  = (Done,
     xml.Header ++ "<llsd><map><key>-</key><string>"
     ++ xml_EscapeText (list_byte_of_string "str")
     ++ "</string></map></llsd>").
Proof.
  unfold MarshalXML, sourceTagged, recordA.
  change (3 + fuel)%nat with (S (S (S fuel))).
  rewrite Encode_record_pointer.
  replace (cachedFieldsForType
             (reflect.StructOf
                [reflect.mkStructField "A" EmptyString stringT
                   [("llsd", "-,")]]))
    with ({[ "-" := mkFieldInfo
                      (reflect.mkStructField "A" EmptyString stringT
                         [("llsd", "-,")]) 0 (parseTag "-," "A") ]}
          : gmap string fieldInfo)
    by (vm_compute; reflexivity).
  rewrite rangeFields_singleton.
  cbv -[String.append xml_EscapeText].
  rewrite !append_assoc. reflexivity.
Qed.

End Encoder.

(** ** Closed instances *)

(** The hypotheses of C2 hold of a destination of type [UUID] under a UUID
    scalar of the binary form. *)
Lemma C2_UUID_scalar_witness :
  Unmarshaler.tok atUUIDScalar = Some (Scalar UUIDType uuidBytes ∅)
  /\ reflect.readOnly uuidVariable = false
  /\ reflect.hasType (reflect.val uuidVariable) (reflect.typ uuidVariable)
     = true
  /\ Unmarshaler.hooked (Unmarshaler.text atUUIDScalar)
       (reflectValue.dynamic uuidVariable) = None
  /\ reflect.val uuidVariable <> reflect.VPointer None
  /\ @Unmarshaler.scalar plainLibrary noHooks _ _ uuidVariable atUUIDScalar
     = (Done, uuidVariable).
Proof.
  assert (Hp : reflect.val uuidVariable <> reflect.VPointer None)
    by discriminate.
  split; [reflexivity|]. split; [reflexivity|]. split; [reflexivity|].
  split; [reflexivity|]. split; [exact Hp|].
  apply (@C2_UUID_scalar_leaves_destination plainLibrary noHooks _ _
           uuidVariable atUUIDScalar uuidBytes ∅);
    try reflexivity; exact Hp.
Defined.

(** C2 as stated fails at two destinations without hooks: a settable nil
    pointer comes back pointing to a fresh zero value, and a destination
    reached through an unexported field makes [scalar] panic. *)
Lemma C2_counterexample :
  (Unmarshaler.hooked (Unmarshaler.text atUUIDScalar)
     (reflectValue.dynamic nilUUIDPointer) = None
   /\ @Unmarshaler.scalar plainLibrary noHooks _ _ nilUUIDPointer atUUIDScalar
      = (Done,
         reflect.setVal nilUUIDPointer
           (reflect.VPointer (Some (reflect.zero UUID))))
   /\ @Unmarshaler.scalar plainLibrary noHooks _ _ nilUUIDPointer atUUIDScalar
      <> (Done, nilUUIDPointer))
  /\ (Unmarshaler.hooked (Unmarshaler.text atUUIDScalar)
        (reflectValue.dynamic unexportedUUID) = None
      /\ fst (@Unmarshaler.scalar plainLibrary noHooks _ _ unexportedUUID
                atUUIDScalar)
         <> Done).
Proof.
  repeat split; try reflexivity; vm_compute; discriminate.
Qed.

(** Both destinations arise in a decode: the field [ID *UUID] of
    bench_test.go under the key [id] ends up pointing to the zero UUID, the
    sixteen bytes on the wire being dropped; an unexported field named on
    the wire ends the call in a panic. *)
Example UnmarshalBinary_pointer_to_UUID (fuel : nat) :
  @UnmarshalBinary plainLibrary noHooks (3 + fuel) (binaryDocID uuidBytes)
    (pointerTo recordID (reflect.VStruct [reflect.VPointer None]))
  = (Done,
     pointerTo recordID
       (reflect.VStruct [reflect.VPointer (Some (reflect.zero UUID))])).
Proof. reflexivity. Qed.

Example Unmarshal_unexported_field (fuel : nat) :
  fst (fst (@Unmarshaler.Unmarshal plainLibrary noHooks _ _ (3 + fuel)
              (pointerTo recordUnexported (reflect.VStruct [reflect.zero UUID]))
              (@newMockDecoder plainLibrary
                 (map inl [MapStart; Key "a"; Scalar UUIDType uuidBytes ∅;
                           MapEnd]))))
  = Panicked "reflect.Value.Interface: cannot return value obtained from unexported field or method".
Proof. reflexivity. Qed.


(** * Further properties of the code *)

(** ** Field tags (decode.go, [parseTag] and [fieldsForType]) *)

Lemma parseOptions_omitEmpty (vs : list string) (oe : bool) (enc : string) :
  fst (parseOptions vs oe enc)
  = oe || existsb (fun v => String.eqb v "omitempty") vs.
Proof.
  revert oe enc. induction vs as [|v vs IH]; intros oe enc; simpl.
  - now rewrite orb_false_r.
  - destruct (String.eqb v "omitempty") eqn:E.
    + rewrite IH. simpl. now rewrite orb_true_r.
    + simpl.
      destruct (String.eqb v Base16 || String.eqb v Base64 || String.eqb v Base85);
        now rewrite IH.
Qed.

(** X1.  [parseTag] sets [OmitEmpty] exactly when the tag is not [-] and one
    of its options, the comma-separated pieces after the first, is
    [omitempty]; the position of the option and the other options do not
    matter, and a first piece [omitempty] is a name, not an option. *)
Theorem parseTag_OmitEmpty (t name : string) :
  OmitEmpty (parseTag t name)
  = negb (String.eqb t "-")
    && existsb (fun v => String.eqb v "omitempty")
         (tl (strings_Split t ","%byte)).
Proof.
  unfold parseTag.
  destruct (String.eqb t EmptyString) eqn:E0.
  - apply String.eqb_eq in E0. subst t. reflexivity.
  - destruct (String.eqb t "-"); [reflexivity|].
    pose proof (parseOptions_omitEmpty (tl (strings_Split t ","%byte)) false
                  Base16) as P.
    destruct (parseOptions (tl (strings_Split t ","%byte)) false Base16)
      as [oe enc].
    simpl in *. exact P.
Qed.

Lemma last_cons_default {A} (x : A) (l : list A) (d d' : A) :
  List.last (x :: l) d = List.last (x :: l) d'.
Proof.
  revert x. induction l as [|y l IH]; intros x; [reflexivity|].
  change (List.last (y :: l) d = List.last (y :: l) d'). apply IH.
Qed.

Lemma parseOptions_last (vs : list string) (oe : bool) (enc : string) :
  snd (parseOptions vs oe enc)
  = List.last
      (List.filter (fun v => String.eqb v Base16 || String.eqb v Base64
                             || String.eqb v Base85) vs) enc.
Proof.
  revert oe enc. induction vs as [|v vs IH]; intros oe enc; [reflexivity|].
  cbn [parseOptions List.filter].
  destruct (String.eqb v "omitempty") eqn:E.
  - apply String.eqb_eq in E. subst v. cbn. apply IH.
  - destruct (String.eqb v Base16 || String.eqb v Base64 || String.eqb v Base85)
      eqn:K.
    + rewrite IH.
      destruct (List.filter _ vs) as [|z zs]; [reflexivity|].
      change (List.last (v :: z :: zs) enc) with (List.last (z :: zs) enc).
      apply last_cons_default.
    + apply IH.
Qed.

(** X2.  The encoding of a tag that is neither empty nor [-] is the last of
    its options that names an encoding ([base16], [base64], [base85]), and
    [base16] when none does: a later encoding option overrides an earlier
    one. *)
Theorem parseTag_last_encoding_wins (t name : string) :
  Encoding (parseTag t name)
  = if String.eqb t EmptyString || String.eqb t "-" then EmptyString
    else List.last
           (List.filter (fun v => String.eqb v Base16 || String.eqb v Base64
                                  || String.eqb v Base85)
              (tl (strings_Split t ","%byte))) Base16.
Proof.
  unfold parseTag.
  destruct (String.eqb t EmptyString); [reflexivity|].
  destruct (String.eqb t "-"); [reflexivity|].
  pose proof (parseOptions_last (tl (strings_Split t ","%byte)) false Base16)
    as P.
  destruct (parseOptions (tl (strings_Split t ","%byte)) false Base16)
    as [oe enc].
  simpl in *. exact P.
Qed.

Lemma fieldsFrom_invariant (fs : list reflect.StructField) :
  forall (i : nat) (m : gmap string fieldInfo) (all : list reflect.StructField),
    (forall j f, fs !! j = Some f -> all !! (i + j)%nat = Some f) ->
    (forall k info, m !! k = Some info ->
        all !! Index info = Some (StructField_ info)
        /\ Name (LLSDTag info) = k) ->
    forall k info, fieldsFrom i fs m !! k = Some info ->
      all !! Index info = Some (StructField_ info) /\ Name (LLSDTag info) = k.
Proof.
  induction fs as [|f fs IH]; intros i m all Hall Hm k info Hk; simpl in Hk.
  - eauto.
  - eapply IH in Hk; eauto.
    + intros j g Hj. specialize (Hall (S j) g Hj).
      now replace (S i + j)%nat with (i + S j)%nat by lia.
    + intros k' info' Hl.
      destruct (decide (Name (parseTag
                 (if String.eqb (reflect.Tag_Get (reflect.sfTag f) "llsd")
                       EmptyString
                  then reflect.Tag_Get (reflect.sfTag f) "json"
                  else reflect.Tag_Get (reflect.sfTag f) "llsd")
                 (reflect.sfName f)) = k')) as [E|E].
      * rewrite E in Hl. rewrite lookup_insert_eq in Hl.
        inversion Hl; subst info'. simpl.
        split; [|exact E]. specialize (Hall O f eq_refl).
        now rewrite Nat.add_0_r in Hall.
      * rewrite lookup_insert_ne in Hl by exact E. eauto.
Qed.

Lemma cachedFields_invariant (fs : list reflect.StructField) (k : string)
  (info : fieldInfo) :
  cachedFieldsForType (reflect.StructOf fs) !! k = Some info ->
  fs !! Index info = Some (StructField_ info) /\ Name (LLSDTag info) = k.
Proof.
  intros Hk. unfold cachedFieldsForType, fieldsForType in Hk. simpl in Hk.
  eapply (fieldsFrom_invariant fs O ∅ fs); eauto.
  intros k' i' Hl. rewrite lookup_empty in Hl. discriminate.
Qed.

(** X3.  Every entry of the field table of a struct type is filed under the
    wire name of its own tag, and its index is the position in the struct of
    the field it describes. *)
Theorem fieldsForType_entries (fs : list reflect.StructField) (k : string)
  (info : fieldInfo) :
  cachedFieldsForType (reflect.StructOf fs) !! k = Some info ->
  fs !! Index info = Some (StructField_ info) /\ Name (LLSDTag info) = k.
Proof.
  intros Hk. unfold cachedFieldsForType, fieldsForType in Hk.
  cbn [reflectValue.fieldsOf reflect.underlying] in Hk.
  apply (fieldsFrom_invariant fs O ∅ fs) with (k := k); [| |exact Hk].
  - intros j f Hj. exact Hj.
  - intros k' info' Hl. rewrite lookup_empty in Hl. discriminate.
Qed.

Lemma fieldsForType_entries_witness :
  cachedFieldsForType recordS5 !! "A" = Some infoS5
  /\ [fieldS5] !! Index infoS5 = Some (StructField_ infoS5)
  /\ Name (LLSDTag infoS5) = "A".
Proof.
  split; [vm_compute; reflexivity|].
  apply (fieldsForType_entries [fieldS5] "A" infoS5). vm_compute; reflexivity.
Defined.

(** ** The binary tokenizer (binary_scan.go) *)

Lemma step_at_nonzero (s : BinaryScanner.t) :
  BinaryScanner.off s <> 0 ->
  exists res, BinaryScanner.step s = inl res.
Proof.
  intros Ho. destruct (BinaryScanner.step s) as [res|s'] eqn:E; [eauto|].
  apply BinaryScanner_step_continue in E. tauto.
Qed.

Lemma Token_at_nonzero (s : BinaryScanner.t) :
  BinaryScanner.off s <> 0 ->
  BinaryScanner.step s = inl (BinaryScanner_Token s).
Proof.
  intros Ho. destruct (step_at_nonzero s Ho) as [res E].
  unfold BinaryScanner_Token. cbn [BinaryScanner.Token_loop]. now rewrite E.
Qed.

(** X4.  A document that starts with the sixteen bytes of [BinaryHeader]
    gives the tokens of what follows the header, with the offsets counted
    from 16: the header itself produces no token. *)
Theorem header_skipped (rest : list byte) :
  BinaryScanner_Token (BinaryScanner.New (headerBytes ++ rest))
  = BinaryScanner_Token (BinaryScanner.mk rest 16).
Proof.
  assert (S1 : BinaryScanner.step (BinaryScanner.New (headerBytes ++ rest))
               = inr (BinaryScanner.mk rest 16)) by reflexivity.
  assert (N : BinaryScanner.off (BinaryScanner.mk rest 16) <> 0)
    by (simpl; lia).
  pose proof (Token_at_nonzero _ N) as T.
  unfold BinaryScanner_Token at 1. cbn [BinaryScanner.Token_loop].
  rewrite S1, T. reflexivity.
Qed.

(** X5.  The header is recognised at the start of the input only: an op
    byte [<] read at any later offset is the error [Invalid LLSD <], and
    only that one byte is consumed. *)
Theorem header_only_at_start (rest : list byte) (o : Z) :
  o <> 0 ->
  BinaryScanner_Token (BinaryScanner.mk ("<"%byte :: rest) o)
  = ((None, Some (errorString "Invalid LLSD <")),
     BinaryScanner.mk rest (o + 1)).
Proof.
  intros Ho.
  assert (N : BinaryScanner.off (BinaryScanner.mk ("<"%byte :: rest) o) <> 0)
    by exact Ho.
  pose proof (Token_at_nonzero _ N) as T.
  assert (S1 : BinaryScanner.step (BinaryScanner.mk ("<"%byte :: rest) o)
               = inl ((None, Some (errorString "Invalid LLSD <")),
                      BinaryScanner.mk rest (o + 1))).
  { unfold BinaryScanner.step. simpl. change (Z.of_nat 1) with 1.
    destruct (o + 1 =? 1) eqn:E; [apply Z.eqb_eq in E; lia|reflexivity]. }
  rewrite S1 in T. now inversion T.
Qed.

Lemma header_only_at_start_witness :
  16 <> 0
  /\ BinaryScanner_Token (BinaryScanner.mk ("<"%byte :: headerBytes) 16)
     = ((None, Some (errorString "Invalid LLSD <")),
        BinaryScanner.mk headerBytes (16 + 1)).
Proof.
  split; [lia|]. apply (header_only_at_start headerBytes 16). lia.
Defined.

(** X6.  An integer whose four payload bytes are cut short by the end of
    the input, with at least one of them present, is delivered without an
    error: the missing bytes read as zero, and the offset advances by the
    full five bytes. *)
Theorem truncated_integer (rest : list byte) (o : Z) :
  rest <> [] -> (length rest < 4)%nat ->
  BinaryScanner_Token (BinaryScanner.mk ("i"%byte :: rest) o)
  = ((Some (Scalar Integer
              (rest ++ replicate (4 - length rest) "000"%byte)%list ∅), None),
     BinaryScanner.mk [] (o + 1 + 4)).
Proof.
  intros Hne Hlen.
  destruct rest as [|a [|b [|c [|d r]]]]; try congruence; simpl in Hlen;
    try lia; reflexivity.
Qed.

Lemma truncated_integer_witness :
  [x01; x02] <> [] /\ (length [x01; x02] < 4)%nat
  /\ BinaryScanner_Token (BinaryScanner.mk ("i"%byte :: [x01; x02]) 16)
     = ((Some (Scalar Integer
                 ([x01; x02] ++ replicate (4 - length [x01; x02]) "000"%byte)%list
                 ∅), None),
        BinaryScanner.mk [] (16 + 1 + 4)).
Proof.
  split; [discriminate|]. split; [simpl; lia|].
  apply (truncated_integer [x01; x02] 16); [discriminate|simpl; lia].
Defined.

Lemma read_exact (payload rest : list byte) (o : Z) :
  (payload ++ rest)%list <> [] ->
  BinaryScanner.read (length payload) (BinaryScanner.mk (payload ++ rest) o)
  = ((payload, None), BinaryScanner.mk rest (o + Z.of_nat (length payload))).
Proof.
  intros Hne. unfold BinaryScanner.read. simpl.
  rewrite take_app_length, drop_app_length, Nat.sub_diag. simpl.
  rewrite app_nil_r.
  destruct (payload ++ rest)%list; [congruence|reflexivity].
Qed.

Lemma readSized_exact (mkTok : list byte -> Token) (b0 b1 b2 b3 : byte)
  (payload rest : list byte) (o n : Z) :
  BigEndian_Uint32 [b0; b1; b2; b3] = Some n ->
  length payload = Z.to_nat n ->
  (payload ++ rest)%list <> [] ->
  BinaryScanner.readSized mkTok
    (BinaryScanner.mk (b0 :: b1 :: b2 :: b3 :: payload ++ rest) o)
  = ((Some (mkTok payload), None),
     BinaryScanner.mk rest (o + 4 + Z.of_nat (length payload))).
Proof.
  intros Hn Hl Hne. unfold BinaryScanner.readSized.
  assert (R4 : BinaryScanner.read 4
                 (BinaryScanner.mk (b0 :: b1 :: b2 :: b3 :: payload ++ rest) o)
               = (([b0; b1; b2; b3], None),
                  BinaryScanner.mk (payload ++ rest) (o + 4))).
  { reflexivity. }
  rewrite R4. unfold BinaryScanner.size_of. rewrite Hn, <- Hl.
  now rewrite read_exact.
Qed.

(** X7.  A string, binary or key op followed by a big-endian length [n] and
    [n] payload bytes gives a token that carries exactly those bytes, and
    the tokenizer is left just behind the payload, provided the input does
    not end on a payload of length zero. *)
Theorem sized_tokens (b0 b1 b2 b3 : byte) (payload rest : list byte)
  (o n : Z) :
  BigEndian_Uint32 [b0; b1; b2; b3] = Some n ->
  length payload = Z.to_nat n ->
  (payload ++ rest)%list <> [] ->
  let after := BinaryScanner.mk rest (o + 1 + 4 + Z.of_nat (length payload)) in
  BinaryScanner_Token
    (BinaryScanner.mk ("s"%byte :: b0 :: b1 :: b2 :: b3 :: payload ++ rest) o)
  = ((Some (Scalar String payload ∅), None), after)
  /\ BinaryScanner_Token
       (BinaryScanner.mk
          ("b"%byte :: b0 :: b1 :: b2 :: b3 :: payload ++ rest) o)
     = ((Some (Scalar Binary payload ∅), None), after)
  /\ BinaryScanner_Token
       (BinaryScanner.mk
          ("k"%byte :: b0 :: b1 :: b2 :: b3 :: payload ++ rest) o)
     = ((Some (Key (string_of_list_byte payload)), None), after).
Proof.
  intros Hn Hl Hne after.
  repeat split; unfold BinaryScanner_Token; cbn [BinaryScanner.Token_loop];
    unfold BinaryScanner.step;
    change (BinaryScanner.read 1 (BinaryScanner.mk (?c :: ?l) o))
      with (([c], @None error), BinaryScanner.mk l (o + 1));
    cbv iota beta; rewrite (readSized_exact _ _ _ _ _ _ _ _ _ Hn Hl Hne);
    reflexivity.
Qed.

Lemma sized_tokens_witness :
  BigEndian_Uint32 [x00; x00; x00; x02] = Some 2
  /\ length (list_byte_of_string "hi") = Z.to_nat 2
  /\ (list_byte_of_string "hi" ++ ["}"%byte])%list <> []
  /\ BinaryScanner_Token
       (BinaryScanner.mk
          ("k"%byte :: x00 :: x00 :: x00 :: x02
           :: list_byte_of_string "hi" ++ ["}"%byte]) 21)
     = ((Some (Key (string_of_list_byte (list_byte_of_string "hi"))), None),
        BinaryScanner.mk ["}"%byte]
          (21 + 1 + 4 + Z.of_nat (length (list_byte_of_string "hi")))).
Proof.
  split; [reflexivity|]. split; [reflexivity|]. split; [discriminate|].
  apply (sized_tokens x00 x00 x00 x02 (list_byte_of_string "hi") ["}"%byte]
           21 2); [reflexivity|reflexivity|discriminate].
Defined.

Section BinaryEnd.

Context `{GoLibrary} `{UserHooks}.

(** X8.  A string or binary scalar of length zero on which the input ends
    comes out of the tokenizer together with [io.EOF], because the reader is
    asked for zero bytes when it is already exhausted.  [Unmarshal] returns
    the error of its first token: a binary document that consists of an
    empty string, with or without the header, fails with [io.EOF] and the
    destination is left as it was. *)
Theorem zero_length_at_end (o : Z) (v : Value) (fuel : nat) :
  reflect.Kind_ v = reflect.Pointer ->
  BinaryScanner_Token (BinaryScanner.mk ["s"%byte; x00; x00; x00; x00] o)
  = ((Some (Scalar String [] ∅), Some io_EOF),
     BinaryScanner.mk [] (o + 1 + 4 + 0))
  /\ BinaryScanner_Token (BinaryScanner.mk ["b"%byte; x00; x00; x00; x00] o)
     = ((Some (Scalar Binary [] ∅), Some io_EOF),
        BinaryScanner.mk [] (o + 1 + 4 + 0))
  /\ UnmarshalBinary fuel (headerBytes ++ ["s"%byte; x00; x00; x00; x00]) v
     = (Failed io_EOF, v)
  /\ UnmarshalBinary fuel ["s"%byte; x00; x00; x00; x00] v
     = (Failed io_EOF, v).
Proof.
  intros Kv. split; [reflexivity|]. split; [reflexivity|].
  unfold UnmarshalBinary, Unmarshaler.Unmarshal. rewrite Kv.
  split; reflexivity.
Qed.

End BinaryEnd.

Lemma zero_length_at_end_witness :
  reflect.Kind_ (pointerTo stringT (reflect.VString "old")) = reflect.Pointer
  /\ @UnmarshalBinary plainLibrary noHooks 5 ["s"%byte; x00; x00; x00; x00]
       (pointerTo stringT (reflect.VString "old"))
     = (Failed io_EOF, pointerTo stringT (reflect.VString "old")).
Proof.
  split; [reflexivity|].
  exact (proj2 (proj2 (proj2
           (@zero_length_at_end plainLibrary noHooks 0
              (pointerTo stringT (reflect.VString "old")) 5%nat eq_refl)))).
Defined.

(** ** The XML tokenizers (unnamed/part_000 and xml_scan.go) *)

(** X9.  Both tokenizers pass over comments, processing instructions and
    character data between elements: the token returned is the one of the
    input behind them. *)
Theorem XML_skips (pre l : list (xml.Token * Z)) (pos : Z) (fin : error) :
  forallb (fun p => skipped (fst p)) pre = true ->
  XMLScanner.Token (xml.mkDecoder (pre ++ l) pos fin)
  = XMLScanner.Token (xml.mkDecoder l (List.last (map snd pre) pos) fin)
  /\ xml_scan.Token (xml.mkDecoder (pre ++ l) pos fin)
     = xml_scan.Token (xml.mkDecoder l (List.last (map snd pre) pos) fin).
Proof.
  unfold XMLScanner.Token, xml_scan.Token. simpl.
  revert pos. induction pre as [|[t o] pre IH]; intros pos Hs;
    [split; reflexivity|].
  simpl in Hs. apply andb_prop in Hs as [Ht Hp].
  specialize (IH o Hp).
  replace (List.last (map snd ((t, o) :: pre)) pos)
    with (List.last (map snd pre) o).
  2:{ cbn [map snd]. destruct (map snd pre) as [|z zs]; [reflexivity|].
      change (List.last (z :: zs) o = List.last (z :: zs) pos).
      apply last_cons_default. }
  destruct t; try discriminate; simpl; exact IH.
Qed.

Lemma XML_skips_witness :
  forallb (fun p => skipped (fst p)) commentAndSpace = true
  /\ xml_scan.Token
       (xml.mkDecoder (commentAndSpace ++ [(xml.StartElement "map" [], 19)])
          0 io_EOF)
     = xml_scan.Token
         (xml.mkDecoder [(xml.StartElement "map" [], 19)]
            (List.last (map snd commentAndSpace) 0) io_EOF).
Proof.
  split; [reflexivity|].
  exact (proj2 (XML_skips commentAndSpace [(xml.StartElement "map" [], 19)]
                  0 io_EOF eq_refl)).
Defined.

(** X10.  The tokenizer of unnamed/part_000 turns an element whose name is
    that of a scalar type into one [Scalar] token of that type: with
    character data, the data is the payload and the end element is consumed;
    without, the payload is empty and nothing after the end element is
    consumed.  The attributes of the element become the attribute table. *)
Theorem XML_scalar_element (ty : ScalarType) (attrs : list (string * string))
  (text : list byte) (e : string) (rest : list (xml.Token * Z))
  (o1 o2 o3 pos : Z) (fin : error) :
  XMLScanner.Token
    (xml.mkDecoder ((xml.StartElement (ScalarType_String ty) attrs, o1)
                    :: (xml.CharData text, o2) :: (xml.EndElement e, o3)
                    :: rest)
       pos fin)
  = ((Some (Scalar ty text (attrMap attrs)), None), xml.mkDecoder rest o3 fin)
  /\ XMLScanner.Token
       (xml.mkDecoder ((xml.StartElement (ScalarType_String ty) attrs, o1)
                       :: (xml.EndElement e, o2) :: rest) pos fin)
     = ((Some (Scalar ty [] (attrMap attrs)), None),
        xml.mkDecoder rest o2 fin).
Proof.
  destruct ty; split; reflexivity.
Qed.

(** X11.  The tokenizer of xml_scan.go reads one token too many after a
    scalar element without character data: the token that follows the end
    element, whatever it is, is consumed and lost. *)
Theorem xml_scan_self_closing (ty : ScalarType)
  (attrs : list (string * string)) (e : string) (t : xml.Token)
  (rest : list (xml.Token * Z)) (o1 o2 o3 pos : Z) (fin : error) :
  xml_scan.Token
    (xml.mkDecoder ((xml.StartElement (ScalarType_String ty) attrs, o1)
                    :: (xml.EndElement e, o2) :: (t, o3) :: rest) pos fin)
  = ((Some (Scalar ty [] (attrMap attrs)), None), xml.mkDecoder rest o3 fin).
Proof.
  destruct ty; reflexivity.
Qed.

(** X12.  In both tokenizers a [key] element with character data gives the
    [Key] of that text and is consumed up to its end element; a [key]
    element without character data gives the empty key, and the token that
    follows its end element is consumed and lost. *)
Theorem XML_key_element (k : list byte) (e : string)
  (attrs : list (string * string)) (t : xml.Token)
  (rest : list (xml.Token * Z)) (o1 o2 o3 pos : Z) (fin : error) :
  let full :=
    xml.mkDecoder ((xml.StartElement "key" attrs, o1) :: (xml.CharData k, o2)
                   :: (xml.EndElement e, o3) :: rest) pos fin in
  let empty :=
    xml.mkDecoder ((xml.StartElement "key" attrs, o1) :: (xml.EndElement e, o2)
                   :: (t, o3) :: rest) pos fin in
  let after := xml.mkDecoder rest o3 fin in
  XMLScanner.Token full = ((Some (Key (string_of_list_byte k)), None), after)
  /\ xml_scan.Token full = ((Some (Key (string_of_list_byte k)), None), after)
  /\ XMLScanner.Token empty = ((Some (Key EmptyString), None), after)
  /\ xml_scan.Token empty = ((Some (Key EmptyString), None), after).
Proof. repeat split; reflexivity. Qed.

Lemma Token_from_passedOver (pre l : list (xml.Token * Z)) (fin : error) :
  forallb (fun p => passedOver (fst p)) pre = true ->
  forall pos,
    XMLScanner.Token_from (pre ++ l) pos fin
    = XMLScanner.Token_from l (List.last (map snd pre) pos) fin.
Proof.
  induction pre as [|[t o] pre IH]; intros Hs pos; [reflexivity|].
  simpl in Hs. apply andb_prop in Hs as [Ht Hp].
  specialize (IH Hp o).
  replace (List.last (map snd ((t, o) :: pre)) pos)
    with (List.last (map snd pre) o).
  2:{ cbn [map snd]. destruct (map snd pre) as [|z zs]; [reflexivity|].
      change (List.last (z :: zs) o = List.last (z :: zs) pos).
      apply last_cons_default. }
  destruct t as [name attrs|name| | | |]; try discriminate; simpl in Ht |- *;
    try exact IH.
  - apply String.eqb_eq in Ht. subst name. exact IH.
  - apply String.eqb_eq in Ht. subst name. exact IH.
Qed.

Section XMLDocument.

Context `{GoLibrary} `{UserHooks}.

(** X13.  The tokenizer of unnamed/part_000 gives no token for the start
    and the end of the element [llsd], wherever they stand.  A document that
    holds nothing else, apart from what is skipped anyway, has no first
    token: [UnmarshalXML] returns what [encoding/xml] returns at the end of
    its input, which is [io.EOF] for a well-formed document, and the
    destination is left as it was. *)
Theorem XML_empty_document (pre l : list (xml.Token * Z)) (pos : Z)
  (fin : error) (v : Value) (fuel : nat) :
  forallb (fun p => passedOver (fst p)) pre = true ->
  reflect.Kind_ v = reflect.Pointer ->
  XMLScanner.Token (xml.mkDecoder (pre ++ l) pos fin)
  = XMLScanner.Token (xml.mkDecoder l (List.last (map snd pre) pos) fin)
  /\ UnmarshalXML XMLScanner_TokenReader fuel (xml.mkDecoder pre pos fin) v
     = (Failed fin, v).
Proof.
  intros Hs Kv. split.
  - unfold XMLScanner.Token. simpl. now apply Token_from_passedOver.
  - unfold UnmarshalXML, Unmarshaler.Unmarshal. rewrite Kv.
    unfold Unmarshaler.next, NewXMLDecoder.
    cbn [Unmarshaler.scan scan_Token XMLScanner_TokenReader].
    unfold XMLScanner.Token. cbn [xml.pending xml.InputOffset xml.final].
    pose proof (Token_from_passedOver pre [] fin Hs pos) as P.
    rewrite app_nil_r in P. rewrite P. reflexivity.
Qed.

End XMLDocument.

Lemma XML_empty_document_witness :
  forallb (fun p => passedOver (fst p)) emptyDocument = true
  /\ reflect.Kind_ (pointerTo stringT (reflect.VString "old"))
     = reflect.Pointer
  /\ @UnmarshalXML plainLibrary noHooks XMLScanner_TokenReader 5
       (xml.mkDecoder emptyDocument 0 io_EOF)
       (pointerTo stringT (reflect.VString "old"))
     = (Failed io_EOF, pointerTo stringT (reflect.VString "old")).
Proof.
  split; [reflexivity|]. split; [reflexivity|].
  exact (proj2 (@XML_empty_document plainLibrary noHooks emptyDocument []
                  0 io_EOF (pointerTo stringT (reflect.VString "old")) 5%nat
                  eq_refl eq_refl)).
Defined.

(** ** The decoding engine (decode.go, [Unmarshal], [value], [object],
    [array], [scalar]) *)
Lemma wrap_signed_fix (w x : Z) :
  0 < w ->
  (x =? wrap_signed w x) = ((- 2 ^ (w - 1) <=? x) && (x <? 2 ^ (w - 1))).
Proof.
  intros Hw. unfold wrap_signed.
  assert (P : 2 ^ w = 2 * 2 ^ (w - 1)).
  { replace w with (1 + (w - 1)) at 1 by lia. rewrite Z.pow_add_r by lia. reflexivity. }
  assert (Hh : 0 < 2 ^ (w - 1)) by (apply Z.pow_pos_nonneg; lia).
  pose proof (Z.mod_pos_bound (x + 2 ^ (w - 1)) (2 ^ w) ltac:(lia)) as B.
  destruct ((- 2 ^ (w - 1) <=? x) && (x <? 2 ^ (w - 1))) eqn:R.
  - apply andb_prop in R as [R1 R2]. apply Z.leb_le in R1. apply Z.ltb_lt in R2.
    rewrite Z.mod_small by lia. apply Z.eqb_eq. lia.
  - apply Z.eqb_neq. intros E.
    apply andb_false_iff in R as [R|R];
      [apply Z.leb_gt in R | apply Z.ltb_ge in R]; lia.
Qed.
Section ScalarProperties.

Context `{GoLibrary} `{UserHooks} {S : Type} `{TokenReader S}.

(** X14.  An [undef] scalar leaves every destination that has no unmarshal
    hook and is not reached through an unexported field exactly as it was;
    unlike any other scalar it does not even allocate the pointee of a nil
    pointer. *)
Theorem Undefined_scalar (v : reflect.Value) (u : Unmarshaler.t S)
  (data : list byte) (attr : gmap string string) :
  Unmarshaler.tok u = Some (Scalar Undefined data attr) ->
  reflect.readOnly v = false ->
  Unmarshaler.hooked (Unmarshaler.text u) (reflectValue.dynamic v) = None ->
  Unmarshaler.scalar v u = (Done, v).
Proof.
  intros Htok Hro Hh. unfold Unmarshaler.scalar. rewrite Htok.
  unfold reflectValue.Interface_. rewrite Hro, Hh.
  destruct (reflect.Kind_ v); reflexivity.
Qed.

(** X15.  An integer scalar whose payload the decoder reads as [x], into a
    settable destination of a signed integer kind of [w] bits without a
    hook: when [x] fits into [w] bits the destination holds [x] afterwards,
    and otherwise the result is an [UnmarshalTypeError] that names the
    payload, the type and the offset, and the destination keeps its
    value. *)
Theorem integer_range_checked (v : reflect.Value) (u : Unmarshaler.t S)
  (data : list byte) (attr : gmap string string) (w x : Z) :
  Unmarshaler.tok u = Some (Scalar Integer data attr) ->
  Unmarshaler.hooked (Unmarshaler.text u) (reflectValue.dynamic v) = None ->
  reflectValue.intBits (reflect.Kind_ v) = Some w ->
  reflect.CanSet v = true ->
  integer (Unmarshaler.dec u) data = Ret x None ->
  Unmarshaler.scalar v u
  = if (- 2 ^ (w - 1) <=? x) && (x <? 2 ^ (w - 1))
    then (Done, reflect.setVal v (reflect.VInt x))
    else (Failed (UnmarshalTypeError ("integer " ++ string_of_list_byte data)
                    (reflect.typ v) (Unmarshaler.Offset u)), v).
Proof.
  intros Htok Hh Hk Hset I.
  assert (Hw : 0 < w).
  { destruct (reflect.Kind_ v); inversion Hk; lia. }
  unfold reflect.CanSet in Hset. apply andb_prop in Hset as [Ha Hr].
  assert (Hro : reflect.readOnly v = false)
    by (destruct (reflect.readOnly v); [discriminate|reflexivity]).
  assert (Hm : reflectValue.mustBeAssignable v = None).
  { unfold reflectValue.mustBeAssignable. now rewrite Ha, Hro. }
  unfold Unmarshaler.scalar. rewrite Htok.
  unfold reflectValue.Interface_. rewrite Hro, Hh.
  assert (C : Unmarshaler.convert u Integer data attr v
              = if negb (x =? wrap_signed w x)
                then (Failed (UnmarshalTypeError ("integer " ++ string_of_list_byte data)
                    (reflect.typ v) (Unmarshaler.Offset u)), v)
                else (Done, reflect.setVal v (reflect.VInt (wrap_signed w x)))).
  { unfold Unmarshaler.convert.
    destruct (reflect.Kind_ v) eqn:K; try discriminate Hk;
      rewrite I; unfold reflectValue.OverflowInt, reflectValue.SetInt;
      rewrite K, Hm; cbn [reflectValue.intBits]; inversion Hk; subst w;
      destruct (x =? wrap_signed _ x); reflexivity. }
  assert (E : match reflect.Kind_ v with
              | reflect.Pointer => Unmarshaler.throughPointer v (Unmarshaler.convert u Integer data attr)
              | _ => Unmarshaler.convert u Integer data attr v
              end = Unmarshaler.convert u Integer data attr v).
  { destruct (reflect.Kind_ v); try reflexivity; discriminate Hk. }
  etransitivity; [exact E|].
  rewrite C. rewrite wrap_signed_fix by exact Hw.
  destruct ((- 2 ^ (w - 1) <=? x) && (x <? 2 ^ (w - 1))) eqn:R; [|reflexivity].
  simpl. rewrite <- wrap_signed_fix in R by exact Hw. apply Z.eqb_eq in R.
  now rewrite <- R.
Qed.
End ScalarProperties.

Lemma Undefined_scalar_witness :
  Unmarshaler.tok atUndefined = Some (Scalar Undefined [] ∅)
  /\ reflect.readOnly nilStringPointer = false
  /\ Unmarshaler.hooked (Unmarshaler.text atUndefined)
       (reflectValue.dynamic nilStringPointer) = None
  /\ @Unmarshaler.scalar plainLibrary noHooks _ mockTokenReader_TokenReader
       nilStringPointer atUndefined
     = (Done, nilStringPointer).
Proof.
  split; [reflexivity|]. split; [reflexivity|]. split; [reflexivity|].
  exact (@Undefined_scalar plainLibrary noHooks _ mockTokenReader_TokenReader
           nilStringPointer atUndefined [] ∅ eq_refl eq_refl eq_refl).
Defined.

Lemma integer_range_checked_witness :
  reflectValue.intBits (reflect.Kind_ int8Variable) = Some 8
  /\ reflect.CanSet int8Variable = true
  /\ integer (Unmarshaler.dec atInteger300) (list_byte_of_string "300")
     = Ret 300 None
  /\ @Unmarshaler.scalar plainLibrary noHooks _ mockTokenReader_TokenReader
       int8Variable atInteger300
     = (Failed (UnmarshalTypeError "integer 300" (reflect.Basic reflect.Int8)
                  3),
        int8Variable).
Proof.
  split; [reflexivity|]. split; [reflexivity|]. split; [reflexivity|].
  exact (@integer_range_checked plainLibrary noHooks _
           mockTokenReader_TokenReader int8Variable atInteger300
           (list_byte_of_string "300") ∅ 8 300
           eq_refl eq_refl eq_refl eq_refl eq_refl).
Defined.

Lemma storeFrom_length (xs : list reflect.value) : forall i l,
  length (storeFrom i xs l) = length l.
Proof.
  induction xs as [|x xs IH]; intros i l; simpl; [reflexivity|].
  now rewrite IH, length_insert.
Qed.

Lemma storeFrom_lookup (xs : list reflect.value) : forall (i : nat) (l : list reflect.value) (j : nat),
  storeFrom i xs l !! j
  = if ((i <=? j) && (j <? i + length xs) && (j <? length l))%nat
    then xs !! (j - i)%nat else l !! j.
Proof.
  induction xs as [|x xs IH]; intros i l j; simpl.
  - destruct (i <=? j)%nat eqn:A; simpl; [|reflexivity].
    apply Nat.leb_le in A.
    destruct (j <? i + 0)%nat eqn:B; [apply Nat.ltb_lt in B; lia|reflexivity].
  - rewrite IH, length_insert.
    destruct (decide (j = i)) as [->|Hne].
    + replace (S i <=? i)%nat with false by (symmetry; apply Nat.leb_gt; lia).
      simpl. rewrite Nat.leb_refl, Nat.sub_diag.
      replace (i <? i + S (length xs))%nat with true by (symmetry; apply Nat.ltb_lt; lia).
      simpl. destruct (i <? length l)%nat eqn:C.
      * apply Nat.ltb_lt in C. now rewrite list_lookup_insert_eq.
      * apply Nat.ltb_ge in C. now rewrite list_insert_ge.
    + rewrite list_lookup_insert_ne by congruence.
      destruct (decide (i < j)%nat) as [Hlt|Hge].
      * replace (S i <=? j)%nat with true by (symmetry; apply Nat.leb_le; lia).
        replace (i <=? j)%nat with true by (symmetry; apply Nat.leb_le; lia).
        replace (j <? S i + length xs)%nat with (j <? i + S (length xs))%nat
          by (f_equal; lia).
        simpl. replace (j - i)%nat with (S (j - S i)) by lia. reflexivity.
      * replace (S i <=? j)%nat with false by (symmetry; apply Nat.leb_gt; lia).
        replace (i <=? j)%nat with false by (symmetry; apply Nat.leb_gt; lia).
        reflexivity.
Qed.

Lemma storeFrom_0 (xs l : list reflect.value) :
  storeFrom 0 xs l = (take (length l) xs ++ drop (length xs) l)%list.
Proof.
  apply list_eq. intros j. rewrite storeFrom_lookup.
  change (0 <=? j)%nat with true. rewrite Nat.add_0_l, Nat.sub_0_r. cbn [andb].
  destruct (decide (j < length xs /\ j < length l)%nat) as [[A B]|N].
  - replace (j <? length xs)%nat with true by (symmetry; apply Nat.ltb_lt; lia).
    replace (j <? length l)%nat with true by (symmetry; apply Nat.ltb_lt; lia).
    cbn [andb].
    rewrite lookup_app_l by (rewrite length_take; lia).
    rewrite lookup_take_lt by lia. reflexivity.
  - replace ((j <? length xs)%nat && (j <? length l)%nat) with false.
    2:{ symmetry. apply andb_false_iff.
        destruct (decide (j < length xs)%nat); [right|left]; apply Nat.ltb_ge; lia. }
    rewrite lookup_app_r by (rewrite length_take; lia).
    rewrite length_take, lookup_drop.
    destruct (decide (length xs <= length l)%nat).
    + f_equal. lia.
    + rewrite !lookup_ge_None_2; [reflexivity|lia|lia].
Qed.

Lemma grown_length e i backing n :
  (i <= n <= length backing)%nat ->
  (i < length (grown e i backing n))%nat /\ (extended i n <= length (grown e i backing n))%nat.
Proof.
  intros [A B]. unfold grown, extended.
  destruct (length backing <=? i)%nat eqn:C.
  - apply Nat.leb_le in C. assert (i = n) by lia. assert (n = length backing) by lia.
    rewrite length_app, length_take, length_replicate.
    pose proof (Nat.le_max_l 4 (length backing + length backing / 2)).
    pose proof (Nat.le_max_r 4 (length backing + length backing / 2)).
    assert (Q : (i < Nat.max 4 (length backing + length backing / 2))%nat).
    { destruct (decide (length backing < 4)%nat); [lia|].
      assert (2 <= length backing / 2)%nat.
      { apply (Nat.div_le_lower_bound (length backing) 2 2); lia. }
      lia. }
    replace (n <=? i)%nat with true by (symmetry; apply Nat.leb_le; lia). lia.
  - apply Nat.leb_gt in C. destruct (n <=? i)%nat eqn:D; [apply Nat.leb_le in D|]; lia.
Qed.

Lemma grown_take e i backing n :
  (i <= n <= length backing)%nat ->
  take i (grown e i backing n) = take i backing.
Proof.
  intros [A B]. unfold grown. destruct (length backing <=? i)%nat; [|reflexivity].
  rewrite take_app_le by (rewrite length_take; lia).
  rewrite take_take. f_equal. lia.
Qed.

Lemma grown_rest e i x backing n k :
  (i <= n <= length backing)%nat ->
  drop (S i + k) (take (extended i n) (<[i:=x]> (grown e i backing n)))
  = drop (i + S k) (take n backing).
Proof.
  intros [A B]. unfold extended.
  destruct (n <=? i)%nat eqn:D.
  - apply Nat.leb_le in D. rewrite !drop_ge; [reflexivity| |];
      rewrite length_take; lia.
  - apply Nat.leb_gt in D. unfold grown.
    replace (length backing <=? i)%nat with false by (symmetry; apply Nat.leb_gt; lia).
    rewrite take_insert_lt by lia. rewrite drop_insert_lt by lia. f_equal. lia.
Qed.

Section OverMock.

Context `{GoLibrary} `{UserHooks}.

Lemma token_mock d t dc tk toks off tk0 :
  Unmarshaler.token (onMock d t dc (inl tk :: toks) off tk0)
  = ((Some tk, None), onMock d t dc toks (off + 1) (Some tk)).
Proof. reflexivity. Qed.

Lemma next_mock d t dc tk toks off tk0 :
  Unmarshaler.next (onMock d t dc (inl tk :: toks) off tk0)
  = (None, onMock d t dc toks (off + 1) (Some tk)).
Proof. reflexivity. Qed.

Lemma structLoop_unknown rec (fields : gmap string fieldInfo) (v : reflect.Value)
  (pairs : list (string * Token)) :
  Forall (fun p => fields !! fst p = None) pairs ->
  forall t dc rest off tk0 fuel,
    (length pairs < fuel)%nat ->
    Unmarshaler.structLoop rec fuel fields v
      (onMock false t dc (keyed pairs ++ inl MapEnd :: rest) off tk0)
    = (Done, v,
       onMock false t dc rest (off + 2 * Z.of_nat (length pairs) + 1) (Some MapEnd)).
Proof.
  induction 1 as [|[k tk] pairs Hk Hp IH]; intros t dc rest off tk0 fuel Hf.
  - destruct fuel as [|fuel]; [simpl in Hf; lia|].
    cbn [keyed flat_map app Unmarshaler.structLoop].
    rewrite token_mock. cbv iota beta. simpl length. 
    replace (off + 2 * Z.of_nat 0 + 1) with (off + 1) by lia. reflexivity.
  - destruct fuel as [|fuel]; [simpl in Hf; lia|].
    change (keyed ((k, tk) :: pairs) ++ inl MapEnd :: rest)%list
      with (inl (Key k) :: inl tk :: (keyed pairs ++ inl MapEnd :: rest))%list.
    cbn [Unmarshaler.structLoop]. rewrite token_mock. cbv iota beta.
    simpl in Hk. rewrite Hk.
    change (Unmarshaler.DisallowUnknownFields (onMock false t dc _ _ _)) with false.
    cbv iota. rewrite next_mock. cbv iota beta.
    rewrite IH by (simpl in Hf; lia).
    f_equal. f_equal. simpl length. lia.
Qed.

Lemma Unmarshal_record (fs : list reflect.StructField) (x : reflect.value)
  d t dc toks off tk0 fuel :
  Unmarshaler.Unmarshal (S (S fuel)) (pointerTo (reflect.StructOf fs) x)
    (onMock d t dc (inl MapStart :: toks) off tk0)
  = let '(st, e', u') :=
      Unmarshaler.structLoop (Unmarshaler.value (S fuel)) (S fuel)
        (cachedFieldsForType (reflect.StructOf fs))
        (reflect.mkValue (reflect.StructOf fs) x true false)
        (onMock d t dc toks (off + 1) (Some MapStart)) in
    (st, pointerTo (reflect.StructOf fs) (reflect.val e'), u').
Proof.
  unfold Unmarshaler.Unmarshal.
  change (reflect.Kind_ (pointerTo (reflect.StructOf fs) x)) with reflect.Pointer.
  cbv iota. rewrite next_mock. cbv iota beta.
  cbn [Unmarshaler.value].
  change (Unmarshaler.tok (onMock d t dc toks (off + 1) (Some MapStart)))
    with (Some MapStart).
  cbv iota. unfold Unmarshaler.object, Unmarshaler.atElem.
  change (reflect.Kind_ (pointerTo (reflect.StructOf fs) x)) with reflect.Pointer.
  cbv iota.
  change (reflect.val (pointerTo (reflect.StructOf fs) x))
    with (reflect.VPointer (Some x)).
  change (reflectValue.elemType (reflect.typ (pointerTo (reflect.StructOf fs) x)))
    with (Some (reflect.StructOf fs)).
  cbv iota beta.
  change (reflect.val (pointerTo (reflect.StructOf fs) x))
    with (reflect.VPointer (Some x)).
  cbv iota.
  change (reflect.readOnly (pointerTo (reflect.StructOf fs) x)) with false.
  change (reflect.Kind_ (reflect.mkValue (reflect.StructOf fs) x true false))
    with reflect.Struct.
  cbv iota.
  change (reflect.typ (reflect.mkValue (reflect.StructOf fs) x true false))
    with (reflect.StructOf fs).
  destruct (Unmarshaler.structLoop _ _ _ _ _) as [[st e'] u']. reflexivity.
Qed.

(** X16.  With [DisallowUnknownFields] off, a record document whose keys
    are all unknown to the destination struct is decoded without error and
    leaves the struct as it was: after each unknown key exactly one token is
    read and dropped, whatever that token is. *)
Theorem unknown_keys_discarded (fs : list reflect.StructField) (xs : list reflect.value)
  (pairs : list (string * Token)) (rest : list (Token + error))
  (t : bool) (dc : scalarDecoder) (off : Z) (tk0 : option Token) (fuel : nat) :
  Forall (fun p => cachedFieldsForType (reflect.StructOf fs) !! fst p = None) pairs ->
  Unmarshaler.Unmarshal (2 + length pairs + fuel)
    (pointerTo (reflect.StructOf fs) (reflect.VStruct xs))
    (onMock false t dc (inl MapStart :: keyed pairs ++ inl MapEnd :: rest) off tk0)
  = (Done, pointerTo (reflect.StructOf fs) (reflect.VStruct xs),
     onMock false t dc rest (off + 2 * Z.of_nat (length pairs) + 2) (Some MapEnd)).
Proof.
  intros Hu.
  change (2 + length pairs + fuel)%nat with (S (S (length pairs + fuel))).
  rewrite Unmarshal_record.
  rewrite (structLoop_unknown _ _ _ _ Hu) by lia.
  f_equal. f_equal. lia.
Qed.

(** X17.  With [DisallowUnknownFields] on, the first key that the
    destination struct does not know ends the decoding with the error
    [LLSD: Unknown field] and the quoted key; the token after the key is not
    read and the struct is as it was. *)
Theorem unknown_key_disallowed (fs : list reflect.StructField) (xs : list reflect.value)
  (k : string) (rest : list (Token + error))
  (t : bool) (dc : scalarDecoder) (off : Z) (tk0 : option Token) (fuel : nat) :
  cachedFieldsForType (reflect.StructOf fs) !! k = None ->
  Unmarshaler.Unmarshal (2 + fuel)
    (pointerTo (reflect.StructOf fs) (reflect.VStruct xs))
    (onMock true t dc (inl MapStart :: inl (Key k) :: rest) off tk0)
  = (Failed (errorString ("LLSD: Unknown field " ++ strconv_Quote k)),
     pointerTo (reflect.StructOf fs) (reflect.VStruct xs),
     onMock true t dc rest (off + 1 + 1) (Some (Key k))).
Proof.
  intros Hk. change (2 + fuel)%nat with (S (S fuel)).
  rewrite Unmarshal_record. cbn [Unmarshaler.structLoop].
  rewrite token_mock. cbv iota beta. rewrite Hk. reflexivity.
Qed.

Lemma Field_known (fs : list reflect.StructField) (xs : list reflect.value) (info : fieldInfo) :
  fs !! Index info = Some (StructField_ info) ->
  reflectValue.Field (reflect.mkValue (reflect.StructOf fs) (reflect.VStruct xs) true false)
    (Index info)
  = reflectValue.Ok
      (reflect.mkValue (reflect.sfType (StructField_ info))
         (default reflect.VOpaque (xs !! Index info)) true
         (negb (String.eqb (reflect.sfPkgPath (StructField_ info)) EmptyString))).
Proof.
  intros Hf. unfold reflectValue.Field. simpl. now rewrite Hf.
Qed.

(** X18.  A string scalar under a key of the field table, for an exported
    field of type [string]: the field at the index of that entry holds the
    payload afterwards, the other fields are untouched, and the decoding of
    the record ends successfully at its [MapEnd]. *)
Theorem string_field_decoded (fs : list reflect.StructField) (xs : list reflect.value)
  (k : string) (info : fieldInfo) (data : list byte) (attr : gmap string string)
  (rest : list (Token + error)) (d t : bool) (dc : scalarDecoder) (off : Z)
  (tk0 : option Token) (fuel : nat) :
  cachedFieldsForType (reflect.StructOf fs) !! k = Some info ->
  reflect.sfType (StructField_ info) = stringT ->
  reflect.sfPkgPath (StructField_ info) = EmptyString ->
  Unmarshaler.Unmarshal (3 + fuel)
    (pointerTo (reflect.StructOf fs) (reflect.VStruct xs))
    (onMock d t dc (inl MapStart :: inl (Key k) :: inl (Scalar String data attr)
                    :: inl MapEnd :: rest) off tk0)
  = (Done,
     pointerTo (reflect.StructOf fs)
       (reflect.VStruct (<[Index info := reflect.VString (string_of_list_byte data)]> xs)),
     onMock d t dc rest (off + 1 + 1 + 1 + 1) (Some MapEnd)).
Proof.
  intros Hk Hty Hpkg.
  destruct (cachedFields_invariant _ _ _ Hk) as [Hf _].
  change (3 + fuel)%nat with (S (S (S fuel))).
  rewrite Unmarshal_record. cbn [Unmarshaler.structLoop].
  rewrite token_mock. cbv iota beta. rewrite Hk. rewrite next_mock. cbv iota beta.
  rewrite (Field_known _ _ _ Hf). rewrite Hty, Hpkg. cbv iota beta.
  cbn [Unmarshaler.value].
  change (Unmarshaler.tok (onMock d t dc (inl MapEnd :: rest) (off + 1 + 1 + 1)
                             (Some (Scalar String data attr))))
    with (Some (Scalar String data attr)).
  cbv iota.
  set (x := default reflect.VOpaque (xs !! Index info)).
  assert (Sc : Unmarshaler.scalar
                 (reflect.mkValue stringT x true (negb (String.eqb EmptyString EmptyString)))
                 (onMock d t dc (inl MapEnd :: rest) (off + 1 + 1 + 1)
                    (Some (Scalar String data attr)))
               = (Done, reflect.mkValue stringT (reflect.VString (string_of_list_byte data))
                          true false)).
  { unfold Unmarshaler.scalar. simpl. destruct t; reflexivity. }
  rewrite Sc. cbv iota beta. rewrite token_mock. reflexivity.
Qed.

Lemma putField_same (fs : list reflect.StructField) (xs : list reflect.value) (i : nat) :
  reflectValue.putField
    (reflect.mkValue (reflect.StructOf fs) (reflect.VStruct xs) true false) i
    (default reflect.VOpaque (xs !! i))
  = reflect.mkValue (reflect.StructOf fs) (reflect.VStruct xs) true false.
Proof.
  unfold reflectValue.putField, reflect.setVal. simpl. f_equal. f_equal.
  destruct (xs !! i) eqn:E; simpl.
  - now apply list_insert_id.
  - apply list_insert_ge. now apply lookup_ge_None.
Qed.

(** X19.  A known key must be followed by a value: when the token after it
    does not start one (a key, the end of a map or of an array, a document
    token), the decoding fails with [InvalidLLSDError] [unexpected] and the
    name of that token, at the offset behind it, and the struct is as it
    was. *)
Theorem key_without_value (fs : list reflect.StructField) (xs : list reflect.value)
  (k : string) (info : fieldInfo) (tk : Token)
  (rest : list (Token + error)) (d t : bool) (dc : scalarDecoder) (off : Z)
  (tk0 : option Token) (fuel : nat) :
  cachedFieldsForType (reflect.StructOf fs) !! k = Some info ->
  opensValue tk = false ->
  Unmarshaler.Unmarshal (3 + fuel)
    (pointerTo (reflect.StructOf fs) (reflect.VStruct xs))
    (onMock d t dc (inl MapStart :: inl (Key k) :: inl tk :: rest) off tk0)
  = (Failed (InvalidLLSDError ("unexpected " ++ Token_typeName tk) (off + 1 + 1 + 1)),
     pointerTo (reflect.StructOf fs) (reflect.VStruct xs),
     onMock d t dc rest (off + 1 + 1 + 1) (Some tk)).
Proof.
  intros Hk Htk.
  destruct (cachedFields_invariant _ _ _ Hk) as [Hf _].
  change (3 + fuel)%nat with (S (S (S fuel))).
  rewrite Unmarshal_record. cbn [Unmarshaler.structLoop].
  rewrite token_mock. cbv iota beta. rewrite Hk. rewrite next_mock. cbv iota beta.
  rewrite (Field_known _ _ _ Hf). cbv iota beta.
  cbn [Unmarshaler.value].
  change (Unmarshaler.tok (onMock d t dc rest (off + 1 + 1 + 1) (Some tk)))
    with (Some tk).
  destruct tk; try discriminate Htk; cbv iota beta;
    cbn [default reflect.val]; rewrite putField_same; reflexivity.
Qed.

Lemma scalar_string (x : reflect.value) d t dc toks off data attr :
  Unmarshaler.scalar (reflect.mkValue stringT x true false)
    (onMock d t dc toks off (Some (Scalar String data attr)))
  = (Done, reflect.mkValue stringT (reflect.VString (string_of_list_byte data)) true false).
Proof. unfold Unmarshaler.scalar. simpl. destruct t; reflexivity. Qed.

Lemma value_string (f0 : nat) (x : reflect.value) d t dc toks off data attr :
  Unmarshaler.value (S f0) (Some (reflect.mkValue stringT x true false))
    (onMock d t dc toks off (Some (Scalar String data attr)))
  = (Done,
     Some (reflect.mkValue stringT (reflect.VString (string_of_list_byte data)) true false),
     onMock d t dc toks off (Some (Scalar String data attr))).
Proof.
  cbn [Unmarshaler.value].
  change (Unmarshaler.tok (onMock d t dc toks off (Some (Scalar String data attr))))
    with (Some (Scalar String data attr)).
  cbv iota. now rewrite scalar_string.
Qed.

Lemma value_skipped (f0 : nat) d t dc toks off ty data attr :
  Unmarshaler.value (S f0) None (onMock d t dc toks off (Some (Scalar ty data attr)))
  = (Done, None, onMock d t dc toks off (Some (Scalar ty data attr))).
Proof. reflexivity. Qed.

Lemma arrayLoop_strings (n : nat) attr d t dc rest f0 (ds : list (list byte)) :
  forall (i : nat) (l : list reflect.value) off tk0 fuel,
    (length ds < fuel)%nat ->
    Unmarshaler.arrayLoop (Unmarshaler.value (S f0)) fuel i
      (reflect.mkValue (reflect.ArrayOf n stringT) (reflect.VArray l) true false)
      (onMock d t dc (stringScalars attr ds ++ inl ArrayEnd :: rest) off tk0)
    = (Done,
       reflect.mkValue (reflect.ArrayOf n stringT)
         (reflect.VArray (storeFrom i (stringValues ds) l)) true false,
       onMock d t dc rest (off + Z.of_nat (length ds) + 1) (Some ArrayEnd)).
Proof.
  set (rec := Unmarshaler.value (S f0)).
  induction ds as [|dt ds IH]; intros i l off tk0 fuel Hf.
  - destruct fuel as [|fuel]; [simpl in Hf; lia|].
    cbn [stringScalars map app Unmarshaler.arrayLoop].
    rewrite token_mock. cbv iota beta. cbn [length storeFrom stringValues map].
    replace (off + Z.of_nat 0 + 1) with (off + 1) by lia. reflexivity.
  - destruct fuel as [|fuel]; [simpl in Hf; lia|].
    cbn [stringScalars map app Unmarshaler.arrayLoop].
    rewrite token_mock. cbv iota beta.
    change (reflect.Kind_ (reflect.mkValue (reflect.ArrayOf n stringT) (reflect.VArray l) true false))
      with reflect.Array.
    cbv iota.
    change (reflectValue.Len (reflect.mkValue (reflect.ArrayOf n stringT) (reflect.VArray l) true false))
      with (reflectValue.Ok (length l)).
    cbv iota.
    fold (stringScalars attr ds).
    destruct (i <? length l)%nat eqn:Hi.
    + apply Nat.ltb_lt in Hi.
      destruct (lookup_lt_is_Some_2 l i Hi) as [x Hx].
      unfold reflectValue.Index_. cbn [reflect.val reflect.typ]. 
      change (reflectValue.elemType (reflect.ArrayOf n stringT)) with (Some stringT).
      rewrite Hx. cbv iota beta. cbn [reflect.addressable reflect.readOnly].
      unfold rec at 1. rewrite value_string. cbv iota beta.
      cbn [default from_option id reflect.val reflectValue.putIndex reflect.setVal reflect.typ
           reflect.addressable reflect.readOnly].
      unfold reflect.setVal. cbn [reflect.typ reflect.addressable reflect.readOnly].
      rewrite IH by (simpl in Hf; lia).
      cbn [stringValues map storeFrom length]. fold (stringValues ds).
      f_equal. f_equal. lia.
    + apply Nat.ltb_ge in Hi.
      unfold rec at 1. rewrite value_skipped. cbv iota beta.
      rewrite IH by (simpl in Hf; lia).
      cbn [stringValues map storeFrom length]. fold (stringValues ds).
      rewrite (list_insert_ge l i) by lia.
      f_equal. f_equal. lia.
Qed.

Lemma Unmarshal_array (T : rtype) (x : reflect.value) d t dc toks off tk0 fuel :
  reflect.kindOf T = reflect.Array \/ reflect.kindOf T = reflect.Slice ->
  Unmarshaler.Unmarshal (S (S fuel)) (pointerTo T x)
    (onMock d t dc (inl ArrayStart :: toks) off tk0)
  = let '(st, e', u') :=
      Unmarshaler.arrayLoop (Unmarshaler.value (S fuel)) (S fuel) O
        (reflect.mkValue T x true false)
        (onMock d t dc toks (off + 1) (Some ArrayStart)) in
    (st, pointerTo T (reflect.val e'), u').
Proof.
  intros HT.
  unfold Unmarshaler.Unmarshal.
  change (reflect.Kind_ (pointerTo T x)) with reflect.Pointer.
  cbv iota. rewrite next_mock. cbv iota beta.
  set (rec := Unmarshaler.value (S fuel)).
  cbn [Unmarshaler.value]. 
  change (Unmarshaler.tok (onMock d t dc toks (off + 1) (Some ArrayStart)))
    with (Some ArrayStart).
  cbv iota. unfold Unmarshaler.array, Unmarshaler.atElem.
  change (reflect.Kind_ (pointerTo T x)) with reflect.Pointer.
  cbv iota.
  change (reflect.val (pointerTo T x)) with (reflect.VPointer (Some x)).
  change (reflectValue.elemType (reflect.typ (pointerTo T x))) with (Some T).
  cbv iota beta.
  change (reflect.val (pointerTo T x)) with (reflect.VPointer (Some x)).
  cbv iota.
  change (reflect.readOnly (pointerTo T x)) with false.
  change (reflect.Kind_ (reflect.mkValue T x true false)) with (reflect.kindOf T).
  fold rec.
  destruct HT as [HT|HT]; rewrite HT; cbv iota;
  destruct (Unmarshaler.arrayLoop _ _ _ _ _) as [[st e'] u']; reflexivity.
Qed.

(** X20.  A run of string scalars between [ArrayStart] and [ArrayEnd],
    decoded into a fixed array of strings: the elements of the array are
    overwritten from the front by as many payloads as the array has room
    for, the surplus payloads are read and dropped, the elements behind a
    shorter run keep their values, and the decoding succeeds with the whole
    run consumed. *)
Theorem fixed_array_of_strings (n : nat) (l : list reflect.value) (ds : list (list byte))
  (attr : gmap string string) (rest : list (Token + error)) (d t : bool)
  (dc : scalarDecoder) (off : Z) (tk0 : option Token) (fuel : nat) :
  Unmarshaler.Unmarshal (2 + length ds + fuel)
    (pointerTo (reflect.ArrayOf n stringT) (reflect.VArray l))
    (onMock d t dc (inl ArrayStart :: stringScalars attr ds ++ inl ArrayEnd :: rest) off tk0)
  = (Done,
     pointerTo (reflect.ArrayOf n stringT)
       (reflect.VArray (take (length l) (stringValues ds) ++ drop (length ds) l)%list),
     onMock d t dc rest (off + Z.of_nat (length ds) + 2) (Some ArrayEnd)).
Proof.
  change (2 + length ds + fuel)%nat with (S (S (length ds + fuel))).
  rewrite Unmarshal_array by (left; reflexivity).
  rewrite arrayLoop_strings by lia.
  rewrite storeFrom_0. unfold stringValues at 2. rewrite length_map.
  cbn [reflect.val]. f_equal. f_equal. lia.
Qed.

Lemma slice_prepared (i : nat) (backing : list reflect.value) (n : nat) :
  (i <= n <= length backing)%nat ->
  let v := reflect.mkValue (reflect.SliceOf stringT) (reflect.VSlice backing n) true false in
  match (if (reflectValue.Cap v <=? i)%nat then reflectValue.grow v else reflectValue.Ok v) with
  | reflectValue.Panic m => reflectValue.Panic m
  | reflectValue.Ok v1 =>
      match reflectValue.Len v1 with
      | reflectValue.Panic m => reflectValue.Panic m
      | reflectValue.Ok n =>
          if (n <=? i)%nat then reflectValue.SetLen v1 (S i) else reflectValue.Ok v1
      end
  end
  = reflectValue.Ok
      (reflect.mkValue (reflect.SliceOf stringT)
         (reflect.VSlice (grown stringT i backing n) (extended i n)) true false).
Proof.
  intros Hi v.
  destruct (grown_length stringT i backing n Hi) as [G1 G2].
  unfold grown, extended in *. subst v.
  change (reflectValue.Cap _) with (length backing).
  destruct (length backing <=? i)%nat eqn:C.
  - change (reflectValue.grow _)
      with (reflectValue.Ok
              (reflect.mkValue (reflect.SliceOf stringT)
                 (reflect.VSlice
                    (take n backing
                     ++ replicate (Nat.max 4 (length backing + length backing / 2) - n)
                          (reflect.zero stringT))%list n) true false)).
    cbv iota. change (reflectValue.Len _) with (@reflectValue.Ok nat n). cbv iota.
    destruct (n <=? i)%nat eqn:D; [|reflexivity].
    unfold reflectValue.SetLen. cbn [reflectValue.mustBeAssignable reflect.readOnly reflect.addressable negb reflect.val].
    cbv iota.
    replace (length _ <? S i)%nat with false by (symmetry; apply Nat.ltb_ge; lia).
    reflexivity.
  - cbv iota. change (reflectValue.Len _) with (@reflectValue.Ok nat n). cbv iota.
    destruct (n <=? i)%nat eqn:D; [|reflexivity].
    unfold reflectValue.SetLen. cbn [reflectValue.mustBeAssignable reflect.readOnly reflect.addressable negb reflect.val].
    cbv iota.
    replace (length _ <? S i)%nat with false by (symmetry; apply Nat.ltb_ge; lia).
    reflexivity.
Qed.


Lemma sliceLoop_strings attr d t dc rest f0 (ds : list (list byte)) :
  forall (i : nat) (backing : list reflect.value) (n : nat) off tk0 fuel,
    (length ds < fuel)%nat ->
    (i <= n <= length backing)%nat ->
    exists backing' n',
      Unmarshaler.arrayLoop (Unmarshaler.value (S f0)) fuel i
        (reflect.mkValue (reflect.SliceOf stringT) (reflect.VSlice backing n) true false)
        (onMock d t dc (stringScalars attr ds ++ inl ArrayEnd :: rest) off tk0)
      = (Done,
         reflect.mkValue (reflect.SliceOf stringT) (reflect.VSlice backing' n') true false,
         onMock d t dc rest (off + Z.of_nat (length ds) + 1) (Some ArrayEnd))
      /\ (n' <= length backing')%nat
      /\ take n' backing'
         = (take i backing ++ stringValues ds
            ++ drop (i + length ds) (take n backing))%list.
Proof.
  set (rec := Unmarshaler.value (S f0)).
  induction ds as [|dt ds IH]; intros i backing n off tk0 fuel Hf Hi.
  - destruct fuel as [|fuel]; [simpl in Hf; lia|].
    exists backing, n.
    cbn [stringScalars map app Unmarshaler.arrayLoop].
    rewrite token_mock. cbv iota beta. cbn [length stringValues map app].
    replace (off + Z.of_nat 0 + 1) with (off + 1) by lia.
    split; [reflexivity|]. split; [lia|].
    rewrite Nat.add_0_r.
    rewrite <- (take_drop i (take n backing)) at 1.
    rewrite take_take. f_equal. f_equal. lia.
  - destruct fuel as [|fuel]; [simpl in Hf; lia|].
    destruct (grown_length stringT i backing n Hi) as [G1 G2].
    destruct (lookup_lt_is_Some_2 _ i G1) as [x Hx].
    destruct (IH (S i) (<[i := reflect.VString (string_of_list_byte dt)]> (grown stringT i backing n))
                (extended i n) (off + 1) (Some (Scalar String dt attr)) fuel)
      as (b' & n' & E & L & T).
    { simpl in Hf. lia. }
    { rewrite length_insert. split; [|exact G2].
      unfold extended. destruct (n <=? i)%nat eqn:D; [|apply Nat.leb_gt in D]; lia. }
    exists b', n'.
    split; [|split; [exact L|]].
    + cbn [stringScalars map app Unmarshaler.arrayLoop].
      rewrite token_mock. cbv iota beta.
      change (reflect.Kind_ (reflect.mkValue (reflect.SliceOf stringT) (reflect.VSlice backing n) true false))
        with reflect.Slice.
      cbv iota.
      rewrite (slice_prepared i backing n Hi). cbv iota.
      change (reflectValue.Len (reflect.mkValue (reflect.SliceOf stringT)
                (reflect.VSlice (grown stringT i backing n) (extended i n)) true false))
        with (reflectValue.Ok (extended i n)).
      cbv iota.
      replace (i <? extended i n)%nat with true.
      2:{ symmetry. apply Nat.ltb_lt. unfold extended.
          destruct (n <=? i)%nat eqn:D; [|apply Nat.leb_gt in D]; lia. }
      unfold reflectValue.Index_. cbn [reflect.val reflect.typ].
      change (reflectValue.elemType (reflect.SliceOf stringT)) with (Some stringT).
      rewrite Hx. cbv iota beta. cbn [reflect.addressable reflect.readOnly].
      fold (stringScalars attr ds).
      unfold rec at 1. rewrite value_string. cbv iota beta.
      cbn [default from_option id reflect.val reflectValue.putIndex].
      unfold reflect.setVal. cbn [reflect.typ reflect.addressable reflect.readOnly].
      fold rec. rewrite E. f_equal. f_equal. cbn [length]. lia.
    + rewrite T. cbn [stringValues map length]. fold (stringValues ds).
      rewrite (take_S_r _ i (reflect.VString (string_of_list_byte dt)))
        by (apply list_lookup_insert_eq; exact G1).
      rewrite take_insert_ge by lia. rewrite grown_take by exact Hi.
      rewrite grown_rest by exact Hi.
      rewrite <- app_assoc. reflexivity.
Qed.

(** X21.  The same run decoded into a slice of strings of length [n]: the
    decoding succeeds, and the slice then holds the payloads in order,
    followed by the old elements from index [length ds] on.  A slice that
    was longer than the run is not cut to the length of the run, and a
    shorter one is grown. *)
Theorem slice_of_strings (backing : list reflect.value) (n : nat)
  (ds : list (list byte)) (attr : gmap string string)
  (rest : list (Token + error)) (d t : bool) (dc : scalarDecoder) (off : Z)
  (tk0 : option Token) (fuel : nat) :
  (n <= length backing)%nat ->
  exists backing' n',
    Unmarshaler.Unmarshal (2 + length ds + fuel)
      (pointerTo (reflect.SliceOf stringT) (reflect.VSlice backing n))
      (onMock d t dc
         (inl ArrayStart :: stringScalars attr ds ++ inl ArrayEnd :: rest)
         off tk0)
    = (Done,
       pointerTo (reflect.SliceOf stringT) (reflect.VSlice backing' n'),
       onMock d t dc rest (off + Z.of_nat (length ds) + 2) (Some ArrayEnd))
    /\ (n' <= length backing')%nat
    /\ take n' backing'
       = (stringValues ds ++ drop (length ds) (take n backing))%list.
Proof.
  intros Hn.
  destruct (sliceLoop_strings attr d t dc rest (length ds + fuel) ds O backing
              n (off + 1) (Some ArrayStart) (S (length ds + fuel)))
    as (b' & n' & E & L & T); [lia|lia|].
  exists b', n'. split; [|split; [exact L|exact T]].
  change (2 + length ds + fuel)%nat with (S (S (length ds + fuel))).
  rewrite Unmarshal_array by (right; reflexivity).
  rewrite E. cbn [reflect.val]. f_equal. f_equal. lia.
Qed.

End OverMock.

Lemma unknown_keys_discarded_witness :
  Forall (fun p => cachedFieldsForType (reflect.StructOf [fieldA]) !! fst p
                   = None) unknownPairs
  /\ @Unmarshaler.Unmarshal plainLibrary noHooks _ mockTokenReader_TokenReader
       (2 + length unknownPairs + 0) recordOld
       (onMock false true (@textDecoder plainLibrary)
          (inl MapStart :: keyed unknownPairs ++ [inl MapEnd]) 0 None)
     = (Done, recordOld,
        onMock false true (@textDecoder plainLibrary) []
          (0 + 2 * Z.of_nat (length unknownPairs) + 2) (Some MapEnd)).
Proof.
  assert (Hu : Forall (fun p => cachedFieldsForType (reflect.StructOf [fieldA])
                                  !! fst p = None) unknownPairs).
  { repeat constructor; vm_compute; reflexivity. }
  split; [exact Hu|].
  exact (@unknown_keys_discarded plainLibrary noHooks [fieldA]
           [reflect.VString "old"] unknownPairs [] true
           (@textDecoder plainLibrary) 0 None 0%nat Hu).
Defined.

Lemma unknown_key_disallowed_witness :
  cachedFieldsForType (reflect.StructOf [fieldA]) !! "x" = None
  /\ @Unmarshaler.Unmarshal plainLibrary noHooks _ mockTokenReader_TokenReader
       (2 + 0) recordOld
       (onMock true true (@textDecoder plainLibrary)
          (inl MapStart :: inl (Key "x") :: [inl (stringScalar "v")]) 0 None)
     = (Failed (errorString ("LLSD: Unknown field " ++ dquote ++ "x" ++ dquote)),
        recordOld,
        onMock true true (@textDecoder plainLibrary) [inl (stringScalar "v")]
          (0 + 1 + 1) (Some (Key "x"))).
Proof.
  assert (Hk : cachedFieldsForType (reflect.StructOf [fieldA]) !! "x" = None)
    by (vm_compute; reflexivity).
  split; [exact Hk|].
  exact (@unknown_key_disallowed plainLibrary noHooks [fieldA]
           [reflect.VString "old"] "x" [inl (stringScalar "v")] true
           (@textDecoder plainLibrary) 0 None 0%nat Hk).
Defined.

Lemma string_field_decoded_witness :
  cachedFieldsForType (reflect.StructOf [fieldA]) !! "A" = Some infoA
  /\ reflect.sfType (StructField_ infoA) = stringT
  /\ reflect.sfPkgPath (StructField_ infoA) = EmptyString
  /\ @Unmarshaler.Unmarshal plainLibrary noHooks _ mockTokenReader_TokenReader
       (3 + 0) recordOld
       (onMock false true (@textDecoder plainLibrary)
          (inl MapStart :: inl (Key "A")
           :: inl (Scalar String (list_byte_of_string "hi") ∅)
           :: inl MapEnd :: []) 0 None)
     = (Done,
        pointerTo (reflect.StructOf [fieldA])
          (reflect.VStruct
             (<[Index infoA :=
                  reflect.VString
                    (string_of_list_byte (list_byte_of_string "hi"))]>
                [reflect.VString "old"])),
        onMock false true (@textDecoder plainLibrary) [] (0 + 1 + 1 + 1 + 1)
          (Some MapEnd)).
Proof.
  assert (Hk : cachedFieldsForType (reflect.StructOf [fieldA]) !! "A"
               = Some infoA) by (vm_compute; reflexivity).
  split; [exact Hk|]. split; [reflexivity|]. split; [reflexivity|].
  exact (@string_field_decoded plainLibrary noHooks [fieldA]
           [reflect.VString "old"] "A" infoA (list_byte_of_string "hi") ∅ []
           false true (@textDecoder plainLibrary) 0 None 0%nat Hk eq_refl
           eq_refl).
Defined.

Lemma key_without_value_witness :
  cachedFieldsForType (reflect.StructOf [fieldA]) !! "A" = Some infoA
  /\ opensValue MapEnd = false
  /\ @Unmarshaler.Unmarshal plainLibrary noHooks _ mockTokenReader_TokenReader
       (3 + 0) recordOld
       (onMock false true (@textDecoder plainLibrary)
          (inl MapStart :: inl (Key "A") :: inl MapEnd :: []) 0 None)
     = (Failed (InvalidLLSDError ("unexpected " ++ Token_typeName MapEnd)
                  (0 + 1 + 1 + 1)),
        recordOld,
        onMock false true (@textDecoder plainLibrary) [] (0 + 1 + 1 + 1)
          (Some MapEnd)).
Proof.
  assert (Hk : cachedFieldsForType (reflect.StructOf [fieldA]) !! "A"
               = Some infoA) by (vm_compute; reflexivity).
  split; [exact Hk|]. split; [reflexivity|].
  exact (@key_without_value plainLibrary noHooks [fieldA]
           [reflect.VString "old"] "A" infoA MapEnd [] false true
           (@textDecoder plainLibrary) 0 None 0%nat Hk eq_refl).
Defined.

Lemma slice_of_strings_witness :
  (3 <= length threeStrings)%nat
  /\ exists backing' n',
       @Unmarshaler.Unmarshal plainLibrary noHooks _
         mockTokenReader_TokenReader
         (2 + length [list_byte_of_string "x"] + 0)
         (pointerTo (reflect.SliceOf stringT) (reflect.VSlice threeStrings 3))
         (onMock false true (@textDecoder plainLibrary)
            (inl ArrayStart
             :: stringScalars ∅ [list_byte_of_string "x"] ++ [inl ArrayEnd])
            0 None)
       = (Done,
          pointerTo (reflect.SliceOf stringT) (reflect.VSlice backing' n'),
          onMock false true (@textDecoder plainLibrary) []
            (0 + Z.of_nat (length [list_byte_of_string "x"]) + 2)
            (Some ArrayEnd))
       /\ (n' <= length backing')%nat
       /\ take n' backing'
          = (stringValues [list_byte_of_string "x"]
             ++ drop (length [list_byte_of_string "x"])
                  (take 3 threeStrings))%list.
Proof.
  assert (Hn : (3 <= length threeStrings)%nat) by (simpl; lia).
  split; [exact Hn|].
  exact (@slice_of_strings plainLibrary noHooks threeStrings 3
           [list_byte_of_string "x"] ∅ [] false true
           (@textDecoder plainLibrary) 0 None 0%nat Hn).
Defined.

Section InterfaceAndMap.

Context `{GoLibrary} `{UserHooks}.

(** X22.  An array cannot be decoded into a variable of type [any].  The
    variable is first set to an empty [[]any]; when the array has a first
    element, the slice that has to grow for it is the unaddressable copy
    handed to the recursive call, and [reflect.Value.Set] panics.  When the
    array is empty, the loop runs a second time on the interface itself and
    reads the token behind the array: at the end of the input this is
    [io.EOF], which is returned as the error of the decoding. *)
Theorem array_into_interface (d0 : option (rtype * reflect.value))
  (tk : Token) (rest : list (Token + error)) (d t : bool)
  (dc : scalarDecoder) (off : Z) (tk0 : option Token) (fuel : nat) :
  isArrayEnd tk = false ->
  Unmarshaler.Unmarshal (3 + fuel)
    (pointerTo emptyInterface (reflect.VInterface d0))
    (onMock d t dc (inl ArrayStart :: inl tk :: rest) off tk0)
  = (Panicked "reflect: reflect.Value.Set using unaddressable value",
     pointerTo emptyInterface
       (reflect.VInterface
          (Some (Unmarshaler.anySlice, reflect.VSlice [] 0))),
     onMock d t dc rest (off + 1 + 1) (Some tk))
  /\ Unmarshaler.Unmarshal (3 + fuel)
       (pointerTo emptyInterface (reflect.VInterface d0))
       (onMock d t dc [inl ArrayStart; inl ArrayEnd] off tk0)
     = (Failed io_EOF,
        pointerTo emptyInterface
          (reflect.VInterface
             (Some (Unmarshaler.anySlice, reflect.VSlice [] 0))),
        onMock d t dc [] (off + 1 + 1) None).
Proof.
  intros Htk. split.
  - destruct tk; try discriminate Htk; reflexivity.
  - reflexivity.
Qed.

(** X23.  A nil map is not allocated by the decoder: the first entry of a
    map document decoded into a nil [map[string]string] is read and
    converted, and storing it panics with [assignment to entry in nil
    map]. *)
Theorem nil_map_panics (k : string) (data : list byte)
  (attr : gmap string string) (rest : list (Token + error)) (d t : bool)
  (dc : scalarDecoder) (off : Z) (tk0 : option Token) (fuel : nat) :
  Unmarshaler.Unmarshal (3 + fuel)
    (pointerTo (reflect.MapOf stringT stringT) (reflect.VMap None))
    (onMock d t dc
       (inl MapStart :: inl (Key k) :: inl (Scalar String data attr) :: rest)
       off tk0)
  = (Panicked "assignment to entry in nil map",
     pointerTo (reflect.MapOf stringT stringT) (reflect.VMap None),
     onMock d t dc rest (off + 1 + 1 + 1) (Some (Scalar String data attr))).
Proof.
  destruct t; reflexivity.
Qed.

End InterfaceAndMap.

Lemma array_into_interface_witness :
  isArrayEnd (stringScalar "a") = false
  /\ @Unmarshaler.Unmarshal plainLibrary noHooks _ mockTokenReader_TokenReader
       (3 + 0) (pointerTo emptyInterface (reflect.VInterface None))
       (onMock false true (@textDecoder plainLibrary)
          (inl ArrayStart :: inl (stringScalar "a") :: [inl ArrayEnd]) 0 None)
     = (Panicked "reflect: reflect.Value.Set using unaddressable value",
        pointerTo emptyInterface
          (reflect.VInterface
             (Some (Unmarshaler.anySlice, reflect.VSlice [] 0))),
        onMock false true (@textDecoder plainLibrary) [inl ArrayEnd]
          (0 + 1 + 1) (Some (stringScalar "a"))).
Proof.
  split; [reflexivity|].
  exact (proj1 (@array_into_interface plainLibrary noHooks None
                  (stringScalar "a") [inl ArrayEnd] false true
                  (@textDecoder plainLibrary) 0 None 0%nat eq_refl)).
Defined.

(** ** Text forms that the decoder reads back (token.go, xml_encode.go) *)

Lemma hex_Decode_pair (c : byte) (rest : list byte) :
  hex_Decode (hextable (Z.shiftr (u8 c) 4) :: hextable (Z.land (u8 c) 15) :: rest)
  = (let '(d, e) := hex_Decode rest in (c :: d, e))
  /\ hex_Decode (upperByte (hextable (Z.shiftr (u8 c) 4))
                :: upperByte (hextable (Z.land (u8 c) 15)) :: rest)
     = (let '(d, e) := hex_Decode rest in (c :: d, e)).
Proof. destruct c; split; reflexivity. Qed.

Lemma hex_Decode_encoded (b : list byte) :
  hex_Decode (flat_map (fun v => [hextable (Z.shiftr (u8 v) 4);
                                  hextable (Z.land (u8 v) 15)]) b) = (b, None)
  /\ hex_Decode (map upperByte (flat_map (fun v => [hextable (Z.shiftr (u8 v) 4);
                                  hextable (Z.land (u8 v) 15)]) b)) = (b, None).
Proof.
  induction b as [|c b [IH1 IH2]]; [split; reflexivity|].
  change (flat_map ?f (c :: b)) with (f c ++ flat_map f b)%list.
  cbn [app map].
  destruct (hex_Decode_pair c (flat_map (fun v => [hextable (Z.shiftr (u8 v) 4);
                                  hextable (Z.land (u8 v) 15)]) b)) as [P1 _].
  destruct (hex_Decode_pair c (map upperByte (flat_map (fun v => [hextable (Z.shiftr (u8 v) 4);
                                  hextable (Z.land (u8 v) 15)]) b))) as [_ P2].
  rewrite P1, P2, IH1, IH2. split; reflexivity.
Qed.

Lemma encoded_length (b : list byte) :
  length (flat_map (fun v => [hextable (Z.shiftr (u8 v) 4);
                              hextable (Z.land (u8 v) 15)]) b) = (2 * length b)%nat.
Proof. induction b as [|c b IH]; [reflexivity|]. cbn [flat_map app length]. lia. Qed.

Lemma no_hyphen (b : list byte) :
  List.filter (fun c => negb (Byte.eqb c "-"%byte))
    (flat_map (fun v => [hextable (Z.shiftr (u8 v) 4);
                         hextable (Z.land (u8 v) 15)]) b)
  = flat_map (fun v => [hextable (Z.shiftr (u8 v) 4);
                         hextable (Z.land (u8 v) 15)]) b.
Proof.
  induction b as [|c b IH]; [reflexivity|].
  change (flat_map ?f (c :: b)) with (f c ++ flat_map f b)%list.
  rewrite List.filter_app, IH. f_equal. destruct c; reflexivity.
Qed.

(** X24.  The text decoder's [uuid] reads back what [UUID.String] writes:
    for every sixteen bytes [u], [uuid] of the string form of [u] is [u],
    without error. *)
Theorem UUID_String_round_trip (u : list byte) :
  length u = 16%nat ->
  textDecoder.uuid (list_byte_of_string (UUID_String u)) = Ret u None.
Proof.
  intros Hu. unfold textDecoder.uuid, UUID_String, hex_EncodeToString, removeHyphens.
  rewrite !list_byte_of_string_of_list_byte.
  assert (isEmpty (flat_map (fun v => [hextable (Z.shiftr (u8 v) 4);
                         hextable (Z.land (u8 v) 15)]) u) = false) as ->.
  { destruct u; [discriminate|reflexivity]. }
  rewrite no_hyphen.
  rewrite (proj1 (hex_Decode_encoded u)). rewrite Hu. cbn [Nat.ltb Nat.leb].
  rewrite <- Hu. now rewrite firstn_all.
Qed.

Lemma UUID_String_round_trip_witness :
  length uuidBytes = 16%nat
  /\ textDecoder.uuid (list_byte_of_string (UUID_String uuidBytes))
     = Ret uuidBytes None.
Proof.
  split; [reflexivity|]. apply (UUID_String_round_trip uuidBytes). reflexivity.
Defined.

Lemma ToUpper_encoded (b : list byte) :
  list_byte_of_string (strings_ToUpper (hex_EncodeToString b))
  = map upperByte (flat_map (fun v => [hextable (Z.shiftr (u8 v) 4);
                                   hextable (Z.land (u8 v) 15)]) b).
Proof.
  unfold strings_ToUpper, hex_EncodeToString.
  now rewrite !list_byte_of_string_of_list_byte.
Qed.

Lemma binary_base16 `{GoLibrary} (b : list byte) (enc : string) :
  enc = Base16 \/ enc = EmptyString ->
  textDecoder.binary
    (list_byte_of_string (strings_ToUpper (hex_EncodeToString b))) enc
  = Ret b None
  /\ textDecoder.binary (list_byte_of_string (hex_EncodeToString b)) enc
     = Ret b None.
Proof.
  intros He.
  assert (Hm : String.eqb enc Base16 || String.eqb enc EmptyString = true).
  { destruct He as [E|E]; rewrite E; reflexivity. }
  rewrite ToUpper_encoded. unfold hex_EncodeToString.
  rewrite list_byte_of_string_of_list_byte.
  unfold textDecoder.binary. rewrite Hm.
  destruct b as [|c b]; [split; reflexivity|].
  set (l := c :: b).
  assert (E1 : isEmpty (map upperByte (flat_map (fun v => [hextable (Z.shiftr (u8 v) 4);
                                   hextable (Z.land (u8 v) 15)]) l)) = false) by reflexivity.
  assert (E2 : isEmpty (flat_map (fun v => [hextable (Z.shiftr (u8 v) 4);
                                   hextable (Z.land (u8 v) 15)]) l) = false) by reflexivity.
  rewrite E1, E2.
  destruct (hex_Decode_encoded l) as [D1 D2]. rewrite D1, D2.
  rewrite length_map, encoded_length.
  replace (2 * length l / 2 - length l)%nat with O.
  2:{ rewrite Nat.mul_comm, Nat.div_mul by lia. lia. }
  simpl. now rewrite app_nil_r.
Qed.

Section RoundTrip.

Context `{GoLibrary} `{UserHooks} `{MapOrder}.

(** X25.  Base16 is a round trip.  For every byte sequence [b] the encoder
    writes the uppercase hexadecimal form of [b]; the text decoder's
    [binary] reads that form back as [b]; and a binary scalar with that
    payload and no encoding attribute, decoded in text mode into a settable
    [[]byte], leaves it holding exactly [b]. *)
Theorem base16_round_trip (b : list byte) (x : reflect.value) (c : XMLEncoder.t)
  (d : bool) (toks : list (Token + error)) (off : Z) :
  let hex := strings_ToUpper (hex_EncodeToString b) in
  XMLEncoder.writeBytes b Base16 c = (None, XMLEncoder.writeString hex c)
  /\ textDecoder.binary (list_byte_of_string hex) Base16 = Ret b None
  /\ Unmarshaler.scalar (reflect.mkValue reflectValue.bytesType x true false)
       (onMock d true textDecoder toks off
          (Some (Scalar Binary (list_byte_of_string hex) ∅)))
     = (Done, reflect.mkValue reflectValue.bytesType (bytesValue b) true false).
Proof.
  intros hex. split; [reflexivity|].
  destruct (binary_base16 b Base16 (or_introl eq_refl)) as [B1 _].
  split; [exact B1|].
  unfold Unmarshaler.scalar.
  change (Unmarshaler.tok (onMock _ _ _ _ _ ?t)) with t. cbv iota.
  change (reflectValue.Interface_ (reflect.mkValue reflectValue.bytesType x true false))
    with (reflectValue.Ok (Some (reflectValue.bytesType, x))).
  cbv iota.
  change (Unmarshaler.hooked _ (Some (reflectValue.bytesType, x))) with (@None (rtype * reflect.value)).
  cbv iota.
  change (reflect.Kind_ (reflect.mkValue reflectValue.bytesType x true false)) with reflect.Slice.
  cbv iota. unfold Unmarshaler.convert.
  change (Unmarshaler.text (onMock d true textDecoder toks off _)) with true.
  cbv iota.
  change (default Base16 (∅ !! "encoding")) with Base16.
  change (binary (Unmarshaler.dec (onMock d true textDecoder toks off
            (Some (Scalar Binary (list_byte_of_string hex) ∅)))))
    with (@textDecoder.binary _).
  fold hex in B1. rewrite B1. reflexivity.
Qed.

End RoundTrip.

Ltac digit_step d :=
  match goal with
  | |- context [digitsOf (?D d)] =>
      let c := eval vm_compute in (hd "000"%byte (digitsOf (D Decimal.Nil))) in
      change (digitsOf (D d)) with (c :: digitsOf d);
      let v := eval vm_compute in (digitVal c) in
      cbn [parseDigits]; change (digitVal c) with v; cbv iota
  end.

Lemma parseDigits_acc (d : Decimal.uint) : forall p : positive,
  parseDigits (Z.pos p) (digitsOf d) = Some (Z.pos (Pos.of_uint_acc d p)).
Proof.
  induction d; intros p; [reflexivity|..]; digit_step d;
    cbn [Pos.of_uint_acc]; rewrite <- IHd; f_equal; lia.
Qed.

Lemma parseDigits_0 (d : Decimal.uint) :
  parseDigits 0 (digitsOf d) = Some (Z.of_N (Pos.of_uint d)).
Proof.
  induction d; [reflexivity|..]; digit_step d;
    cbn [Pos.of_uint]; first [exact IHd | apply parseDigits_acc].
Qed.

Lemma digitsOf_head (d : Decimal.uint) :
  d <> Decimal.Nil ->
  exists c r, digitsOf d = c :: r /\ c <> "-"%byte /\ c <> "+"%byte.
Proof.
  intros Hd. destruct d; [congruence|..];
    match goal with
    | |- context [digitsOf (?D d)] =>
        let c := eval vm_compute in (hd "000"%byte (digitsOf (D Decimal.Nil))) in
        exists c, (digitsOf d); split; [reflexivity|split; discriminate]
    end.
Qed.

Lemma Atoi_FormatInt (n : Z) :
  - 2 ^ 63 <= n < 2 ^ 63 ->
  strconv_Atoi (strconv_FormatInt n) = (n, None).
Proof.
  intros Hn. unfold strconv_FormatInt.
  destruct n as [|p|p]; [reflexivity| |].
  - cbn [Z.to_int NilZero.string_of_int].
    pose proof (Unsigned.to_uint_nonnil p) as Hnil.
    assert (E : NilZero.string_of_uint (Pos.to_uint p)
                = NilEmpty.string_of_uint (Pos.to_uint p)).
    { destruct (Pos.to_uint p); [congruence|reflexivity..]. }
    rewrite E. unfold strconv_Atoi. fold (digitsOf (Pos.to_uint p)).
    destruct (digitsOf_head _ Hnil) as (c & r & Hd & Hm & Hp).
    pose proof (parseDigits_0 (Pos.to_uint p)) as P.
    rewrite Unsigned.of_to in P. rewrite Hd in P |- *.
    assert (S1 : match c :: r with
                 | "-"%byte :: r0 => (true, r0)
                 | "+"%byte :: r0 => (false, r0)
                 | l => (false, l)
                 end = (false, c :: r)).
    { destruct c; try reflexivity; congruence. }
    rewrite S1. rewrite P. cbn [negb andb].
    replace (2 ^ 63 <=? Z.of_N (N.pos p)) with false
      by (symmetry; apply Z.leb_gt; simpl; lia).
    reflexivity.
  - cbn [Z.to_int NilZero.string_of_int].
    pose proof (Unsigned.to_uint_nonnil p) as Hnil.
    assert (E : NilZero.string_of_uint (Pos.to_uint p)
                = NilEmpty.string_of_uint (Pos.to_uint p)).
    { destruct (Pos.to_uint p); [congruence|reflexivity..]. }
    rewrite E. unfold strconv_Atoi.
    change (list_byte_of_string (String.String "-" (NilEmpty.string_of_uint (Pos.to_uint p))))
      with ("-"%byte :: digitsOf (Pos.to_uint p)).
    cbv iota.
    destruct (digitsOf_head _ Hnil) as (c & r & Hd & Hm & Hp).
    pose proof (parseDigits_0 (Pos.to_uint p)) as P.
    rewrite Unsigned.of_to in P. rewrite Hd in P |- *.
    rewrite P. cbn [negb andb].
    replace (2 ^ 63 <? Z.of_N (N.pos p)) with false
      by (symmetry; apply Z.ltb_ge; simpl; lia).
    reflexivity.
Qed.

Section IntegerRoundTrip.

Context `{GoLibrary} `{UserHooks} `{MapOrder}.

(** X30.  Integers are a round trip in text.  The encoder writes a value
    [n] of kind [int], [int8], [int16] or [int32] as an [integer] element
    holding [strconv.FormatInt(n, 10)], and the text decoder's [integer]
    reads the decimal form of every [n] of the 64-bit range back as [n],
    without error. *)
Theorem integer_text_round_trip (k : reflect.Kind) (n : Z)
  (c : XMLEncoder.t) :
  marshalledInt k = true ->
  - 2 ^ 63 <= n < 2 ^ 63 ->
  XMLEncoder.marshalValue 1
    (Some (reflect.ValueOf (reflect.Basic k) (reflect.VInt n))) None c
  = (Done, XMLEncoder.element "integer" (strconv_FormatInt n) c)
  /\ textDecoder.integer (list_byte_of_string (strconv_FormatInt n))
     = Ret n None.
Proof.
  intros Hk Hn. split.
  - destruct k; try discriminate Hk; reflexivity.
  - unfold textDecoder.integer.
    rewrite string_of_list_byte_of_string, (Atoi_FormatInt n Hn). reflexivity.
Qed.

End IntegerRoundTrip.

Lemma integer_text_round_trip_witness :
  marshalledInt reflect.Int32 = true
  /\ - 2 ^ 63 <= -42 < 2 ^ 63
  /\ textDecoder.integer (list_byte_of_string (strconv_FormatInt (-42)))
     = Ret (-42) None.
Proof.
  assert (Hn : - 2 ^ 63 <= -42 < 2 ^ 63) by lia.
  split; [reflexivity|]. split; [exact Hn|].
  exact (proj2 (@integer_text_round_trip plainLibrary noHooks keyOrder
                  reflect.Int32 (-42) XMLEncoder.New eq_refl Hn)).
Defined.

(** ** The XML encoder (xml_encode.go) *)

Lemma bytesOf_uuidValue (u : list byte) (a r : bool) :
  XMLEncoder.bytesOf (reflect.mkValue UUID (uuidValue u) a r) = u.
Proof.
  unfold XMLEncoder.bytesOf, reflectValue.elements, uuidValue. simpl.
  rewrite map_map. induction u as [|c u IH]; [reflexivity|].
  change (map ?f (c :: u)) with (f c :: map f u). cbv beta.
  f_equal; [apply byte_of_Z_u8|exact IH].
Qed.

Lemma append_empty_r (s : string) : s ++ EmptyString = s.
Proof.
  induction s as [|a s IH]; [reflexivity|].
  change (String.String a (s ++ EmptyString) = String.String a s). now f_equal.
Qed.

Lemma extends_refl c : extends c c.
Proof. split; [reflexivity|]. exists EmptyString. now rewrite append_empty_r. Qed.

Lemma extends_trans a b c : extends a b -> extends b c -> extends a c.
Proof.
  intros [I1 [s1 W1]] [I2 [s2 W2]]. split; [congruence|].
  exists (s1 ++ s2). rewrite W2, W1. now rewrite append_assoc.
Qed.

Lemma extends_writeString s c : extends c (XMLEncoder.writeString s c).
Proof. split; [reflexivity|]. now exists s. Qed.

Lemma extends_writeIndent c : extends c (XMLEncoder.writeIndent c).
Proof.
  unfold XMLEncoder.writeIndent.
  destruct (String.eqb _ _); [apply extends_refl|apply extends_writeString].
Qed.

Lemma extends_incDepth c : extends c (XMLEncoder.incDepth c).
Proof. destruct (extends_refl c) as [A B]. split; assumption. Qed.

Lemma extends_decDepth c : extends c (XMLEncoder.decDepth c).
Proof. destruct (extends_refl c) as [A B]. split; assumption. Qed.

Lemma depth_writeIndent c :
  XMLEncoder.depth (XMLEncoder.writeIndent c) = XMLEncoder.depth c.
Proof. unfold XMLEncoder.writeIndent. now destruct (String.eqb _ _). Qed.

Lemma extends_element n b c : extends c (XMLEncoder.element n b c).
Proof.
  unfold XMLEncoder.element.
  eapply extends_trans; [apply extends_writeIndent|].
  eapply extends_trans; [apply extends_writeString|].
  eapply extends_trans; [apply extends_writeString|].
  apply extends_writeString.
Qed.

Lemma depth_element n b c :
  XMLEncoder.depth (XMLEncoder.element n b c) = XMLEncoder.depth c.
Proof. unfold XMLEncoder.element. simpl. apply depth_writeIndent. Qed.

Lemma balanced_here st c : st <> Done -> balanced c (st, c).
Proof. intros N. split; [apply extends_refl|]. simpl. congruence. Qed.

Lemma balanced_done c c' :
  extends c c' -> XMLEncoder.depth c' = XMLEncoder.depth c -> balanced c (Done, c').
Proof. intros E D. split; [exact E|]. intros _. exact D. Qed.

Lemma balanced_failed c c' st :
  extends c c' -> st <> Done -> balanced c (st, c').
Proof. intros E N. split; [exact E|]. simpl. congruence. Qed.

Lemma balanced_from c c1 r :
  extends c c1 -> XMLEncoder.depth c1 = XMLEncoder.depth c ->
  balanced c1 r -> balanced c r.
Proof.
  intros E D [E1 D1]. split; [eapply extends_trans; eauto|].
  intros Hd. rewrite D1 by exact Hd. exact D.
Qed.

Lemma balanced_seq c (r : status * XMLEncoder.t) (k : XMLEncoder.t -> status * XMLEncoder.t) :
  balanced c r ->
  (forall c1, balanced c1 (k c1)) ->
  balanced c (match r with (Done, c1) => k c1 | _ => r end).
Proof.
  intros [E D] K. destruct r as [st c1]. simpl in *.
  destruct st; try (apply balanced_failed; [exact E|discriminate]).
  eapply balanced_from; [exact E|apply D; reflexivity|apply K].
Qed.

Section EncoderProperties.

Context `{GoLibrary} `{UserHooks} `{MapOrder}.

(** X26.  A [UUID] is never written as a [uuid] element: its kind is
    [Array] with byte elements, so the byte-sequence branch takes it before
    the type switch is reached.  Through a pointer it is written as a
    [binary] element in uppercase base16; passed by value it is not
    addressable and [reflect.Value.Slice] panics. *)
Theorem UUID_marshals_as_binary (u : list byte) (fuel : nat) :
  MarshalXML (2 + fuel)
    (Some (reflect.PointerTo UUID, reflect.VPointer (Some (uuidValue u))))
  = (Done, xml.Header ++ "<llsd><binary>"
           ++ strings_ToUpper (hex_EncodeToString u) ++ "</binary></llsd>")
  /\ MarshalXML (1 + fuel) (Some (UUID, uuidValue u))
     = (Panicked "reflect.Value.Slice: slice of unaddressable array", EmptyString).
Proof.
  split.
  - unfold MarshalXML, XMLEncoder.Encode.
    change (2 + fuel)%nat with (S (S fuel)). cbn [XMLEncoder.marshalValue].
    cbv beta iota.
    change (negb (reflect.CanInterface (reflect.ValueOf (reflect.PointerTo UUID) (reflect.VPointer (Some (uuidValue u))))))
      with false.
    cbv iota.
    change (reflectValue.Interface_ (reflect.ValueOf (reflect.PointerTo UUID) (reflect.VPointer (Some (uuidValue u)))))
      with (reflectValue.Ok (Some (reflect.PointerTo UUID, reflect.VPointer (Some (uuidValue u))))).
    cbv iota.
    change (XMLEncoder.hasMarshalText (reflect.PointerTo UUID)) with false.
    cbv iota.
    change (reflect.Kind_ (reflect.ValueOf (reflect.PointerTo UUID) (reflect.VPointer (Some (uuidValue u)))))
      with reflect.Pointer.
    change (reflect.val (reflect.ValueOf (reflect.PointerTo UUID) (reflect.VPointer (Some (uuidValue u)))))
      with (reflect.VPointer (Some (uuidValue u))).
    change (reflectValue.elemType (reflect.typ (reflect.ValueOf (reflect.PointerTo UUID) (reflect.VPointer (Some (uuidValue u))))))
      with (Some UUID).
    cbv iota.
    change (reflect.readOnly (reflect.ValueOf (reflect.PointerTo UUID) (reflect.VPointer (Some (uuidValue u)))))
      with false.
    unfold XMLEncoder.marshalKind.
    change (reflect.Kind_ (reflect.mkValue UUID (uuidValue u) true false)) with reflect.Array.
    cbv iota.
    change (reflectValue.elemType (reflect.typ (reflect.mkValue UUID (uuidValue u) true false)))
      with (Some (reflect.Basic reflect.Uint8)).
    cbv iota.
    change (reflect.Kind_eqb (reflect.kindOf (reflect.Basic reflect.Uint8)) reflect.Uint8) with true.
    cbv iota.
    unfold XMLEncoder.marshalBinary.
    change (XMLEncoder.fieldEncoding None) with Base16.
    change (String.eqb Base16 Base16) with true. cbv iota.
    change (reflect.Kind_ (reflect.mkValue UUID (uuidValue u) true false)) with reflect.Array.
    change (reflect.addressable (reflect.mkValue UUID (uuidValue u) true false)) with true.
    change (reflect.Kind_eqb reflect.Array reflect.Array && negb true) with false.
    cbv iota.
    change (reflectValue.elemType (reflect.typ (reflect.mkValue UUID (uuidValue u) true false)))
      with (Some (reflect.Basic reflect.Uint8)).
    cbv iota.
    change (negb (reflect.rtype_eqb (reflect.SliceOf (reflect.Basic reflect.Uint8)) reflectValue.bytesType))
      with false.
    cbv iota.
    rewrite bytesOf_uuidValue.
    unfold XMLEncoder.writeBytes. change (String.eqb Base16 Base16) with true. cbv iota.
    cbv -[String.append strings_ToUpper hex_EncodeToString]. rewrite !append_assoc. reflexivity.
  - unfold MarshalXML, XMLEncoder.Encode.
    change (1 + fuel)%nat with (S fuel). reflexivity.
Qed.

(** X27.  The 64-bit integer kinds, [uintptr] and the complex kinds have no
    case in the encoder: [MarshalXML] of a value of such a predeclared type
    fails with [MarshalTypeError] and returns no bytes, although the decoder
    accepts [int64] and [uint64] destinations. *)
Theorem wide_integers_not_marshalled (k : reflect.Kind) (x : reflect.value) (fuel : nat) :
  notMarshalled k = true ->
  MarshalXML (1 + fuel) (Some (reflect.Basic k, x))
  = (Failed (MarshalTypeError (reflect.Basic k)), EmptyString).
Proof.
  intros Hk. destruct k; try discriminate Hk; reflexivity.
Qed.

Lemma balanced_writeBytes b enc c :
  extends c (snd (XMLEncoder.writeBytes b enc c))
  /\ XMLEncoder.depth (snd (XMLEncoder.writeBytes b enc c)) = XMLEncoder.depth c.
Proof.
  unfold XMLEncoder.writeBytes.
  destruct (String.eqb enc Base16); [split; [apply extends_writeString|reflexivity]|].
  destruct (String.eqb enc Base64); [split; [apply extends_writeString|reflexivity]|].
  destruct (String.eqb enc Base85); [split; [apply extends_writeString|reflexivity]|].
  split; [apply extends_refl|reflexivity].
Qed.

Lemma balanced_marshalBinary v info c :
  balanced c (XMLEncoder.marshalBinary v info c).
Proof.
  unfold XMLEncoder.marshalBinary.
  set (c1 := if String.eqb (XMLEncoder.fieldEncoding info) Base16 then _ else _).
  assert (E1 : extends c c1 /\ XMLEncoder.depth c1 = XMLEncoder.depth c).
  { subst c1. destruct (String.eqb _ _); (split;
      [eapply extends_trans; [apply extends_writeIndent|apply extends_writeString]
      |simpl; apply depth_writeIndent]). }
  destruct E1 as [E1 D1].
  destruct (_ && _); [apply balanced_failed; [exact E1|discriminate]|].
  destruct (negb _); [apply balanced_failed; [exact E1|discriminate]|].
  pose proof (balanced_writeBytes (XMLEncoder.bytesOf v) (XMLEncoder.fieldEncoding info) c1) as [E2 D2].
  destruct (XMLEncoder.writeBytes _ _ c1) as [[err|] c2]; simpl in E2, D2.
  - apply balanced_failed; [eapply extends_trans; eauto|discriminate].
  - apply balanced_done.
    + eapply extends_trans; [exact E1|]. eapply extends_trans; [exact E2|].
      apply extends_writeString.
    + simpl. congruence.
Qed.

Section Loops.
Variable rec : option Value -> option fieldInfo -> XMLEncoder.t -> status * XMLEncoder.t.
Hypothesis rec_balanced : forall v info c, balanced c (rec v info c).

Lemma balanced_structFields v fields : forall c,
  balanced c (XMLEncoder.structFields rec v fields c).
Proof.
  induction fields as [|[key field] rest IH]; intros c.
  - apply balanced_done; [apply extends_refl|reflexivity].
  - cbn [XMLEncoder.structFields].
    destruct (Omit _); [apply IH|].
    destruct (reflectValue.Field _ _) as [subv|m];
      [|apply balanced_here; discriminate].
    destruct (negb _); [apply IH|].
    destruct (_ && _); [apply IH|].
    set (c1 := XMLEncoder.writeString "</key>" _).
    assert (E1 : extends c c1).
    { subst c1. eapply extends_trans; [apply extends_writeIndent|].
      eapply extends_trans; [apply extends_writeString|].
      eapply extends_trans; [apply extends_writeString|].
      apply extends_writeString. }
    assert (D1 : XMLEncoder.depth c1 = XMLEncoder.depth c).
    { subst c1. simpl. apply depth_writeIndent. }
    eapply balanced_from; [exact E1|exact D1|].
    pose proof (balanced_seq c1 (rec (Some subv) (Some field) c1)
                  (XMLEncoder.structFields rec v rest) (rec_balanced _ _ _) IH) as B.
    destruct (rec (Some subv) (Some field) c1) as [[] c2]; exact B.
Qed.

Lemma balanced_mapEntries v et entries : forall c,
  balanced c (XMLEncoder.mapEntries rec v et entries c).
Proof.
  induction entries as [|[key x] rest IH]; intros c.
  - apply balanced_done; [apply extends_refl|reflexivity].
  - cbn [XMLEncoder.mapEntries]. cbv zeta.
    eapply balanced_from; [apply extends_writeIndent|apply depth_writeIndent|].
    set (c0 := XMLEncoder.writeIndent c).
    destruct (negb _); [apply IH|].
    set (c1 := XMLEncoder.writeString "</key>" _).
    assert (E1 : extends c0 c1).
    { subst c1.
      eapply extends_trans; [apply extends_writeString|].
      eapply extends_trans; [apply extends_writeString|].
      apply extends_writeString. }
    assert (D1 : XMLEncoder.depth c1 = XMLEncoder.depth c0) by reflexivity.
    eapply balanced_from; [exact E1|exact D1|].
    pose proof (balanced_seq c1 (rec (Some (reflect.mkValue et x false (reflect.readOnly v))) None c1)
                  (XMLEncoder.mapEntries rec v et rest) (rec_balanced _ _ _) IH) as B.
    destruct (rec _ None c1) as [[] c2]; exact B.
Qed.

Lemma balanced_arrayElems elems : forall c,
  balanced c (XMLEncoder.arrayElems rec elems c).
Proof.
  induction elems as [|subv rest IH]; intros c.
  - apply balanced_done; [apply extends_refl|reflexivity].
  - cbn [XMLEncoder.arrayElems].
    pose proof (balanced_seq c (rec (Some subv) None c)
                  (XMLEncoder.arrayElems rec rest) (rec_balanced _ _ _) IH) as B.
    destruct (rec _ None c) as [[] c2]; exact B.
Qed.

Lemma balanced_nested c c1 (r : status * XMLEncoder.t) (close : XMLEncoder.t -> XMLEncoder.t) :
  extends c c1 -> XMLEncoder.depth c1 = S (XMLEncoder.depth c) ->
  balanced c1 r ->
  (forall c2, extends c2 (close c2)
              /\ XMLEncoder.depth (close c2) = Nat.pred (XMLEncoder.depth c2)) ->
  balanced c (match r with (Done, c2) => (Done, close c2) | _ => r end).
Proof.
  intros E D [E1 D1] C. destruct r as [st c2]. simpl in *.
  destruct st; try (apply balanced_failed; [eapply extends_trans; eauto|discriminate]).
  destruct (C c2) as [E2 D2].
  apply balanced_done.
  - eapply extends_trans; [exact E|]. eapply extends_trans; eauto.
  - rewrite D2, D1 by reflexivity. rewrite D. reflexivity.
Qed.

Lemma balanced_marshalKind v info c :
  balanced c (XMLEncoder.marshalKind rec v info c).
Proof.
  unfold XMLEncoder.marshalKind.
  assert (Open : forall s, extends c (XMLEncoder.incDepth (XMLEncoder.writeString s (XMLEncoder.writeIndent c)))
                 /\ XMLEncoder.depth (XMLEncoder.incDepth (XMLEncoder.writeString s (XMLEncoder.writeIndent c)))
                    = S (XMLEncoder.depth c)).
  { intros s. split.
    - eapply extends_trans; [apply extends_writeIndent|].
      eapply extends_trans; [apply extends_writeString|apply extends_incDepth].
    - simpl. now rewrite depth_writeIndent. }
  assert (Scalar : forall n b, balanced c (Done, XMLEncoder.element n b c)).
  { intros n b. apply balanced_done; [apply extends_element|apply depth_element]. }
  destruct (reflect.Kind_ v) eqn:K;
    try (destruct (reflect.val v); first [apply Scalar | apply balanced_here; discriminate]).
  all: try (destruct (reflect.val v); try (apply balanced_here; discriminate);
            destruct (reflect.rtype_eqb (reflect.typ v) URL); apply Scalar).
  all: try (destruct (reflect.rtype_eqb (reflect.typ v) UUID); [apply Scalar|];
            destruct (reflect.rtype_eqb (reflect.typ v) URL);
            [destruct (reflect.val v); first [apply Scalar | apply balanced_here; discriminate]|];
            destruct (reflect.typ v); try (apply balanced_here; discriminate);
            destruct (reflect.val v); first [apply Scalar | apply balanced_here; discriminate]).
  - (* Array *)
    destruct (reflectValue.elemType _) as [e|]; [|apply balanced_here; discriminate].
    destruct (reflect.Kind_eqb _ _); [apply balanced_marshalBinary|].
    cbv zeta. destruct (Open "<array>") as [E1 D1].
    destruct (reflectValue.elements v) as [l|m];
      [|apply balanced_failed; [exact E1|discriminate]].
    pose proof (balanced_nested c _ (XMLEncoder.arrayElems rec
                   (map (fun x => reflect.mkValue e x
                      (reflect.Kind_eqb reflect.Array reflect.Slice || reflect.addressable v)
                      (reflect.readOnly v)) l)
                   (XMLEncoder.incDepth (XMLEncoder.writeString "<array>" (XMLEncoder.writeIndent c))))
                  (fun c2 => XMLEncoder.decDepth (XMLEncoder.writeString "</array>" c2))
                  E1 D1 (balanced_arrayElems _ _)) as B.
    match type of B with (?P -> _) => assert (HP : P) end.
    { intros c2. split; [|reflexivity].
      eapply extends_trans; [apply extends_writeString|apply extends_decDepth]. }
    specialize (B HP).
    destruct (XMLEncoder.arrayElems _ _ _) as [[] c2]; exact B.
  - (* Interface *)
    destruct (reflectValue.Elem v); [apply rec_balanced|apply balanced_here; discriminate].
  - (* Map *)
    cbv zeta. destruct (Open "<map>") as [E1 D1].
    destruct (reflect.val v) as [| | | | | | | | | |entries| | |];
      try (apply balanced_failed; [exact E1|discriminate]).
    destruct (reflectValue.elemType _) as [et|];
      [|apply balanced_failed; [exact E1|discriminate]].
    pose proof (balanced_nested c _ (XMLEncoder.mapEntries rec v et (rangeEntries (default [] entries))
                   (XMLEncoder.incDepth (XMLEncoder.writeString "<map>" (XMLEncoder.writeIndent c))))
                  (fun c2 => XMLEncoder.decDepth (XMLEncoder.writeString "</map>" (XMLEncoder.writeIndent c2)))
                  E1 D1 (balanced_mapEntries _ _ _ _)) as B.
    match type of B with (?P -> _) => assert (HP : P) end.
    { intros c2. split.
      - eapply extends_trans; [apply extends_writeIndent|].
        eapply extends_trans; [apply extends_writeString|apply extends_decDepth].
      - simpl. now rewrite depth_writeIndent. }
    specialize (B HP).
    destruct (XMLEncoder.mapEntries _ _ _ _ _) as [[] c2]; exact B.
  - (* Slice *)
    destruct (reflectValue.elemType _) as [e|]; [|apply balanced_here; discriminate].
    destruct (reflect.Kind_eqb _ _); [apply balanced_marshalBinary|].
    cbv zeta. destruct (Open "<array>") as [E1 D1].
    destruct (reflectValue.elements v) as [l|m];
      [|apply balanced_failed; [exact E1|discriminate]].
    pose proof (balanced_nested c _ (XMLEncoder.arrayElems rec
                   (map (fun x => reflect.mkValue e x
                      (reflect.Kind_eqb reflect.Slice reflect.Slice || reflect.addressable v)
                      (reflect.readOnly v)) l)
                   (XMLEncoder.incDepth (XMLEncoder.writeString "<array>" (XMLEncoder.writeIndent c))))
                  (fun c2 => XMLEncoder.decDepth (XMLEncoder.writeString "</array>" c2))
                  E1 D1 (balanced_arrayElems _ _)) as B.
    match type of B with (?P -> _) => assert (HP : P) end.
    { intros c2. split; [|reflexivity].
      eapply extends_trans; [apply extends_writeString|apply extends_decDepth]. }
    specialize (B HP).
    destruct (XMLEncoder.arrayElems _ _ _) as [[] c2]; exact B.
  - (* Struct *)
    cbv zeta. destruct (Open "<map>") as [E1 D1].
    pose proof (balanced_nested c _ (XMLEncoder.structFields rec v
                   (rangeFields (cachedFieldsForType (reflect.typ v)))
                   (XMLEncoder.incDepth (XMLEncoder.writeString "<map>" (XMLEncoder.writeIndent c))))
                  (fun c2 => XMLEncoder.writeString "</map>" (XMLEncoder.writeIndent (XMLEncoder.decDepth c2)))
                  E1 D1 (balanced_structFields _ _ _)) as B.
    match type of B with (?P -> _) => assert (HP : P) end.
    { intros c2. split.
      - eapply extends_trans; [apply extends_decDepth|].
        eapply extends_trans; [apply extends_writeIndent|apply extends_writeString].
      - simpl. now rewrite depth_writeIndent. }
    specialize (B HP).
    destruct (XMLEncoder.structFields _ _ _ _) as [[] c2]; exact B.
Qed.

End Loops.

Lemma balanced_marshalValue (fuel : nat) : forall v info c,
  balanced c (XMLEncoder.marshalValue fuel v info c).
Proof.
  induction fuel as [|fuel IH]; intros v info c.
  - apply balanced_here; discriminate.
  - cbn [XMLEncoder.marshalValue].
    destruct v as [v|]; [|apply balanced_here; discriminate].
    destruct (negb _); [apply balanced_done; [apply extends_refl|reflexivity]|].
    destruct (match info with Some i => _ | None => false end);
      [apply balanced_done; [apply extends_refl|reflexivity]|].
    destruct (reflectValue.Interface_ v) as [d|m]; [|apply balanced_here; discriminate].
    destruct d as [[T x]|]; [|apply balanced_marshalKind; exact IH].
    destruct (XMLEncoder.hasMarshalText T).
    + destruct (call_MarshalTextLLSD T x) as [[ty s] [err|]|m];
        try (apply balanced_here; discriminate).
      apply balanced_done; [apply extends_element|apply depth_element].
    + destruct (reflect.Kind_ v); try (apply balanced_marshalKind; exact IH).
      destruct (reflect.val v) as [| | | | | | | |p| | | | |];
        try (apply balanced_here; discriminate).
      destruct p as [x'|].
      * destruct (reflectValue.elemType _); [apply balanced_marshalKind; exact IH|].
        apply balanced_here; discriminate.
      * apply balanced_done.
        -- eapply extends_trans; [apply extends_writeIndent|apply extends_writeString].
        -- simpl. apply depth_writeIndent.
Qed.

(** X28.  The encoder is balanced: a successful [marshalValue] returns at
    the nesting depth at which it started, with the indent unchanged, and
    has only appended to what was written before. *)
Theorem marshalValue_balanced (fuel : nat) (v : option Value) (info : option fieldInfo)
  (c c' : XMLEncoder.t) :
  XMLEncoder.marshalValue fuel v info c = (Done, c') ->
  XMLEncoder.indent c' = XMLEncoder.indent c
  /\ XMLEncoder.depth c' = XMLEncoder.depth c
  /\ exists s, XMLEncoder.w c' = XMLEncoder.w c ++ s.
Proof.
  intros E. destruct (balanced_marshalValue fuel v info c) as [[I W] D].
  rewrite E in I, W, D. simpl in I, W, D. auto.
Qed.

(** X29.  Every successful output of [MarshalXMLIndent], and of
    [MarshalXML], which is the case of the empty indent, is the XML header
    and [<llsd>], the encoding of the value, and [</llsd>], which stands on
    a line of its own without indentation when an indent is set. *)
Theorem MarshalXMLIndent_framed (fuel : nat) (v : option (rtype * reflect.value))
  (ind out : string) :
  MarshalXMLIndent fuel v ind = (Done, out) ->
  MarshalXML fuel v = MarshalXMLIndent fuel v EmptyString
  /\ exists body,
    out = xml.Header ++ "<llsd>" ++ body
          ++ (if String.eqb ind EmptyString then EmptyString
              else String.String "010"%char EmptyString)
          ++ "</llsd>".
Proof.
  intros E0. split; [reflexivity|]. revert E0.
  unfold MarshalXMLIndent, XMLEncoder.Encode.
  set (e0 := XMLEncoder.incDepth _).
  set (v' := match v with Some (T, x) => _ | None => None end).
  destruct (balanced_marshalValue fuel v' None e0) as [[I [s W]] D].
  destruct (XMLEncoder.marshalValue fuel v' None e0) as [st e1].
  simpl in I, W, D.
  destruct st; try discriminate. intros E. inversion E; subst out; clear E.
  specialize (D eq_refl). exists s.
  unfold XMLEncoder.writeIndent, XMLEncoder.writeString, XMLEncoder.decDepth.
  cbn [XMLEncoder.indent XMLEncoder.depth XMLEncoder.w].
  rewrite I, D, W.
  change (XMLEncoder.indent e0) with ind.
  change (XMLEncoder.depth e0) with 1%nat.
  change (XMLEncoder.w e0) with ((EmptyString ++ xml.Header) ++ "<llsd>").
  destruct (String.eqb ind EmptyString);
    cbn [XMLEncoder.w Nat.pred strings_Repeat];
    change (EmptyString ++ xml.Header) with xml.Header;
    rewrite ?append_empty_r, ?append_assoc; reflexivity.
Qed.

End EncoderProperties.

Lemma wide_integers_not_marshalled_witness :
  notMarshalled reflect.Int64 = true
  /\ @MarshalXML plainLibrary noHooks keyOrder (1 + 0)
       (Some (reflect.Basic reflect.Int64, reflect.VInt 5))
     = (Failed (MarshalTypeError (reflect.Basic reflect.Int64)), EmptyString).
Proof.
  split; [reflexivity|].
  exact (@wide_integers_not_marshalled plainLibrary noHooks keyOrder
           reflect.Int64 (reflect.VInt 5) 0%nat eq_refl).
Defined.

Lemma marshalValue_balanced_witness :
  @XMLEncoder.marshalValue plainLibrary noHooks keyOrder 1 stringA None
    XMLEncoder.New
  = (Done, XMLEncoder.element "string" "a" XMLEncoder.New)
  /\ XMLEncoder.depth (XMLEncoder.element "string" "a" XMLEncoder.New)
     = XMLEncoder.depth XMLEncoder.New.
Proof.
  split; [reflexivity|].
  exact (proj1 (proj2
           (@marshalValue_balanced plainLibrary noHooks keyOrder 1%nat stringA
              None XMLEncoder.New
              (XMLEncoder.element "string" "a" XMLEncoder.New) eq_refl))).
Defined.

Lemma MarshalXMLIndent_framed_witness :
  @MarshalXMLIndent plainLibrary noHooks keyOrder 2
    (Some (stringT, reflect.VString "a")) "  "
  = (Done,
     xml.Header ++ "<llsd>" ++ String.String "010"%char "  <string>a</string>"
     ++ String.String "010"%char EmptyString ++ "</llsd>")
  /\ exists body,
       xml.Header ++ "<llsd>" ++ String.String "010"%char "  <string>a</string>"
       ++ String.String "010"%char EmptyString ++ "</llsd>"
       = xml.Header ++ "<llsd>" ++ body
         ++ (if String.eqb "  " EmptyString then EmptyString
             else String.String "010"%char EmptyString)
         ++ "</llsd>".
Proof.
  split; [reflexivity|].
  exact (proj2 (@MarshalXMLIndent_framed plainLibrary noHooks keyOrder 2%nat
                  (Some (stringT, reflect.VString "a")) "  " _ eq_refl)).
Defined.
